(** * Betting analyzer: odds analysis and combination building

    A shallow embedding of [src/betting_analyzer.py] (class
    [BettingAnalyzer]), of the odds extractor of [src/sports_api.py] and
    of the commands of [src/main.py] that analyse matches and build
    combinations, with the properties of the specification and further
    properties of the code.

    Numbers.  Python's [int] is [Z].  Python's [float] has two readings.
    Where what the code returns depends on the rounding of an operation,
    on [int()] or on an exception (the confidence, [analyze_match], the
    product of the odds of a combination, and the commands built on
    them), floats are binary64 numbers, every operation rounds, and
    [int()] raises on an infinity and on NaN.  For the properties of
    continuous quantities (the implied probabilities, the score that
    ranks the outcomes, the bands of the value test) floats are read as
    exact rationals [Q], compared with [==]; that reading says nothing
    about rounding, infinities or NaN.  The prices of the bookmakers and
    the numbers read from a text are rationals in both: the value of the
    [int] or the float the program holds.

    Dictionaries.  The odds dictionary is only ever looked up, so it is a
    [gmap string Q].  The probability dictionary is iterated in insertion
    order, so it is an association list in that order.  The analysis
    records handed to the combination builder are Python dictionaries
    shared by reference: they live in a store, and the lists handled by
    the code hold their addresses. *)

From Stdlib Require Import Ascii String QArith Qround Qabs Lqa Lia SpecFloat.
From stdpp Require Import gmap strings list fin_maps sorting.

Local Open Scope Q_scope.

(** ** Numbers *)

Definition Qlt_bool (a b : Q) : bool := negb (Qle_bool b a).

(** [int(x)]: truncation toward zero. *)
Definition py_int (x : Q) : Z := Z.quot (Qnum x) (Z.pos (Qden x)).

(** [max(a, b)] on numbers: the first argument is kept unless the second
    is strictly greater. *)
Definition py_max (a b : Q) : Q := if Qlt_bool a b then b else a.

(** [round(x)]: nearest integer, ties to the even neighbour. *)
Definition py_round (x : Q) : Z :=
  let f := Qfloor x in
  let r := x - inject_Z f in
  if Qlt_bool r (1 # 2) then f
  else if Qlt_bool (1 # 2) r then (f + 1)%Z
  else if Z.even f then f else (f + 1)%Z.

(** [round(x, 2)]: the same rounding applied to the hundredths. *)
Definition py_round2 (x : Q) : Q := inject_Z (py_round (x * 100)) / 100.

(** ** Exceptions *)

Inductive exn : Type :=
  | KeyError (key : string)
  | IndexError
  | ValueError
  | TypeError
  | AttributeError
  | ZeroDivisionError
  | OverflowError.

Inductive result (A : Type) : Type :=
  | Ok (a : A)
  | Raise (e : exn).
Arguments Ok {A} a.
Arguments Raise {A} e.

(** ** Binary64 numbers

    Python's [float] is IEEE 754 binary64.  Where what the code returns
    depends on the rounding of each operation, or on infinities and NaN,
    the operations are those of the Standard Library's specification of
    binary64 ([SpecFloat] with precision 53 and exponent bound 1024):
    every operation rounds to nearest, ties to even, overflows to an
    infinity, and propagates NaN. *)

Definition fmul : spec_float -> spec_float -> spec_float := SFmul 53 1024.
Definition fadd : spec_float -> spec_float -> spec_float := SFadd 53 1024.
Definition fsub : spec_float -> spec_float -> spec_float := SFsub 53 1024.
Definition fdiv : spec_float -> spec_float -> spec_float := SFdiv 53 1024.

(** [a < b] on floats: false as soon as one side is NaN. *)
Definition flt : spec_float -> spec_float -> bool := SFltb.

(** The binary64 number nearest to a rational: what a literal denotes,
    what [float(s)] returns for a numeral of that value, and what an
    [int] of that value becomes in an operation with a float.  A value
    beyond the largest binary64 number gives an infinity. *)
Definition b64 (q : Q) : spec_float :=
  match Qnum q with
  | Z0 => S754_zero false
  | Zpos n => fdiv (S754_finite false n 0) (S754_finite false (Qden q) 0)
  | Zneg n => fdiv (S754_finite true n 0) (S754_finite false (Qden q) 0)
  end.

(** The value of a finite binary64 number (0 for the others). *)
Definition exact (x : spec_float) : Q :=
  match x with
  | S754_finite s m e =>
      (if s then -1 else 1) * inject_Z (Zpos m) * Qpower 2 e
  | _ => 0
  end.

(** [int(x)] on a float: truncation toward zero; [OverflowError] on an
    infinity, [ValueError] on NaN. *)
Definition float_int (x : spec_float) : result Z :=
  match x with
  | S754_nan => Raise ValueError
  | S754_infinity _ => Raise OverflowError
  | _ => Ok (py_int (exact x))
  end.

(** [round(x, 2)] on a float: the binary64 number nearest to the value of
    [x] rounded to the hundredths, ties to even; infinities and NaN are
    returned as they are, and a zero keeps the sign of [x]. *)
Definition float_round2 (x : spec_float) : spec_float :=
  match x with
  | S754_finite s m e =>
      match py_round (Qabs (exact x) * 100) with
      | Zpos n => fdiv (S754_finite s n 0) (S754_finite false 100 0)
      | _ => S754_zero s
      end
  | _ => x
  end.

(** ** Insertion-ordered dictionaries *)

Definition dict (V : Type) : Type := list (string * V).

Fixpoint dict_lookup {V} (k : string) (d : dict V) : option V :=
  match d with
  | [] => None
  | (k', v) :: d' => if String.eqb k k' then Some v else dict_lookup k d'
  end.

(** [d.get(k, dflt)] *)
Definition dict_get {V} (d : dict V) (k : string) (dflt : V) : V :=
  default dflt (dict_lookup k d).

(** [d[k] = v]: overwrite in place, or append a new key. *)
Fixpoint dict_set {V} (k : string) (v : V) (d : dict V) : dict V :=
  match d with
  | [] => [(k, v)]
  | (k', v') :: d' =>
      if String.eqb k k' then (k, v) :: d' else (k', v') :: dict_set k v d'
  end.

Definition dict_keys {V} (d : dict V) : list string := fst <$> d.
Definition dict_values {V} (d : dict V) : list V := snd <$> d.

Definition Qsum (l : list Q) : Q := foldr Qplus 0 l.

(** [odds.get(k, dflt)] on the odds dictionary. *)
Definition odds_get (odds : gmap string Q) (k : string) (dflt : Q) : Q :=
  default dflt (odds !! k).

(** ** The three outcomes, in the order the code visits them *)

Inductive outcome : Type := home | away | draw.

Definition outcomes : list outcome := [home; away; draw].

Definition outcome_key (w : outcome) : string :=
  match w with home => "home" | away => "away" | draw => "draw" end.

Definition outcome_rank (w : outcome) : nat :=
  match w with home => 0 | away => 1 | draw => 2 end.

(** [odds.get(w, 0) > 0] *)
Definition has_odds (odds : gmap string Q) (w : outcome) : bool :=
  Qlt_bool 0 (odds_get odds (outcome_key w) 0).

(** ** [_calculate_probabilities] *)

(** One of the three guarded blocks:
    [if odds.get(k, 0) > 0: probs[k] = 1 / odds[k]; total_prob += probs[k]].
    [odds[k]] is read under the guard only, where the key is present and
    holds the value the guard has just read. *)
Definition add_raw_probability (odds : gmap string Q) (k : string)
    (st : dict Q * Q) : dict Q * Q :=
  let '(probs, total_prob) := st in
  if Qlt_bool 0 (odds_get odds k 0) then
    let probs := dict_set k (1 / odds_get odds k 0) probs in
    (probs, total_prob + dict_get probs k 0)
  else (probs, total_prob).

Definition _calculate_probabilities (odds : gmap string Q) : dict Q :=
  let st := ([], 0) in
  let st := add_raw_probability odds "home" st in
  let st := add_raw_probability odds "away" st in
  let st := add_raw_probability odds "draw" st in
  let '(probs, total_prob) := st in
  if Qlt_bool 0 total_prob then
    (* for key in probs: probs[key] = probs[key] / total_prob *)
    foldl (fun d key => dict_set key (dict_get d key 0 / total_prob) d)
          probs (dict_keys probs)
  else probs.

Definition positive_outcomes (odds : gmap string Q) : list outcome :=
  List.filter (has_odds odds) outcomes.

(** The sum of [1/odds] over the outcomes with odds > 0. *)
Definition total_implied (odds : gmap string Q) : Q :=
  Qsum ((fun w => 1 / odds_get odds (outcome_key w) 0)
          <$> positive_outcomes odds).

(** ** [max(iterable, key=...)]

    The first element whose key is maximal: the running best is replaced
    only by an element with a strictly greater key.  An empty iterable
    raises [ValueError]. *)

Fixpoint max_from {A} (key : A -> Q) (best : A) (l : list A) : A :=
  match l with
  | [] => best
  | x :: l' =>
      if Qlt_bool (key best) (key x) then max_from key x l'
      else max_from key best l'
  end.

Definition py_max_by {A} (key : A -> Q) (l : list A) : result A :=
  match l with
  | [] => Raise ValueError
  | x :: l' => Ok (max_from key x l')
  end.

(** ** [_analyze_best_bet] *)

(** The entries of [options]. *)
Record bet_option : Type := {
  o_type : string;
  o_team : string;
  o_odds : Q;
  o_probability : Q;
  o_value_score : Q;
  o_recommendation : string
}.

(** The dictionary returned by [_analyze_best_bet]. *)
Record best_bet : Type := {
  recommendation : string;
  recommended_odds : Q;
  probability : Q;
  value_score : Q;
  bet_type : string
}.

(** [option['combined_score']], as the loop over [options] sets it. *)
Definition combined_score (o : bet_option) : Q :=
  o_probability o * 0.6 + py_max 0 (o_value_score o) * 0.4.

(** One of the three guarded [options.append({...})] blocks. *)
Definition add_option (odds : gmap string Q) (probs : dict Q)
    (k team rec : string) (options : list bet_option) : list bet_option :=
  if Qlt_bool 0 (odds_get odds k 0) then
    let value_score := dict_get probs k 0 * odds_get odds k 0 - 1 in
    options ++ [ {| o_type := k;
                    o_team := team;
                    o_odds := odds_get odds k 0;
                    o_probability := dict_get probs k 0;
                    o_value_score := value_score;
                    o_recommendation := rec |} ]
  else options.

Definition bet_options (odds : gmap string Q) (probs : dict Q)
    (home_team away_team : string) : list bet_option :=
  let options := [] in
  let options :=
    add_option odds probs "home" home_team ("Victoire " +:+ home_team) options in
  let options :=
    add_option odds probs "away" away_team ("Victoire " +:+ away_team) options in
  let options :=
    add_option odds probs "draw" "Match nul" "Match nul" options in
  options.

Definition _analyze_best_bet (odds : gmap string Q) (probs : dict Q)
    (home_team away_team : string) : best_bet :=
  let options := bet_options odds probs home_team away_team in
  match py_max_by combined_score options with
  | Ok best_option =>
      (* if options: ... best_option = max(options, key=...) *)
      {| recommendation := o_recommendation best_option;
         recommended_odds := o_odds best_option;
         probability := o_probability best_option;
         value_score := o_value_score best_option;
         bet_type := o_type best_option |}
  | Raise _ =>
      (* options is empty *)
      {| recommendation := "Victoire " +:+ home_team;
         recommended_odds := odds_get odds "home" 2.0;
         probability := dict_get probs "home" 0.4;
         value_score := 0;
         bet_type := "home" |}
  end.

(** The score the selection rule assigns to an outcome:
    0.6 x probability + 0.4 x max(0, probability x odds - 1). *)
Definition outcome_score (odds : gmap string Q) (probs : dict Q)
    (w : outcome) : Q :=
  let p := dict_get probs (outcome_key w) 0 in
  let o := odds_get odds (outcome_key w) 0 in
  0.6 * p + 0.4 * py_max 0 (p * o - 1).

(** ** The adjustments of [_calculate_enhanced_confidence] *)


(** ** [_calculate_risk_level] *)

Definition _calculate_risk_level (odds : Q) : string :=
  if Qlt_bool odds 2.0 then "Faible"
  else if Qlt_bool odds 3.5 then "Moyen"
  else "Élevé".

(** ** The analyzer object and [_is_value_bet] *)

Record BettingAnalyzer : Type := {
  min_odds : Q;
  max_odds : Q
}.

(** [create_betting_analyzer(min_odds=1.5, max_odds=5.0)] *)
Definition create_betting_analyzer (min_odds max_odds : Q) : BettingAnalyzer :=
  {| min_odds := min_odds; max_odds := max_odds |}.

Definition default_analyzer : BettingAnalyzer := create_betting_analyzer 1.5 5.0.

(** [odds[k]]: a missing key raises [KeyError]. *)
Definition odds_index (odds : gmap string Q) (k : string) : result Q :=
  match odds !! k with
  | Some o => Ok o
  | None => Raise (KeyError k)
  end.

(** [self.min_odds <= o <= self.max_odds and prob > threshold] *)
Definition in_band_above (self : BettingAnalyzer) (o prob threshold : Q) : bool :=
  Qle_bool (min_odds self) o && Qle_bool o (max_odds self)
  && Qlt_bool threshold prob.

(** The loop [for outcome, prob in probs.items()], in insertion order. *)
Fixpoint _is_value_bet (self : BettingAnalyzer) (odds : gmap string Q)
    (probs : dict Q) : result bool :=
  match probs with
  | [] => Ok false
  | (outcome, prob) :: rest =>
      if String.eqb outcome "home" then
        match odds_index odds "home" with
        | Raise e => Raise e
        | Ok o => if in_band_above self o prob 0.3 then Ok true
                  else _is_value_bet self odds rest
        end
      else if String.eqb outcome "away" then
        match odds_index odds "away" with
        | Raise e => Raise e
        | Ok o => if in_band_above self o prob 0.3 then Ok true
                  else _is_value_bet self odds rest
        end
      else if String.eqb outcome "draw" then
        match odds_index odds "draw" with
        | Raise e => Raise e
        | Ok o => if in_band_above self o prob 0.25 then Ok true
                  else _is_value_bet self odds rest
        end
      else _is_value_bet self odds rest
  end.

(** The probability an outcome must exceed to count as a value bet. *)
Definition value_threshold (w : outcome) : Q :=
  match w with home | away => 0.3 | draw => 0.25 end.

(** Outcome [w] is listed in [probs] with probability [p] and qualifies:
    its odds lie in the band and [p] exceeds its threshold. *)
Definition qualifies (self : BettingAnalyzer) (odds : gmap string Q)
    (probs : dict Q) (w : outcome) (p : Q) : Prop :=
  (outcome_key w, p) ∈ probs
  /\ exists o, odds !! outcome_key w = Some o
       /\ min_odds self <= o /\ o <= max_odds self /\ value_threshold w < p.

(** Every outcome listed in [probs] has an entry in [odds]. *)
Definition odds_cover (odds : gmap string Q) (probs : dict Q) : Prop :=
  forall w p, (outcome_key w, p) ∈ probs -> is_Some (odds !! outcome_key w).

(** ** Fixtures *)

Definition all_zero_odds : gmap string Q :=
  {[ "home" := 0; "draw" := 0; "away" := 0 ]}.

Definition tie_odds : gmap string Q :=
  {[ "home" := 2.0; "away" := 2.0 ]}.

Definition tie_probs : dict Q := [("home", 0.5); ("away", 0.5)].


Definition boundary_odds : gmap string Q :=
  {[ "home" := 2.0; "draw" := 0; "away" := 0 ]}.

(** ** Strings: [str.split] with a non-empty separator *)

(** [skip] counts the characters of a separator occurrence that are still
    to be passed over; [cur] is the piece being collected. *)
Fixpoint split_go (sep : string) (skip : nat) (cur : string) (s : string)
    : list string :=
  match s with
  | EmptyString => [cur]
  | String c s' =>
      match skip with
      | S n => split_go sep n cur s'
      | O =>
          if String.prefix sep s
          then cur :: split_go sep (String.length sep - 1) "" s'
          else split_go sep 0 (cur +:+ String c "") s'
      end
  end.

Definition py_split (sep : string) (s : string) : list string :=
  split_go sep 0 "" s.

(** ** Values, analysis records and the store *)

Inductive value : Type :=
  | VNone
  | VBool (b : bool)
  | VInt (z : Z)
  | VFloat (q : Q)
  | VStr (s : string)
  | VDict (d : dict Q)
  | VFloats (d : dict spec_float).

(** A value used as a number ([bool] is a subtype of [int]); anything
    else makes the arithmetic or the comparison raise [TypeError]. *)
Definition as_number (v : value) : result Q :=
  match v with
  | VBool b => Ok (if b then 1 else 0)
  | VInt z => Ok (inject_Z z)
  | VFloat q => Ok q
  | _ => Raise TypeError
  end.

(** Truth value of an object, as [if] tests it. *)
Definition truthy (v : value) : bool :=
  match v with
  | VNone => false
  | VBool b => b
  | VInt z => negb (z =? 0)%Z
  | VFloat q => negb (Qeq_bool q 0)
  | VStr s => negb (String.eqb s "")
  | VDict d => match d with [] => false | _ => true end
  | VFloats d => match d with [] => false | _ => true end
  end.

(** An analysis record is a dictionary; the lists the builder works on
    hold addresses of records in a store, so that a record reached twice
    is the same object.  An address the store does not list holds the
    empty dictionary. *)
Abbreviation loc := nat (only parsing).
Abbreviation record := (gmap string value) (only parsing).
Abbreviation heap := (gmap nat (gmap string value)) (only parsing).

Definition deref (h : heap) (bet : loc) : record := default ∅ (h !! bet).

(** Computations that read and write the store and may raise. *)
Definition M (A : Type) : Type := heap -> result A * heap.

Definition ret {A} (a : A) : M A := fun h => (Ok a, h).

Definition bind {A B} (m : M A) (f : A -> M B) : M B :=
  fun h => match m h with
           | (Ok a, h') => f a h'
           | (Raise e, h') => (Raise e, h')
           end.

Definition raise {A} (e : exn) : M A := fun h => (Raise e, h).

Definition lift {A} (r : result A) : M A := fun h => (r, h).

(** [try: body / except: handler] with a bare [except]. *)
Definition try_except {A} (body handler : M A) : M A :=
  fun h => match body h with
           | (Ok a, h') => (Ok a, h')
           | (Raise _, h') => handler h'
           end.

Notation "'let!' x ':=' m 'in' k" := (bind m (fun x => k))
  (at level 10, x name, m at level 100, k at level 200,
   format "'[v' 'let!'  x  ':='  m  'in' '/' k ']'").

(** [bet[k]] *)
Definition get_item (bet : loc) (k : string) : M value :=
  fun h => match deref h bet !! k with
           | Some v => (Ok v, h)
           | None => (Raise (KeyError k), h)
           end.

(** [bet[k] = v] *)
Definition set_item (bet : loc) (k : string) (v : value) : M unit :=
  fun h => (Ok tt, <[bet := <[k := v]> (deref h bet)]> h).

(** [bet[k]] used as a number. *)
Definition get_number (bet : loc) (k : string) : M Q :=
  let! v := get_item bet k in lift (as_number v).

Fixpoint mapM {A B} (f : A -> M B) (l : list A) : M (list B) :=
  match l with
  | [] => ret []
  | x :: l' =>
      let! y := f x in
      let! ys := mapM f l' in
      ret (y :: ys)
  end.

(** [[x for x in l if test(x)]] *)
Fixpoint filterM {A} (test : A -> M bool) (l : list A) : M (list A) :=
  match l with
  | [] => ret []
  | x :: l' =>
      let! b := test x in
      let! xs := filterM test l' in
      ret (if b then x :: xs else xs)
  end.

(** ** [sorted(l, key=..., reverse=...)]

    A stable sort: elements with equal keys keep their original order,
    also when [reverse] is set.  The keys are computed first, one call per
    element in list order. *)

Definition goes_before (reverse : bool) (ky kx : Q) : bool :=
  if reverse then Qlt_bool kx ky else Qlt_bool ky kx.

Fixpoint insert_by_key {A} (reverse : bool) (x : Q * A) (l : list (Q * A))
    : list (Q * A) :=
  match l with
  | [] => [x]
  | y :: l' =>
      if goes_before reverse (fst y) (fst x)
      then y :: insert_by_key reverse x l'
      else x :: y :: l'
  end.

Definition sort_by_key {A} (reverse : bool) (l : list (Q * A)) : list A :=
  snd <$> foldr (insert_by_key reverse) [] l.

Definition py_sorted (key : loc -> M Q) (reverse : bool) (l : list loc)
    : M (list loc) :=
  let! keys := mapM key l in ret (sort_by_key reverse (zip keys l)).

(** [l[:n]]: a negative [n] counts from the end. *)
Definition slice_to {A} (n : Z) (l : list A) : list A :=
  if (0 <=? n)%Z then take (Z.to_nat n) l
  else take (Z.to_nat (Z.of_nat (length l) + n)) l.

Definition len {A} (l : list A) : Z := Z.of_nat (length l).

(** ** Combinations *)

(** One entry of a combination's [matches]. *)
Record leg : Type := {
  leg_match : value;
  leg_bet : value;
  leg_confidence : value
}.

(** The dictionary built by [_create_combination].  [potential_return]
    holds the number that the source embeds in its display string.  The
    two odds figures are floats. *)
Record combination : Type := {
  combo_type : string;
  matches : list leg;
  total_odds : spec_float;
  avg_confidence : Z;
  potential_return : spec_float
}.

(** The per-tier configuration of [generate_specific_combination]. *)
Record level_config : Type := {
  min_confidence : Z;
  combo_size : Z;
  sort_by : string;
  desc : bool
}.

Definition safe_config : level_config :=
  {| min_confidence := 75; combo_size := 3;
     sort_by := "confidence"; desc := true |}.

Definition moyen_config : level_config :=
  {| min_confidence := 60; combo_size := 4;
     sort_by := "confidence"; desc := true |}.

Definition high_risk_config : level_config :=
  {| min_confidence := 45; combo_size := 5;
     sort_by := "odds"; desc := true |}.

Definition level_configs : gmap string level_config :=
  {[ "SAFE" := safe_config;
     "MOYEN" := moyen_config;
     "HIGH_RISK" := high_risk_config ]}.

Definition combo_type_names : gmap string string :=
  {[ "SAFE" := "Combiné SAFE 🛡️";
     "MOYEN" := "Combiné MOYEN ⚖️";
     "HIGH_RISK" := "Combiné HIGH RISK 🚀" ]}.

Section Combinations.

(** Python's [float(s)] on strings, [None] standing for [ValueError];
    and the rearrangement [random.shuffle] performs. *)
Variable py_float : string -> option Q.
Variable shuffle : list loc -> list loc.

(** [float(text.split('(cote: ')[1].split(')')[0])] *)
Definition extract_odds (text : value) : result Q :=
  match text with
  | VStr s =>
      match py_split "(cote: " s !! 1%nat with
      | None => Raise IndexError
      | Some after =>
          match py_split ")" after !! 0%nat with
          | None => Raise IndexError
          | Some odds_str =>
              match py_float odds_str with
              | Some odds => Ok odds
              | None => Raise ValueError
              end
          end
      end
  | _ => Raise AttributeError
  end.

(** The body of the loop of [_create_combination].  [total_odds] is a
    float, multiplied in binary64 by the float that [float(odds_str)]
    returns. *)
Definition add_leg (st : spec_float * Q * list leg) (bet : loc)
    : M (spec_float * Q * list leg) :=
  let '(total_odds, total_confidence, matches) := st in
  let! text := get_item bet "recommendation" in
  let! odds := lift (extract_odds text) in
  let total_odds := fmul total_odds (b64 odds) in
  let! confidence := get_number bet "confidence" in
  let total_confidence := total_confidence + confidence in
  let! m := get_item bet "match" in
  let! b := get_item bet "recommendation" in
  let! c := get_item bet "confidence" in
  ret (total_odds, total_confidence,
       matches ++ [ {| leg_match := m; leg_bet := b; leg_confidence := c |} ]).

Fixpoint add_legs (st : spec_float * Q * list leg) (bets : list loc)
    : M (spec_float * Q * list leg) :=
  match bets with
  | [] => ret st
  | bet :: bets' => let! st := add_leg st bet in add_legs st bets'
  end.

Definition _create_combination (bets : list loc) (combo_type : string)
    : M combination :=
  let! st := add_legs (b64 1.0, 0, []) bets in
  let '(total_odds, total_confidence, matches) := st in
  if (len bets =? 0)%Z then raise ZeroDivisionError
  else
    let avg_confidence := total_confidence / inject_Z (len bets) in
    ret {| combo_type := combo_type;
           matches := matches;
           total_odds := float_round2 total_odds;
           avg_confidence := py_round avg_confidence;
           potential_return := float_round2 (fmul total_odds (b64 10)) |}.

(** [bet['confidence'] >= bound] *)
Definition confidence_at_least (bound : Z) (bet : loc) : M bool :=
  let! c := get_number bet "confidence" in
  ret (Qle_bool (inject_Z bound) c).

Definition generate_combinations (analyses : list loc) (combo_size : Z)
    : M (list combination) :=
  if (len analyses <? combo_size)%Z then ret []
  else
    let! good_bets := filterM (confidence_at_least 50) analyses in
    if (len good_bets <? combo_size)%Z then ret []
    else
      let combinations := [] in
      let! sorted_bets :=
        py_sorted (fun x => get_number x "confidence") true good_bets in
      let safe_combo := slice_to combo_size sorted_bets in
      let! c := _create_combination safe_combo "Combiné Sûr" in
      let combinations := combinations ++ [c] in
      let! value_bets :=
        filterM (fun bet => let! v := get_item bet "value_bet" in
                            ret (truthy v)) good_bets in
      let! combinations :=
        if (combo_size <=? len value_bets)%Z then
          let! c := _create_combination (slice_to combo_size value_bets)
                      "Combiné Value" in
          ret (combinations ++ [c])
        else ret combinations in
      if (combo_size <=? len good_bets)%Z then
        let good_bets := shuffle good_bets in
        let! c := _create_combination (slice_to combo_size good_bets)
                    "Combiné Mixte" in
        ret (combinations ++ [c])
      else ret combinations.

(** The body of the loop that prepares the sort by odds: both branches
    of the [try] store [_extracted_odds] on the record itself. *)
Definition extract_for_sort (bet : loc) : M loc :=
  try_except
    (let! text := get_item bet "recommendation" in
     let! odds := lift (extract_odds text) in
     let! _ := set_item bet "_extracted_odds" (VFloat odds) in
     ret bet)
    (let! _ := set_item bet "_extracted_odds" (VFloat 2.0) in
     ret bet).

Definition generate_specific_combination (analyses : list loc)
    (level : string) : M (option combination) :=
  if (len analyses <? 3)%Z then ret None
  else
    (* level_configs.get(level, level_configs["MOYEN"]) *)
    let config := default moyen_config (level_configs !! level) in
    let! filtered_bets :=
      filterM (confidence_at_least (min_confidence config)) analyses in
    let! filtered_bets :=
      if (len filtered_bets <? 3)%Z then
        let! best :=
          py_sorted (fun x => get_number x "confidence") true analyses in
        ret (slice_to (combo_size config) best)
      else ret filtered_bets in
    let! selected_bets :=
      if String.eqb (sort_by config) "confidence" then
        py_sorted (fun x => get_number x "confidence") (desc config)
          filtered_bets
      else
        let! selected_bets := mapM extract_for_sort filtered_bets in
        py_sorted (fun x => get_number x "_extracted_odds") (desc config)
          selected_bets in
    let final_bets :=
      slice_to (Z.min (combo_size config) (len selected_bets)) selected_bets in
    match combo_type_names !! level with
    | None => raise (KeyError level)
    | Some name =>
        let! c := _create_combination final_bets name in
        ret (Some c)
    end.

End Combinations.

(** A reader of the decimal numerals [d...d] and [d...d.d...d], which is
    what the analyzer writes with [:.2f] and what the fixtures use; it
    agrees with [float] on them, and gives [None] on every other string,
    also where [float] would accept it (signs, exponents, blanks). *)
Definition digit_value (c : ascii) : option Z :=
  let n := Z.of_nat (nat_of_ascii c) in
  if ((48 <=? n) && (n <=? 57))%Z then Some (n - 48)%Z else None.

Fixpoint read_digits (acc : Z) (count : nat) (s : string)
    : option (Z * nat * string) :=
  match s with
  | EmptyString => Some (acc, count, EmptyString)
  | String c s' =>
      match digit_value c with
      | Some d => read_digits (acc * 10 + d) (S count) s'
      | None => Some (acc, count, s)
      end
  end.

Definition decimal_float (s : string) : option Q :=
  match read_digits 0 0 s with
  | Some (n, S _, EmptyString) => Some (inject_Z n)
  | Some (n, S _, String "."%char frac) =>
      match read_digits 0 0 frac with
      | Some (m, k, EmptyString) =>
          Some (inject_Z n + inject_Z m / inject_Z (10 ^ Z.of_nat k))
      | _ => None
      end
  | _ => None
  end.

(** The five analyses of [tests/test_betting_analyzer.py]. *)
Definition analysis (m text : string) (confidence : Z) : gmap string value :=
  {[ "match" := VStr m; "recommendation" := VStr text;
     "confidence" := VInt confidence ]}.

Definition test_store : gmap nat (gmap string value) :=
  {[ 0%nat := analysis "A vs B" "A wins (cote: 1.5)" 80;
     1%nat := analysis "C vs D" "C wins (cote: 1.8)" 75;
     2%nat := analysis "E vs F" "E wins (cote: 2.0)" 70;
     3%nat := analysis "G vs H" "G wins (cote: 1.9)" 65;
     4%nat := analysis "I vs J" "I wins (cote: 1.7)" 50 ]}.

Definition test_analyses : list nat := [0; 1; 2; 3; 4]%nat.

(** ** Reading the store without running the code *)

(** [bet[k]] as a number, on store [h]. *)
Definition read_number (h : heap) (bet : loc) (k : string) : result Q :=
  match deref h bet !! k with
  | Some v => as_number v
  | None => Raise (KeyError k)
  end.

(** The record at [bet] has a numeric [confidence]. *)
Definition numeric_confidence (h : heap) (bet : loc) : Prop :=
  exists c, read_number h bet "confidence" = Ok c.

Definition confidence (h : heap) (bet : loc) : Q :=
  match read_number h bet "confidence" with
  | Ok c => c
  | Raise _ => 0
  end.

(** The analyses with confidence >= [bound]. *)
Definition qualifying (h : heap) (bound : Z) (analyses : list loc) : list loc :=
  List.filter (fun bet => Qle_bool (inject_Z bound) (confidence h bet)) analyses.

(** A computation that leaves the store as it found it, whatever its
    outcome. *)
Definition preserves {A} (m : M A) : Prop := forall h, snd (m h) = h.

(** Stores that agree on every field of every record except
    [_extracted_odds]. *)
Definition same_but_extracted (h h' : heap) : Prop :=
  forall bet k, k <> "_extracted_odds"%string ->
    deref h' bet !! k = deref h bet !! k.

(** A computation that touches no field other than [_extracted_odds]. *)
Definition writes_extracted_only {A} (m : M A) : Prop :=
  forall h, same_but_extracted h (snd (m h)).

(** Three analyses, one of them the record [analyze_match] returns for a
    match without odds. *)
Definition degraded_store : gmap nat (gmap string value) :=
  {[ 0%nat := analysis "A vs B" "Victoire A (cote: 1.50)" 80;
     1%nat := analysis "C vs D" "Victoire C (cote: 1.80)" 75;
     2%nat := analysis "E vs F" "Aucune cote disponible" 0 ]}.

Definition degraded_analyses : list nat := [0; 1; 2]%nat.

(** Three analyses of which one reaches confidence 50. *)
Definition thin_store : gmap nat (gmap string value) :=
  {[ 0%nat := analysis "A vs B" "Victoire A (cote: 1.50)" 80;
     1%nat := analysis "C vs D" "Victoire C (cote: 1.80)" 40;
     2%nat := analysis "E vs F" "Victoire E (cote: 2.10)" 30 ]}.

(** ** Legs read off the store *)

(** The [matches] entry the builder makes for the record at [bet]. *)
Definition leg_of (h : heap) (bet : loc) : leg :=
  {| leg_match := default VNone (deref h bet !! "match");
     leg_bet := default VNone (deref h bet !! "recommendation");
     leg_confidence := default VNone (deref h bet !! "confidence") |}.

(** The odds written in the recommendation of the record at [bet]. *)
Definition odds_of (py_float : string -> option Q) (h : heap) (bet : loc) : Q :=
  match deref h bet !! "recommendation" with
  | Some text =>
      match extract_odds py_float text with Ok x => x | Raise _ => 0 end
  | None => 0
  end.

(** The record at [bet] has what a leg needs: a numeric confidence, a
    recommendation with parseable odds, and a match label. *)
Definition combinable (py_float : string -> option Q) (h : heap) (bet : loc)
    : Prop :=
  numeric_confidence h bet
  /\ (exists text x, deref h bet !! "recommendation" = Some text
        /\ extract_odds py_float text = Ok x)
  /\ is_Some (deref h bet !! "match").

(** The record at [bet] is combinable, with confidence [c] and odds [x]
    in its recommendation. *)
Definition analysis_with (py_float : string -> option Q) (h : heap)
    (bet : loc) (c : Z) (x : Q) : Prop :=
  deref h bet !! "confidence" = Some (VInt c)
  /\ (exists text, deref h bet !! "recommendation" = Some text
        /\ extract_odds py_float text = Ok x)
  /\ is_Some (deref h bet !! "match").

Definition sample_odds : gmap string Q :=
  {[ "home" := 2.10; "draw" := 3.40; "away" := 3.80 ]}.

(** The three documented tier names. *)
Definition known_level (level : string) : Prop :=
  level = "SAFE"%string \/ level = "MOYEN"%string \/ level = "HIGH_RISK"%string.

(** A computation that raises on every store. *)
Definition raises {A} (m : M A) : Prop := forall h, exists e, fst (m h) = Raise e.

(** ** Orders on keyed elements *)

(** In a list sorted with [reverse=True], [a] may stand before [b]. *)
Definition key_desc {A} (a b : Q * A) : Prop := fst b <= fst a.

(** The same with distinct keys. *)
Definition key_strict_desc {A} (a b : Q * A) : Prop := fst b < fst a.

(** An element paired with its sort key. *)
Definition keyed {A} (f : A -> Q) (x : A) : Q * A := (f x, x).

(** ** Match records and [_get_best_odds_from_match]

    The match dictionaries of the odds service, with the fields the code
    reads: [home_team], [away_team], [commence_time] (read with [.get]),
    [bookmakers] (read with [.get]); per bookmaker [markets] (read with
    [.get]) and, in [SportsAPI._get_best_odds] only, [home_team] and
    [away_team] (read with [.get]); per market [key] and [outcomes]; per
    outcome [name] and [price]. *)

Record quote : Type := {
  q_name : string;
  q_price : Q
}.

Record market : Type := {
  mk_key : string;
  mk_outcomes : list quote
}.

Record bookmaker : Type := {
  bk_home_team : option string;
  bk_away_team : option string;
  bk_markets : option (list market)
}.

Record match_record : Type := {
  m_home_team : string;
  m_away_team : string;
  m_commence_time : option string;
  m_bookmakers : option (list bookmaker)
}.

(** [best_odds = {'home': 0, 'draw': 0, 'away': 0}] *)
Definition initial_best_odds : gmap string Q :=
  {[ "home" := 0; "draw" := 0; "away" := 0 ]}.

(** [best_odds[k] = max(best_odds[k], price)]; the three keys are there
    from the start and never removed. *)
Definition raise_best (k : string) (price : Q) (best_odds : gmap string Q)
    : gmap string Q :=
  <[k := py_max (odds_get best_odds k 0) price]> best_odds.

(** The body of [for outcome in market['outcomes']]. *)
Definition add_outcome (home_team away_team : string)
    (best_odds : gmap string Q) (outcome : quote) : gmap string Q :=
  if String.eqb (q_name outcome) home_team then
    raise_best "home" (q_price outcome) best_odds
  else if String.eqb (q_name outcome) away_team then
    raise_best "away" (q_price outcome) best_odds
  else if String.eqb (q_name outcome) "Draw" then
    raise_best "draw" (q_price outcome) best_odds
  else best_odds.

(** The body of [for market in bookmaker.get('markets', [])]. *)
Definition add_market (home_team away_team : string)
    (best_odds : gmap string Q) (mk : market) : gmap string Q :=
  if String.eqb (mk_key mk) "h2h" then
    foldl (add_outcome home_team away_team) best_odds (mk_outcomes mk)
  else best_odds.

(** The body of [for bookmaker in match['bookmakers']]. *)
Definition add_bookmaker (home_team away_team : string)
    (best_odds : gmap string Q) (bk : bookmaker) : gmap string Q :=
  foldl (add_market home_team away_team) best_odds (default [] (bk_markets bk)).

Definition _get_best_odds_from_match (m : match_record)
    : option (gmap string Q) :=
  match m_bookmakers m with
  | None | Some [] => None
  | Some bookmakers =>
      let best_odds := initial_best_odds in
      let home_team := m_home_team m in
      let away_team := m_away_team m in
      let best_odds :=
        foldl (add_bookmaker home_team away_team) best_odds bookmakers in
      if Qlt_bool 0 (odds_get best_odds "home" 0) then Some best_odds else None
  end.

(** The head-to-head quotes of a match, in the order the loops visit
    them. *)
Definition h2h_quotes (bookmakers : list bookmaker) : list quote :=
  bk ← bookmakers;
  mk ← default [] (bk_markets bk);
  if String.eqb (mk_key mk) "h2h" then mk_outcomes mk else [].

(** The slot a quote is counted for: the home team's name wins over the
    away team's, which wins over the label [Draw]. *)
Definition quote_slot (home_team away_team : string) (q : quote)
    : option outcome :=
  if String.eqb (q_name q) home_team then Some home
  else if String.eqb (q_name q) away_team then Some away
  else if String.eqb (q_name q) "Draw" then Some draw
  else None.

(** The prices quoted for slot [w]. *)
Definition slot_prices (home_team away_team : string) (w : outcome)
    (quotes : list quote) : list Q :=
  q_price <$> List.filter
    (fun q => match quote_slot home_team away_team q with
              | Some w' => Nat.eqb (outcome_rank w') (outcome_rank w)
              | None => false
              end) quotes.

(** ** [f"{x:.2f}"]

    The number is rounded to the hundredths, ties to the even neighbour,
    and written with its integer part, a point and two decimals; a
    negative number keeps its sign also when it rounds to zero. *)

Definition digit_char (d : Z) : ascii := ascii_of_nat (48 + Z.to_nat d).

Fixpoint digits_go (fuel : nat) (n : Z) (acc : string) : string :=
  match fuel with
  | O => acc
  | S fuel' =>
      let acc' := String (digit_char (n mod 10)) acc in
      if (n <? 10)%Z then acc' else digits_go fuel' (n / 10) acc'
  end.

(** The decimal numeral of a natural number, without leading zeros. *)
Definition Z_digits (n : Z) : string :=
  digits_go (S (Z.to_nat (Z.log2 n))) n "".

Definition format_2f (x : Q) : string :=
  let n := py_round (Qabs x * 100) in
  (if Qlt_bool x 0 then "-" else "")
  +:+ Z_digits (n / 100) +:+ "."
  +:+ String (digit_char (n mod 100 / 10)) (String (digit_char (n mod 10)) "").

(** [c in s] for a character. *)
Fixpoint has_char (c : ascii) (s : string) : bool :=
  match s with
  | EmptyString => false
  | String c' s' => Ascii.eqb c c' || has_char c s'
  end.

(** ** [analyze_match] *)

(** The items of the odds dictionary, in its insertion order. *)
Definition odds_items (best_odds : gmap string Q) : dict Q :=
  (fun k => (k, odds_get best_odds k 0)) <$> ["home"; "draw"; "away"]%string.

(** The confidence rule and the pipeline read over exact rationals, as
    if no operation rounded and [int()] never failed.  Python computes on
    floats, and the functions it runs are [_calculate_enhanced_confidence]
    and [analyze_match] further down; on the prices 3.60, 3.00 and 2.00
    the two readings give different confidences.  The exact reading
    serves for properties that do not depend on the rounding: the order
    of the confidences, and the odds written into the recommendation. *)

Module Exact.

Definition _calculate_enhanced_confidence (analysis : best_bet)
    (odds : gmap string Q) (is_value : bool) : Z :=
  let base_confidence := probability analysis * 100 in
  let base_confidence :=
    if is_value then base_confidence + 10 else base_confidence in
  let recommended_odds := recommended_odds analysis in
  let base_confidence :=
    if Qlt_bool recommended_odds 1.5 then base_confidence + 20
    else if Qlt_bool 4.0 recommended_odds then base_confidence - 15
    else base_confidence in
  let base_confidence :=
    if Qlt_bool 0.1 (value_score analysis) then base_confidence + 15
    else if Qlt_bool (value_score analysis) (-0.1) then base_confidence - 10
    else base_confidence in
  Z.max 0 (Z.min 100 (py_int base_confidence)).

Definition analyze_match (self : BettingAnalyzer) (m : match_record)
    : result (gmap string value) :=
  let home_team := m_home_team m in
  let away_team := m_away_team m in
  let commence_time := default ""%string (m_commence_time m) in
  match _get_best_odds_from_match m with
  | None =>
      Ok {[ "match" := VStr (home_team +:+ " vs " +:+ away_team);
            "recommendation" := VStr "Aucune cote disponible";
            "confidence" := VInt 0;
            "value_bet" := VBool false;
            "risk_level" := VStr "Unknown";
            "match_time" := VStr commence_time ]}
  | Some best_odds =>
      let probs := _calculate_probabilities best_odds in
      let analysis_result :=
        _analyze_best_bet best_odds probs home_team away_team in
      match _is_value_bet self best_odds probs with
      | Raise e => Raise e
      | Ok is_value =>
          let risk_level :=
            _calculate_risk_level (recommended_odds analysis_result) in
          let confidence :=
            _calculate_enhanced_confidence analysis_result best_odds is_value in
          Ok {[ "match" := VStr (home_team +:+ " vs " +:+ away_team);
                "recommendation" :=
                  VStr (recommendation analysis_result +:+ " (cote: "
                        +:+ format_2f (recommended_odds analysis_result)
                        +:+ ")");
                "confidence" := VInt confidence;
                "value_bet" := VBool is_value;
                "risk_level" := VStr risk_level;
                "match_time" := VStr commence_time;
                "all_odds" := VDict (odds_items best_odds);
                "probabilities" := VDict probs ]}
      end
  end.

End Exact.

(** A match quoted by two bookmakers, the second without a draw price and
    with a market that is not head-to-head. *)
Definition demo_match : match_record :=
  {| m_home_team := "Lyon";
     m_away_team := "Paris";
     m_commence_time := Some "2025-01-01T20:00:00Z"%string;
     m_bookmakers := Some
       [ {| bk_home_team := None; bk_away_team := None;
            bk_markets := Some
              [ {| mk_key := "h2h";
                   mk_outcomes :=
                     [ {| q_name := "Lyon"; q_price := 2.10 |};
                       {| q_name := "Paris"; q_price := 3.40 |};
                       {| q_name := "Draw"; q_price := 3.20 |} ] |} ] |};
         {| bk_home_team := None; bk_away_team := None;
            bk_markets := Some
              [ {| mk_key := "totals";
                   mk_outcomes := [ {| q_name := "Lyon"; q_price := 9 |} ] |};
                {| mk_key := "h2h";
                   mk_outcomes :=
                     [ {| q_name := "Lyon"; q_price := 2.25 |};
                       {| q_name := "Paris"; q_price := 3.30 |} ] |} ] |} ] |}.

Definition demo_best_odds : gmap string Q :=
  {[ "home" := 2.25; "draw" := 3.20; "away" := 3.40 ]}.

(** The label of an outcome in a recommendation. *)
Definition outcome_label (home_team away_team : string) (w : outcome) : string :=
  match w with
  | home => "Victoire " +:+ home_team
  | away => "Victoire " +:+ away_team
  | draw => "Match nul"
  end.

(** The levels of [_calculate_risk_level], lowest first. *)
Definition risk_rank (level : string) : nat :=
  if String.eqb level "Faible" then 0
  else if String.eqb level "Moyen" then 1
  else 2.

(** The running product [total_odds] of [_create_combination] over legs
    whose odds texts have the values [l]: it starts from the float 1.0 and
    is multiplied, in binary64 and in list order, by the float each text
    is read as. *)
Definition product_of (l : list Q) : spec_float :=
  foldl fmul (b64 1.0) (b64 <$> l).

(** [bet['value_bet']] as a truth value, on store [h]. *)
Definition value_flag (h : heap) (bet : loc) : bool :=
  match deref h bet !! "value_bet" with
  | Some v => truthy v
  | None => false
  end.

(** The legs of [c] are the legs of [n] analyses out of [pool]. *)
Definition drawn_from (h : heap) (pool : list loc) (n : nat) (c : combination)
    : Prop :=
  exists bets, matches c = leg_of h <$> bets /\ length bets = n /\ bets ⊆ pool.

(** ** [_analyze_odds]

    The older analysis, which no path of the class calls any more. *)





(** ** [SportsAPI._get_best_odds]

    The extractor of [sports_api.py], used by [format_match_info]: the
    same loops as [_get_best_odds_from_match], but the names an outcome
    is compared with are read off the bookmaker entry itself, with
    [bookmaker.get('home_team', '')] and [bookmaker.get('away_team', '')]. *)

Definition own_home_team (bk : bookmaker) : string :=
  default ""%string (bk_home_team bk).

Definition own_away_team (bk : bookmaker) : string :=
  default ""%string (bk_away_team bk).

(** The body of [for bookmaker in bookmakers]. *)
Definition add_own_bookmaker (best_odds : gmap string Q) (bk : bookmaker)
    : gmap string Q :=
  add_bookmaker (own_home_team bk) (own_away_team bk) best_odds bk.

Definition _get_best_odds (bookmakers : list bookmaker)
    : option (gmap string Q) :=
  match bookmakers with
  | [] => None
  | _ =>
      let best_odds := initial_best_odds in
      let best_odds := foldl add_own_bookmaker best_odds bookmakers in
      if Qlt_bool 0 (odds_get best_odds "home" 0) then Some best_odds else None
  end.

(** The head-to-head prices a bookmaker quotes under its own
    [home_team] entry. *)
Definition own_home_prices (bk : bookmaker) : list Q :=
  slot_prices (own_home_team bk) (own_away_team bk) home (h2h_quotes [bk]).

(** ** The analysis in binary64

    The analysis of a match once more, with the arithmetic Python
    performs: the probabilities, the value score, the combined score and
    the confidence are floats, every operation on them is rounded, and
    [int()] raises on an infinity or on NaN.  The prices stay the numbers
    the extractor holds: a rational stands for the float of that value,
    or for an [int] that a float holds exactly.  They are only compared,
    divided into 1, multiplied into a float and formatted; [b64] takes
    them into the arithmetic, and is the identity on the value of a
    float.  A decimal such as 3.60 in an example stands for the float
    nearest to it.  The definitions above give the same analysis in exact
    arithmetic. *)

Module Binary64.

(** [max(iterable, key=...)] with float keys: the running best is
    replaced only by an element whose key is strictly greater, which NaN
    never is. *)
Fixpoint max_from {A} (key : A -> spec_float) (best : A) (l : list A) : A :=
  match l with
  | [] => best
  | x :: l' =>
      if flt (key best) (key x) then max_from key x l'
      else max_from key best l'
  end.

Definition py_max_by {A} (key : A -> spec_float) (l : list A) : result A :=
  match l with
  | [] => Raise ValueError
  | x :: l' => Ok (max_from key x l')
  end.

(** *** [_calculate_probabilities] *)

(** One of the three guarded blocks; [total_prob] starts as the [int] 0,
    and 0 plus a float is that float. *)
Definition add_raw_probability (odds : gmap string Q) (k : string)
    (st : dict spec_float * spec_float) : dict spec_float * spec_float :=
  let '(probs, total_prob) := st in
  if Qlt_bool 0 (odds_get odds k 0) then
    let probs := dict_set k (fdiv (b64 1) (b64 (odds_get odds k 0))) probs in
    (probs, fadd total_prob (dict_get probs k (S754_zero false)))
  else (probs, total_prob).

Definition _calculate_probabilities (odds : gmap string Q) : dict spec_float :=
  let st := ([], S754_zero false) in
  let st := add_raw_probability odds "home" st in
  let st := add_raw_probability odds "away" st in
  let st := add_raw_probability odds "draw" st in
  let '(probs, total_prob) := st in
  if flt (S754_zero false) total_prob then
    (* for key in probs: probs[key] = probs[key] / total_prob *)
    foldl (fun d key =>
             dict_set key (fdiv (dict_get d key (S754_zero false)) total_prob) d)
          probs (dict_keys probs)
  else probs.

(** *** [_analyze_best_bet] *)

Record bet_option : Type := {
  o_type : string;
  o_team : string;
  o_odds : Q;
  o_probability : spec_float;
  o_value_score : spec_float;
  o_recommendation : string
}.

Record best_bet : Type := {
  recommendation : string;
  recommended_odds : Q;
  probability : spec_float;
  value_score : spec_float;
  bet_type : string
}.

(** [max(0, value_score)]: the [int] 0 unless the score is above 0; as a
    factor the [int] 0 is the float 0.0. *)
Definition positive_part (value_score : spec_float) : spec_float :=
  if flt (S754_zero false) value_score then value_score else S754_zero false.

(** [(option['probability'] * 0.6) + (max(0, option['value_score']) * 0.4)] *)
Definition combined_score (o : bet_option) : spec_float :=
  fadd (fmul (o_probability o) (b64 0.6))
       (fmul (positive_part (o_value_score o)) (b64 0.4)).

(** One of the three guarded [options.append({...})] blocks, with
    [value_score = (probs.get(k, 0) * odds[k]) - 1]. *)
Definition add_option (odds : gmap string Q) (probs : dict spec_float)
    (k team rec : string) (options : list bet_option) : list bet_option :=
  if Qlt_bool 0 (odds_get odds k 0) then
    let prob := dict_get probs k (S754_zero false) in
    let value_score := fsub (fmul prob (b64 (odds_get odds k 0))) (b64 1) in
    options ++ [ {| o_type := k;
                    o_team := team;
                    o_odds := odds_get odds k 0;
                    o_probability := prob;
                    o_value_score := value_score;
                    o_recommendation := rec |} ]
  else options.

Definition bet_options (odds : gmap string Q) (probs : dict spec_float)
    (home_team away_team : string) : list bet_option :=
  let options := [] in
  let options :=
    add_option odds probs "home" home_team ("Victoire " +:+ home_team) options in
  let options :=
    add_option odds probs "away" away_team ("Victoire " +:+ away_team) options in
  let options :=
    add_option odds probs "draw" "Match nul" "Match nul" options in
  options.

Definition _analyze_best_bet (odds : gmap string Q) (probs : dict spec_float)
    (home_team away_team : string) : best_bet :=
  let options := bet_options odds probs home_team away_team in
  match py_max_by combined_score options with
  | Ok best_option =>
      {| recommendation := o_recommendation best_option;
         recommended_odds := o_odds best_option;
         probability := o_probability best_option;
         value_score := o_value_score best_option;
         bet_type := o_type best_option |}
  | Raise _ =>
      (* options is empty *)
      {| recommendation := "Victoire " +:+ home_team;
         recommended_odds := odds_get odds "home" 2.0;
         probability := dict_get probs "home" (b64 0.4);
         value_score := S754_zero false;
         bet_type := "home" |}
  end.

(** *** [_is_value_bet] *)

(** [self.min_odds <= o <= self.max_odds and prob > threshold] *)
Definition in_band_above (self : BettingAnalyzer) (o : Q) (prob : spec_float)
    (threshold : Q) : bool :=
  Qle_bool (min_odds self) o && Qle_bool o (max_odds self)
  && flt (b64 threshold) prob.

Fixpoint _is_value_bet (self : BettingAnalyzer) (odds : gmap string Q)
    (probs : dict spec_float) : result bool :=
  match probs with
  | [] => Ok false
  | (outcome, prob) :: rest =>
      if String.eqb outcome "home" then
        match odds_index odds "home" with
        | Raise e => Raise e
        | Ok o => if in_band_above self o prob 0.3 then Ok true
                  else _is_value_bet self odds rest
        end
      else if String.eqb outcome "away" then
        match odds_index odds "away" with
        | Raise e => Raise e
        | Ok o => if in_band_above self o prob 0.3 then Ok true
                  else _is_value_bet self odds rest
        end
      else if String.eqb outcome "draw" then
        match odds_index odds "draw" with
        | Raise e => Raise e
        | Ok o => if in_band_above self o prob 0.25 then Ok true
                  else _is_value_bet self odds rest
        end
      else _is_value_bet self odds rest
  end.

(** *** The float that [_calculate_enhanced_confidence] truncates *)

(** [base_confidence], as it stands before [int()] is applied. *)
Definition base_confidence (analysis : best_bet) (is_value : bool)
    : spec_float :=
  let base_confidence := fmul (probability analysis) (b64 100) in
  let base_confidence :=
    if is_value then fadd base_confidence (b64 10) else base_confidence in
  let recommended_odds := recommended_odds analysis in
  let base_confidence :=
    if Qlt_bool recommended_odds 1.5 then fadd base_confidence (b64 20)
    else if Qlt_bool 4.0 recommended_odds then fsub base_confidence (b64 15)
    else base_confidence in
  let base_confidence :=
    if flt (b64 0.1) (value_score analysis) then fadd base_confidence (b64 15)
    else if flt (value_score analysis) (b64 (-0.1))
         then fsub base_confidence (b64 10)
    else base_confidence in
  base_confidence.

End Binary64.

(** ** [_calculate_enhanced_confidence] *)

(** [max(0, min(100, int(base_confidence)))]: [int()] comes first. *)
Definition _calculate_enhanced_confidence (analysis : Binary64.best_bet)
    (odds : gmap string Q) (is_value : bool) : result Z :=
  match float_int (Binary64.base_confidence analysis is_value) with
  | Raise e => Raise e
  | Ok n => Ok (Z.max 0 (Z.min 100 n))
  end.

(** ** [analyze_match] *)

Definition analyze_match (self : BettingAnalyzer) (m : match_record)
    : result (gmap string value) :=
  let home_team := m_home_team m in
  let away_team := m_away_team m in
  let commence_time := default ""%string (m_commence_time m) in
  match _get_best_odds_from_match m with
  | None =>
      Ok {[ "match" := VStr (home_team +:+ " vs " +:+ away_team);
            "recommendation" := VStr "Aucune cote disponible";
            "confidence" := VInt 0;
            "value_bet" := VBool false;
            "risk_level" := VStr "Unknown";
            "match_time" := VStr commence_time ]}
  | Some best_odds =>
      let probs := Binary64._calculate_probabilities best_odds in
      let analysis_result :=
        Binary64._analyze_best_bet best_odds probs home_team away_team in
      match Binary64._is_value_bet self best_odds probs with
      | Raise e => Raise e
      | Ok is_value =>
          let risk_level :=
            _calculate_risk_level
              (Binary64.recommended_odds analysis_result) in
          match
            _calculate_enhanced_confidence analysis_result best_odds is_value
          with
          | Raise e => Raise e
          | Ok confidence =>
              Ok {[ "match" := VStr (home_team +:+ " vs " +:+ away_team);
                    "recommendation" :=
                      VStr (Binary64.recommendation analysis_result +:+ " (cote: "
                            +:+ format_2f
                                (Binary64.recommended_odds
                                   analysis_result)
                            +:+ ")");
                    "confidence" := VInt confidence;
                    "value_bet" := VBool is_value;
                    "risk_level" := VStr risk_level;
                    "match_time" := VStr commence_time;
                    "all_odds" := VDict (odds_items best_odds);
                    "probabilities" := VFloats probs ]}
          end
      end
  end.

(** The bet [analyze_match] selects for a match with odds [odds]. *)
Definition match_best_bet (m : match_record) (odds : gmap string Q)
    : Binary64.best_bet :=
  Binary64._analyze_best_bet odds (Binary64._calculate_probabilities odds)
    (m_home_team m) (m_away_team m).


(** Matches quoted by one bookmaker: one with ordinary prices, and one
    whose home price is the subnormal binary64 number 1e-320
    (2024 x 2^-1074). *)
Definition ordinary_match : match_record :=
  {| m_home_team := "Lille";
     m_away_team := "Metz";
     m_commence_time := None;
     m_bookmakers := Some
       [ {| bk_home_team := None; bk_away_team := None;
            bk_markets := Some
              [ {| mk_key := "h2h";
                   mk_outcomes :=
                     [ {| q_name := "Lille"; q_price := 3.60 |};
                       {| q_name := "Draw"; q_price := 3.00 |};
                       {| q_name := "Metz"; q_price := 2.00 |} ] |} ] |} ] |}.

Definition tiny_price : Q := 2024 * Qpower 2 (-1074).

Definition tiny_price_match : match_record :=
  {| m_home_team := "Lille";
     m_away_team := "Metz";
     m_commence_time := None;
     m_bookmakers := Some
       [ {| bk_home_team := None; bk_away_team := None;
            bk_markets := Some
              [ {| mk_key := "h2h";
                   mk_outcomes :=
                     [ {| q_name := "Lille"; q_price := tiny_price |};
                       {| q_name := "Draw"; q_price := 3.00 |};
                       {| q_name := "Metz"; q_price := 2.00 |} ] |} ] |} ] |}.

(** ** The combination commands of [main.py]

    [_generate_combinations_by_level] and [_generate_combinations], from
    the value [get_sports_with_matches] returns to the messages sent.
    [matches_data] lists the sports in the order of the dictionary, each
    with its ['matches'].  A message stands for its text: the texts are
    fixed strings, apart from the number of analyses found and from
    [format_combination(c)], which is a function of the combination [c].
    Sending is taken to succeed. *)

Inductive message : Type :=
  | Progress                   (* "... Génération ..." *)
  | NoMatch                    (* "Aucun match disponible pour les combinés." *)
  | TooFew (found : option Z)  (* "Pas assez de paris ... fiables ..." *)
  | NoCombination              (* "Impossible de générer ..." *)
  | Shown (c : combination)    (* format_combination(c) *)
  | Advice                     (* the closing advice *)
  | Failure.                   (* "Erreur lors de la génération ..." *)

(** The entries of [level_info] that the code reads back. *)
Record tier_info : Type := {
  info_min_confidence : Z;
  info_max_odds : Q
}.

Definition level_info : gmap string tier_info :=
  {[ "SAFE" := {| info_min_confidence := 75; info_max_odds := 2.5 |};
     "MOYEN" := {| info_min_confidence := 60; info_max_odds := 4.0 |};
     "HIGH_RISK" := {| info_min_confidence := 45; info_max_odds := 10.0 |} ]}.

(** [analysis[k]] on a dictionary that is not in the store yet. *)
Definition record_item (r : gmap string value) (k : string) : result value :=
  match r !! k with
  | Some v => Ok v
  | None => Raise (KeyError k)
  end.

(** [analysis['confidence'] >= bound] *)
Definition reaches (r : gmap string value) (bound : Z) : result bool :=
  match record_item r "confidence" with
  | Raise e => Raise e
  | Ok v =>
      match as_number v with
      | Raise e => Raise e
      | Ok c => Ok (Qle_bool (inject_Z bound) c)
      end
  end.

(** The analyses, in list order, as objects of a store: the list of
    their addresses and the store that holds them. *)
Definition addresses (all_analyses : list (gmap string value)) : list loc :=
  seq 0 (length all_analyses).

Definition objects (all_analyses : list (gmap string value)) : heap :=
  map_seq 0 all_analyses.

(** [for sport_data in matches_data.values(): for match in sport_data['matches']] *)
Definition matches_of (matches_data : list (string * list match_record))
    : list match_record :=
  sport_data ← matches_data; snd sport_data.

(** The two loops: every match is analysed, and the analysis is appended
    when [keep] says so. *)
Fixpoint collect_analyses (self : BettingAnalyzer)
    (keep : gmap string value -> result bool) (ms : list match_record)
    (all_analyses : list (gmap string value))
    : result (list (gmap string value)) :=
  match ms with
  | [] => Ok all_analyses
  | m :: ms' =>
      match analyze_match self m with
      | Raise e => Raise e
      | Ok a =>
          match keep a with
          | Raise e => Raise e
          | Ok true => collect_analyses self keep ms' (all_analyses ++ [a])
          | Ok false => collect_analyses self keep ms' all_analyses
          end
      end
  end.

Section Commands.

Variable py_float : string -> option Q.
Variable shuffle : list loc -> list loc.

(** The test of [_generate_combinations_by_level]: the confidence first;
    then, under a bare [except] that keeps the analysis, the odds read
    off the recommendation. *)
Definition keep_for_level (level_config : tier_info) (a : gmap string value)
    : result bool :=
  match reaches a (info_min_confidence level_config) with
  | Raise e => Raise e
  | Ok false => Ok false
  | Ok true =>
      match
        match record_item a "recommendation" with
        | Raise e => Raise e
        | Ok text => extract_odds py_float text
        end
      with
      | Ok odds => Ok (Qle_bool odds (info_max_odds level_config))
      | Raise _ => Ok true
      end
  end.

Definition _generate_combinations_by_level (self : BettingAnalyzer)
    (level : string) (matches_data : list (string * list match_record))
    : result (list message) :=
  match level_info !! level with
  | None => Raise (KeyError level)
  | Some level_config =>
      Ok (Progress ::
          match matches_data with
          | [] => [NoMatch]
          | _ =>
              match collect_analyses self (keep_for_level level_config)
                      (matches_of matches_data) [] with
              | Raise _ => [Failure]
              | Ok all_analyses =>
                  if (len all_analyses <? 3)%Z
                  then [TooFew (Some (len all_analyses))]
                  else
                    match generate_specific_combination py_float
                            (addresses all_analyses) level
                            (objects all_analyses) with
                    | (Raise _, _) => [Failure]
                    | (Ok None, _) => [NoCombination]
                    | (Ok (Some c), _) => [Shown c; Advice]
                    end
              end
          end)
  end.

Definition _generate_combinations (self : BettingAnalyzer)
    (matches_data : list (string * list match_record)) : list message :=
  Progress ::
  match matches_data with
  | [] => [NoMatch]
  | _ =>
      match collect_analyses self (fun a => reaches a 50)
              (matches_of matches_data) [] with
      | Raise _ => [Failure]
      | Ok all_analyses =>
          if (len all_analyses <? 3)%Z then [TooFew None]
          else
            match generate_combinations py_float shuffle
                    (addresses all_analyses) 3 (objects all_analyses) with
            | (Raise _, _) => [Failure]
            | (Ok [], _) => [NoCombination]
            | (Ok combinations, _) => (Shown <$> combinations) ++ [Advice]
            end
      end
  end.

End Commands.

(** The [matches] entry a combination holds for the analysis [r]. *)
Definition leg_of_record (r : gmap string value) : leg :=
  {| leg_match := default VNone (r !! "match");
     leg_bet := default VNone (r !! "recommendation");
     leg_confidence := default VNone (r !! "confidence") |}.

(** Team names without an opening parenthesis. *)
Definition plain_names (m : match_record) : Prop :=
  has_char "(" (m_home_team m) = false /\ has_char "(" (m_away_team m) = false.

(** Four matches of one sport, the first quoted by two bookmakers. *)
Definition quoted_match (home_team away_team : string)
    (home_price draw_price away_price : Q) : match_record :=
  {| m_home_team := home_team;
     m_away_team := away_team;
     m_commence_time := None;
     m_bookmakers := Some
       [ {| bk_home_team := None; bk_away_team := None;
            bk_markets := Some
              [ {| mk_key := "h2h";
                   mk_outcomes :=
                     [ {| q_name := home_team; q_price := home_price |};
                       {| q_name := away_team; q_price := away_price |};
                       {| q_name := "Draw"; q_price := draw_price |} ] |} ] |} ] |}.

Definition demo_matches_data : list (string * list match_record) :=
  [ ("soccer_france_ligue_one"%string,
     [ demo_match;
       quoted_match "Nice" "Lens" 1.40 4.50 7.00;
       quoted_match "Metz" "Brest" 1.80 3.50 4.20;
       quoted_match "Lille" "Reims" 1.25 5.50 11.00 ]) ].

(** ** [analysis_command] of [main.py]

    From the matches (read from the cache or from the service) to the
    messages sent, for an update that carries a message or a callback
    query: the statistics, the analyses in messages of ten, and the
    closing message.  A message stands for its text, with the numbers
    and the analysis fields the text is built from. *)

Inductive band : Type := Green | Yellow | Red.

(** One entry of a listing: its number, the colour of its confidence,
    the three fields shown, and whether the value mark is shown. *)
Record listing_line : Type := {
  line_number : Z;
  line_band : band;
  line_match : value;
  line_recommendation : value;
  line_confidence : value;
  line_value : bool
}.

Inductive report : Type :=
  | Analysing                  (* "Analyse en cours..." *)
  | NothingToAnalyse           (* "Aucun match à analyser." *)
  | NoAnalysis                 (* "Aucune analyse disponible." *)
  | Statistics (total high_confidence medium_confidence low_confidence
                value_bets : Z)
  | Listing (first last total : Z) (lines : list listing_line)
  | Finished (total high_confidence value_bets : Z)
  | AnalysisFailure.           (* "Erreur lors de l'analyse." *)

Definition result_bind {A B} (r : result A) (f : A -> result B) : result B :=
  match r with
  | Ok a => f a
  | Raise e => Raise e
  end.

Notation "'let?' x ':=' r 'in' k" := (result_bind r (fun x => k))
  (at level 10, x name, r at level 100, k at level 200,
   format "'[v' 'let?'  x  ':='  r  'in' '/' k ']'").

(** [analysis[k]] used as a number. *)
Definition number_item (r : gmap string value) (k : string) : result Q :=
  let? v := record_item r k in as_number v.

(** [analysis['confidence'] > 0] *)
Definition above_zero (a : gmap string value) : result bool :=
  let? c := number_item a "confidence" in Ok (Qlt_bool 0 c).

(** [len([a for a in all_analyses if test(a)])] *)
Fixpoint count_where (test : gmap string value -> result bool)
    (all_analyses : list (gmap string value)) : result Z :=
  match all_analyses with
  | [] => Ok 0%Z
  | a :: rest =>
      let? b := test a in
      let? n := count_where test rest in
      Ok (if b then (1 + n)%Z else n)
  end.

Fixpoint traverse {A B} (f : A -> result B) (l : list A) : result (list B) :=
  match l with
  | [] => Ok []
  | x :: l' =>
      let? y := f x in
      let? ys := traverse f l' in
      Ok (y :: ys)
  end.

(** [all_analyses.sort(key=lambda x: x['confidence'], reverse=True)]; the
    analyses that reach it have passed the test [> 0], so their
    confidences are numbers. *)
Definition sort_analyses (all_analyses : list (gmap string value))
    : result (list (gmap string value)) :=
  let? keys := traverse (fun x => number_item x "confidence") all_analyses in
  Ok (sort_by_key true (zip keys all_analyses)).

(** [l[a:b]] for indices that are not negative. *)
Definition slice_between {A} (a b : Z) (l : list A) : list A :=
  drop (Z.to_nat a) (take (Z.to_nat b) l).

(** [all_analyses[start_idx:end_idx]] of message [msg_num]. *)
Definition analyses_chunk {A} (all_analyses : list A) (msg_num : Z) : list A :=
  let start_idx := (msg_num * 10)%Z in
  let end_idx := Z.min ((msg_num + 1) * 10) (len all_analyses) in
  slice_between start_idx end_idx all_analyses.

(** [(len(all_analyses) + analyses_per_message - 1) // analyses_per_message] *)
Definition total_messages {A} (all_analyses : list A) : Z :=
  ((len all_analyses + 10 - 1) / 10)%Z.

(** One entry of the inner loop. *)
Definition listing_line_of (i : Z) (a : gmap string value)
    : result listing_line :=
  let? c := number_item a "confidence" in
  let confidence_emoji :=
    if Qle_bool 70 c then Green else if Qle_bool 50 c then Yellow else Red in
  let? v := record_item a "value_bet" in
  let? m := record_item a "match" in
  let? t := record_item a "recommendation" in
  let? shown := record_item a "confidence" in
  Ok {| line_number := i;
        line_band := confidence_emoji;
        line_match := m;
        line_recommendation := t;
        line_confidence := shown;
        line_value := truthy v |}.

(** [for i, analysis in enumerate(analyses_chunk, i)] *)
Fixpoint listing_lines (i : Z) (chunk : list (gmap string value))
    : result (list listing_line) :=
  match chunk with
  | [] => Ok []
  | a :: chunk' =>
      let? line := listing_line_of i a in
      let? lines := listing_lines (i + 1) chunk' in
      Ok (line :: lines)
  end.

(** [for msg_num in range(total_messages)]: the listings sent, and the
    exception that ended the loop, if any. *)
Fixpoint send_listings (all_analyses : list (gmap string value))
    (msg_nums : list Z) : list report * option exn :=
  match msg_nums with
  | [] => ([], None)
  | msg_num :: rest =>
      let start_idx := (msg_num * 10)%Z in
      let end_idx := Z.min ((msg_num + 1) * 10) (len all_analyses) in
      match listing_lines (start_idx + 1) (analyses_chunk all_analyses msg_num) with
      | Raise e => ([], Some e)
      | Ok lines =>
          let '(sent, stopped) := send_listings all_analyses rest in
          (Listing (start_idx + 1) end_idx (len all_analyses) lines :: sent,
           stopped)
      end
  end.

(** The four counts of the statistics. *)
Definition statistics (all_analyses : list (gmap string value))
    : result (Z * Z * Z * Z) :=
  let? high_confidence :=
    count_where (fun a => let? c := number_item a "confidence" in
                          Ok (Qle_bool 70 c)) all_analyses in
  let? medium_confidence :=
    count_where (fun a => let? c := number_item a "confidence" in
                          Ok (Qle_bool 50 c && Qlt_bool c 70)) all_analyses in
  let? low_confidence :=
    count_where (fun a => let? c := number_item a "confidence" in
                          Ok (Qlt_bool c 50)) all_analyses in
  let? value_bets :=
    count_where (fun a => let? v := record_item a "value_bet" in
                          Ok (truthy v)) all_analyses in
  Ok (high_confidence, medium_confidence, low_confidence, value_bets).

Definition analysis_command (self : BettingAnalyzer)
    (matches_data : list (string * list match_record)) : list report :=
  Analysing ::
  match matches_data with
  | [] => [NothingToAnalyse]
  | _ =>
      match collect_analyses self above_zero (matches_of matches_data) [] with
      | Raise _ => [AnalysisFailure]
      | Ok [] => [NoAnalysis]
      | Ok all_analyses =>
          match sort_analyses all_analyses with
          | Raise _ => [AnalysisFailure]
          | Ok all_analyses =>
              match statistics all_analyses with
              | Raise _ => [AnalysisFailure]
              | Ok (high_confidence, medium_confidence, low_confidence,
                    value_bets) =>
                  Statistics (len all_analyses) high_confidence
                    medium_confidence low_confidence value_bets ::
                  match send_listings all_analyses
                          (seqZ 0 (total_messages all_analyses)) with
                  | (sent, Some _) => sent ++ [AnalysisFailure]
                  | (sent, None) =>
                      sent ++ [Finished (len all_analyses) high_confidence
                                 value_bets]
                  end
              end
          end
      end
  end.

(** The lines of the listings among [replies], in the order sent. *)
Definition listed (replies : list report) : list listing_line :=
  reply ← replies;
  match reply with
  | Listing _ _ _ lines => lines
  | _ => []
  end.

(** The line shown for the analysis [r], but for its number. *)
Definition shows (r : gmap string value) (line : listing_line) : Prop :=
  r !! "match" = Some (line_match line)
  /\ r !! "recommendation" = Some (line_recommendation line)
  /\ r !! "confidence" = Some (line_confidence line).

(** The confidence of an analysis and of a line, as numbers. *)
Definition record_score (a : gmap string value) : Q :=
  match number_item a "confidence" with
  | Ok c => c
  | Raise _ => 0
  end.

Definition line_score (line : listing_line) : Q :=
  match as_number (line_confidence line) with
  | Ok c => c
  | Raise _ => 0
  end.

(** The analyses [analysis_command] can list: a numeric confidence and
    the fields a line shows. *)
Definition listable (a : gmap string value) : Prop :=
  (exists c, number_item a "confidence" = Ok c)
  /\ is_Some (a !! "value_bet")
  /\ is_Some (a !! "match")
  /\ is_Some (a !! "recommendation").

(** ** What the commands keep *)

(** The odds written in the recommendation of the analysis [r], 0 when
    none can be read. *)
Definition record_odds (py_float : string -> option Q)
    (r : gmap string value) : Q :=
  match r !! "recommendation" with
  | Some text =>
      match extract_odds py_float text with Ok x => x | Raise _ => 0 end
  | None => 0
  end.

(** [r['value_bet']] as a truth value. *)
Definition record_value (r : gmap string value) : bool :=
  match r !! "value_bet" with
  | Some v => truthy v
  | None => false
  end.

(** The analyses a tier takes: the confidence reaches the tier's minimum
    and the odds written in the recommendation do not exceed its
    maximum. *)
Definition suitable (level_config : tier_info) (r : gmap string value)
    : bool :=
  Qle_bool (inject_Z (info_min_confidence level_config)) (record_score r)
  && Qle_bool (record_odds decimal_float r) (info_max_odds level_config).

(** The analyses with a confidence of at least 50. *)
Definition reliable (r : gmap string value) : bool :=
  Qle_bool 50 (record_score r).

(** The analyses with a confidence above 0. *)
Definition positive (r : gmap string value) : bool :=
  Qlt_bool 0 (record_score r).

(** The same as [suitable], said of the match [m] that [r] analyses: [m]
    has odds, the confidence of the analysis reaches the tier's minimum,
    and the odds of the bet selected for [m], rounded to two decimals, do
    not exceed the tier's maximum. *)
Definition tier_analysis (level_config : tier_info) (m : match_record)
    (r : gmap string value) : Prop :=
  exists odds c,
    _get_best_odds_from_match m = Some odds
    /\ r !! "confidence" = Some (VInt c)
    /\ (info_min_confidence level_config <= c)%Z
    /\ py_round2 (Binary64.recommended_odds (match_best_bet m odds))
       <= info_max_odds level_config.

(** The dictionary [_create_combination] returns for the analyses [bets],
    when each has a numeric confidence, readable odds and a match
    label. *)
Definition combination_from (py_float : string -> option Q)
    (combo_type : string) (bets : list (gmap string value)) : combination :=
  {| combo_type := combo_type;
     matches := leg_of_record <$> bets;
     total_odds := float_round2 (product_of (record_odds py_float <$> bets));
     avg_confidence :=
       py_round (foldl Qplus 0 (record_score <$> bets) / inject_Z (len bets));
     potential_return :=
       float_round2
         (fmul (product_of (record_odds py_float <$> bets)) (b64 10)) |}.

(** Four analyses with the value flag [analyze_match] sets, two of them
    value bets. *)
Definition flagged (m text : string) (confidence : Z) (value_bet : bool)
    : gmap string value :=
  <["value_bet" := VBool value_bet]> (analysis m text confidence).

Definition flagged_store : gmap nat (gmap string value) :=
  {[ 0%nat := flagged "A vs B" "Victoire A (cote: 1.50)" 80 true;
     1%nat := flagged "C vs D" "Victoire C (cote: 1.80)" 75 false;
     2%nat := flagged "E vs F" "Match nul (cote: 3.10)" 60 true;
     3%nat := flagged "G vs H" "Victoire H (cote: 2.40)" 55 false ]}.

Definition flagged_analyses : list nat := [0; 1; 2; 3]%nat.

(** A bookmaker entry that carries the team names itself. *)
Definition named_bookmakers : list bookmaker :=
  [ {| bk_home_team := Some "Lyon"%string;
       bk_away_team := Some "Paris"%string;
       bk_markets := Some
         [ {| mk_key := "h2h";
              mk_outcomes :=
                [ {| q_name := "Lyon"; q_price := 2.10 |};
                  {| q_name := "Paris"; q_price := 3.40 |};
                  {| q_name := "Draw"; q_price := 3.20 |} ] |} ] |} ].

Definition tiny_price_odds : gmap string Q :=
  {[ "home" := tiny_price; "draw" := 3.00; "away" := 2.00 ]}.

(** A bet with the probability 1e307, as a float. *)
Definition huge_probability_bet : Binary64.best_bet :=
  {| Binary64.recommendation := "Victoire A";
     Binary64.recommended_odds := 2.0;
     Binary64.probability := b64 (10 ^ 307);
     Binary64.value_score := S754_zero false;
     Binary64.bet_type := "home" |}.

(** The bet of the specification's example: odds 100, probability 0.99,
    value score 98. *)
Definition extreme_float_bet : Binary64.best_bet :=
  {| Binary64.recommendation := "Victoire A";
     Binary64.recommended_odds := 100;
     Binary64.probability := b64 0.99;
     Binary64.value_score := b64 98;
     Binary64.bet_type := "home" |}.

(** [max(0, min(100, n))] *)
Definition clamp (n : Z) : Z := Z.max 0 (Z.min 100 n).

(** The bets that go on to the sort: the analyses that reach the tier's
    minimum, or, when fewer than three do, the most confident of all. *)
Definition tier_candidates (h : heap) (level : string) (analyses : list loc)
    : list loc :=
  let cfg := default moyen_config (level_configs !! level) in
  let pool := qualifying h (min_confidence cfg) analyses in
  if (len pool <? 3)%Z
  then slice_to (combo_size cfg)
         (sort_by_key true (zip (confidence h <$> analyses) analyses))
  else pool.

(** Five analyses with the confidences 80, 75, 70, 65 and 50.  The odds
    of the first four, 1.25, 1.40, 1.50 and 1.80, have the product 4.725
    over the rationals; multiplied in binary64 they give
    4.7250000000000005, which rounds to 4.73. *)
Definition rounding_store : gmap nat (gmap string value) :=
  {[ 0%nat := analysis "A vs B" "Victoire A (cote: 1.25)" 80;
     1%nat := analysis "C vs D" "Victoire C (cote: 1.40)" 75;
     2%nat := analysis "E vs F" "Victoire E (cote: 1.50)" 70;
     3%nat := analysis "G vs H" "Victoire G (cote: 1.80)" 65;
     4%nat := analysis "I vs J" "Victoire I (cote: 2.10)" 50 ]}.

Definition rounding_analyses : list nat := [0; 1; 2; 3; 4]%nat.

(** The analyses of the matches of [demo_matches_data], in order. *)
Definition demo_analyses : list (gmap string value) :=
  (fun m => match analyze_match default_analyzer m with
            | Ok r => r
            | Raise _ => ∅
            end) <$> matches_of demo_matches_data.

(** The entries of [level_info] for HIGH_RISK. *)
Definition high_risk_info : tier_info :=
  {| info_min_confidence := 45; info_max_odds := 10.0 |}.

(** A sport whose second match has the home price 1e-320. *)
Definition tiny_price_data : list (string * list match_record) :=
  [ ("soccer_france_ligue_one"%string, [demo_match; tiny_price_match]) ].

(** * Properties *)

Lemma Qlt_bool_iff (a b : Q) : Qlt_bool a b = true <-> a < b.
Proof.
  unfold Qlt_bool. rewrite negb_true_iff.
  destruct (Qle_bool b a) eqn:E.
  - apply Qle_bool_iff in E. split; [discriminate | lra].
  - split; [intros _ | reflexivity].
    destruct (Qlt_le_dec a b) as [H | H]; [exact H |].
    apply Qle_bool_iff in H. congruence.
Qed.

Lemma Qlt_bool_false (a b : Q) : Qlt_bool a b = false <-> b <= a.
Proof.
  destruct (Qlt_bool a b) eqn:E.
  - apply Qlt_bool_iff in E. split; [discriminate | lra].
  - split; [intros _ | reflexivity].
    destruct (Qlt_le_dec a b) as [H | H]; [| exact H].
    apply Qlt_bool_iff in H. congruence.
Qed.

(** [py_max] is the larger of its arguments. *)
Lemma py_max_spec (a b : Q) :
  a <= py_max a b /\ b <= py_max a b /\ (py_max a b = a \/ py_max a b = b).
Proof.
  unfold py_max. destruct (Qlt_bool a b) eqn:E.
  - apply Qlt_bool_iff in E. repeat split; try lra. now right.
  - apply Qlt_bool_false in E. repeat split; try lra. now left.
Qed.

Lemma raw_probability_pos (o : Q) : Qlt_bool 0 o = true -> 0 < 1 / o.
Proof.
  intros H. apply Qlt_bool_iff in H.
  unfold Qdiv. rewrite Qmult_1_l. now apply Qinv_lt_0_compat.
Qed.

Ltac odds_cases odds :=
  let oh := fresh "oh" in let oa := fresh "oa" in let od := fresh "od" in
  set (oh := odds_get odds "home" 0) in *;
  set (oa := odds_get odds "away" 0) in *;
  set (od := odds_get odds "draw" 0) in *;
  let Hh := fresh "Hh" in let Ha := fresh "Ha" in let Hd := fresh "Hd" in
  destruct (Qlt_bool 0 oh) eqn:Hh;
  destruct (Qlt_bool 0 oa) eqn:Ha;
  destruct (Qlt_bool 0 od) eqn:Hd.

(** C1: when some outcome has odds > 0, the keys of the probability map
    are exactly the outcomes with odds > 0 (in the order home, away,
    draw), every entry is (1/odds) divided by the sum of 1/odds over
    those outcomes, and the entries sum to 1. *)
Theorem calculate_probabilities_normalized (odds : gmap string Q) :
  (exists w, has_odds odds w = true) ->
  let probs := _calculate_probabilities odds in
  dict_keys probs = outcome_key <$> positive_outcomes odds
  /\ (forall w, has_odds odds w = true ->
        exists p, dict_lookup (outcome_key w) probs = Some p
          /\ p == (1 / odds_get odds (outcome_key w) 0) / total_implied odds)
  /\ Qsum (dict_values probs) == 1.
Proof.
  intros [w0 Hw0] probs. subst probs.
  unfold _calculate_probabilities, add_raw_probability, total_implied,
    positive_outcomes, has_odds in *.
  cbn [outcomes List.filter outcome_key].
  assert (Hw0' : Qlt_bool 0 (odds_get odds "home" 0) = true
              \/ Qlt_bool 0 (odds_get odds "away" 0) = true
              \/ Qlt_bool 0 (odds_get odds "draw" 0) = true)
    by (destruct w0; auto).
  clear Hw0.
  odds_cases odds.
  all: try (exfalso; destruct Hw0' as [H | [H | H]]; discriminate H).
  all: clear Hw0'; cbn; subst oh oa od.
  all: split; [| split; [intros w Hw; destruct w; cbn in Hw |- * |]].
  all: try congruence.
  all: repeat match goal with
         | H : Qlt_bool 0 ?o = true |- _ =>
             let P := fresh "P" in
             pose proof (raw_probability_pos o H) as P;
             generalize dependent (1 / o); clear H
         end; intros.
  all: match goal with
       | |- context [Qlt_bool 0 ?t] =>
           replace (Qlt_bool 0 t) with true
             by (symmetry; apply Qlt_bool_iff; lra)
       end.
  all: try reflexivity.
  all: try (eexists; split; [reflexivity |]).
  all: cbn; field; lra.
Qed.

Ltac Qbool_hyps :=
  repeat match goal with
    | H : Qlt_bool _ _ = true |- _ => apply Qlt_bool_iff in H
    | H : Qlt_bool _ _ = false |- _ => apply Qlt_bool_false in H
    end.


(** ** Truncation *)







(** ** The fallback of [_analyze_best_bet] *)

Lemma no_odds_no_options (odds : gmap string Q) (probs : dict Q)
    (home_team away_team : string) :
  (forall w, has_odds odds w = false) ->
  bet_options odds probs home_team away_team = [].
Proof.
  intros H. unfold bet_options, add_option.
  pose proof (H home) as Hh. pose proof (H away) as Ha.
  pose proof (H draw) as Hd. unfold has_odds in Hh, Ha, Hd.
  cbn [outcome_key] in Hh, Ha, Hd. now rewrite Hh, Ha, Hd.
Qed.

Lemma no_odds_no_probabilities (odds : gmap string Q) :
  (forall w, has_odds odds w = false) -> _calculate_probabilities odds = [].
Proof.
  intros H. unfold _calculate_probabilities, add_raw_probability.
  pose proof (H home) as Hh. pose proof (H away) as Ha.
  pose proof (H draw) as Hd. unfold has_odds in Hh, Ha, Hd.
  cbn [outcome_key] in Hh, Ha, Hd. now rewrite Hh, Ha, Hd.
Qed.

(** The fallback as the code has it: when no outcome has odds > 0 the result is the
    recommendation on home with value score 0; its odds are the stored
    home odds, and 2.0 when the odds set has no home entry; its
    probability is the stored home probability, and 0.4 when the
    probability map has no home entry, as is the case for the map computed
    from the odds set. *)
Theorem analyze_best_bet_fallback
    (odds : gmap string Q) (probs : dict Q) (home_team away_team : string) :
  (forall w, has_odds odds w = false) ->
  let r := _analyze_best_bet odds probs home_team away_team in
  bet_type r = "home"%string
  /\ recommendation r = ("Victoire " +:+ home_team)%string
  /\ value_score r = 0
  /\ recommended_odds r = odds_get odds "home" 2.0
  /\ probability r = dict_get probs "home" 0.4
  /\ (odds !! "home" = None -> recommended_odds r = 2.0)
  /\ (dict_lookup "home" probs = None -> probability r = 0.4)
  /\ probability (_analyze_best_bet odds (_calculate_probabilities odds)
                    home_team away_team) = 0.4.
Proof.
  intros H r. subst r. unfold _analyze_best_bet.
  rewrite !(no_odds_no_options odds _ home_team away_team H).
  rewrite (no_odds_no_probabilities odds H).
  cbn [py_max_by bet_type recommendation value_score recommended_odds
       probability].
  repeat split.
  - intros Ho. unfold odds_get. now rewrite Ho.
  - intros Hp. unfold dict_get. now rewrite Hp.
Qed.

Lemma analyze_best_bet_fallback_witness :
  (forall w, has_odds ∅ w = false)
  /\ recommended_odds (_analyze_best_bet ∅ [] "A" "B") = 2.0
  /\ probability (_analyze_best_bet ∅ [] "A" "B") = 0.4
  /\ value_score (_analyze_best_bet ∅ [] "A" "B") = 0.
Proof.
  assert (H : forall w, has_odds ∅ w = false)
    by (intros w; destruct w; reflexivity).
  destruct (analyze_best_bet_fallback ∅ [] "A" "B" H)
    as (_ & _ & Hv & _ & _ & Ho & Hp & _).
  split; [exact H |].
  split; [exact (Ho eq_refl) | split; [exact (Hp eq_refl) | exact Hv]].
Defined.

(** C4: on the all-zero odds set no outcome has odds above 0, and the
    fallback of [_analyze_best_bet] returns the recommendation on home
    with probability 0.4 and value score 0, but with the stored home odds
    0 as recommended odds, not the default 2.0 that the code writes in
    [odds.get('home', 2.0)]: the default applies to a missing key only.
    The selection over floats returns the same. *)
Lemma analyze_best_bet_fallback_not_default :
  (forall w, has_odds all_zero_odds w = false)
  /\ _analyze_best_bet all_zero_odds (_calculate_probabilities all_zero_odds)
       "A" "B"
     = {| recommendation := "Victoire A";
          recommended_odds := 0;
          probability := 0.4;
          value_score := 0;
          bet_type := "home" |}
  /\ ~ recommended_odds
         (_analyze_best_bet all_zero_odds
            (_calculate_probabilities all_zero_odds) "A" "B") == 2.0
  /\ Binary64.recommended_odds
       (Binary64._analyze_best_bet all_zero_odds
          (Binary64._calculate_probabilities all_zero_odds) "A" "B") = 0.
Proof.
  split; [intros w; destruct w; reflexivity |].
  split; [reflexivity |]. split; [discriminate | reflexivity].
Qed.

(** ** The value-bet flag *)

Lemma in_band_above_iff (self : BettingAnalyzer) (o prob threshold : Q) :
  in_band_above self o prob threshold = true
  <-> min_odds self <= o /\ o <= max_odds self /\ threshold < prob.
Proof.
  unfold in_band_above.
  rewrite !andb_true_iff, !Qle_bool_iff, Qlt_bool_iff. tauto.
Qed.

Lemma outcome_key_inj (w w' : outcome) : outcome_key w = outcome_key w' -> w = w'.
Proof. destruct w, w'; cbn; congruence. Qed.

Lemma odds_cover_tail (odds : gmap string Q) (kv : string * Q) (probs : dict Q) :
  odds_cover odds (kv :: probs) -> odds_cover odds probs.
Proof. intros H w p Hin. apply (H w p). now right. Qed.

Lemma qualifies_tail (self : BettingAnalyzer) (odds : gmap string Q)
    (kv : string * Q) (probs : dict Q) (w : outcome) (p : Q) :
  qualifies self odds probs w p -> qualifies self odds (kv :: probs) w p.
Proof. intros [Hin H]. split; [now right | exact H]. Qed.

(** What one iteration of the loop decides for a listed outcome. *)
Lemma is_value_bet_step (self : BettingAnalyzer) (odds : gmap string Q)
    (w : outcome) (prob : Q) (rest : dict Q) (o : Q) :
  odds !! outcome_key w = Some o ->
  _is_value_bet self odds ((outcome_key w, prob) :: rest)
  = if in_band_above self o prob (value_threshold w) then Ok true
    else _is_value_bet self odds rest.
Proof.
  intros Ho. destruct w; cbn in *; unfold odds_index; now rewrite Ho.
Qed.

(** An entry whose key is none of the three outcomes is skipped. *)
Lemma is_value_bet_skip (self : BettingAnalyzer) (odds : gmap string Q)
    (k : string) (prob : Q) (rest : dict Q) :
  (forall w, k <> outcome_key w) ->
  _is_value_bet self odds ((k, prob) :: rest) = _is_value_bet self odds rest.
Proof.
  intros H. cbn.
  destruct (String.eqb_spec k "home") as [E | _]; [now destruct (H home) |].
  destruct (String.eqb_spec k "away") as [E | _]; [now destruct (H away) |].
  destruct (String.eqb_spec k "draw") as [E | _]; [now destruct (H draw) |].
  reflexivity.
Qed.

Lemma key_outcome_dec (k : string) :
  {w | k = outcome_key w} + {forall w, k <> outcome_key w}.
Proof.
  destruct (String.eqb_spec k "home") as [E | N1]; [left; now exists home |].
  destruct (String.eqb_spec k "away") as [E | N2]; [left; now exists away |].
  destruct (String.eqb_spec k "draw") as [E | N3]; [left; now exists draw |].
  right. intros w. now destruct w.
Qed.


Lemma has_odds_is_Some (odds : gmap string Q) (w : outcome) :
  has_odds odds w = true -> is_Some (odds !! outcome_key w).
Proof.
  unfold has_odds, odds_get.
  destruct (odds !! outcome_key w) as [o |]; [eauto | discriminate].
Qed.

(** The map computed from an odds set is covered by it. *)
Lemma odds_cover_calculated (odds : gmap string Q) :
  odds_cover odds (_calculate_probabilities odds).
Proof.
  intros w p Hin. apply has_odds_is_Some.
  assert (Hk : outcome_key w ∈ dict_keys (_calculate_probabilities odds)).
  { unfold dict_keys. apply list_elem_of_fmap. now exists (outcome_key w, p). }
  clear Hin. revert Hk.
  unfold _calculate_probabilities, add_raw_probability, has_odds.
  odds_cases odds; cbn;
    repeat match goal with
      | |- context [if ?b then _ else _] => destruct b
      end; cbn;
    rewrite ?elem_of_cons, elem_of_nil;
    destruct w; cbn; fold oh oa od; intuition congruence.
Qed.

(** C5: on an odds set that has an entry for every listed outcome,
    [_is_value_bet] returns, and it returns true exactly when some listed
    outcome has odds in the closed band [min_odds, max_odds] and a
    probability strictly above its threshold (0.30 for home and away, 0.25
    for draw). *)
Theorem is_value_bet_iff (self : BettingAnalyzer) (odds : gmap string Q)
    (probs : dict Q) :
  odds_cover odds probs ->
  exists b, _is_value_bet self odds probs = Ok b
    /\ (b = true <-> exists w p, qualifies self odds probs w p).
Proof.
  induction probs as [| [k prob] rest IH]; intros Hc.
  - exists false. split; [reflexivity |]. split; [discriminate |].
    intros (w & p & Hin & _). now apply elem_of_nil in Hin.
  - destruct (IH (odds_cover_tail _ _ _ Hc)) as (b & Hb & Hiff).
    destruct (key_outcome_dec k) as [[w ->] | Hk].
    + destruct (Hc w prob) as [o Ho]; [now left |].
      rewrite (is_value_bet_step self odds w prob rest o Ho).
      destruct (in_band_above self o prob (value_threshold w)) eqn:Eb.
      * exists true. split; [reflexivity |]. split; [| reflexivity].
        intros _. exists w, prob. split; [now left |].
        exists o. split; [exact Ho |]. now apply in_band_above_iff.
      * exists b. split; [exact Hb |]. rewrite Hiff. split.
        -- intros (w' & p & Hq). exists w', p. now apply qualifies_tail.
        -- intros (w' & p & Hin & o' & Ho' & Hband).
           apply elem_of_cons in Hin as [Heq | Hin].
           ++ injection Heq as Hw Hp. apply outcome_key_inj in Hw. subst w' p.
              rewrite Ho in Ho'. injection Ho' as <-.
              apply in_band_above_iff in Hband. congruence.
           ++ exists w', p. split; [exact Hin |]. now exists o'.
    + rewrite (is_value_bet_skip self odds k prob rest Hk).
      exists b. split; [exact Hb |]. rewrite Hiff. split.
      * intros (w' & p & Hq). exists w', p. now apply qualifies_tail.
      * intros (w' & p & Hin & Hq).
        apply elem_of_cons in Hin as [Heq | Hin].
        -- injection Heq as Hw Hp. now destruct (Hk w').
        -- exists w', p. now split.
Qed.

(** ** The store monad *)

Lemma bind_ok {A B} (m : M A) (f : A -> M B) (h h' : heap) (a : A) :
  m h = (Ok a, h') -> bind m f h = f a h'.
Proof. intros E. unfold bind. now rewrite E. Qed.

Lemma bind_raise {A B} (m : M A) (f : A -> M B) (h h' : heap) (e : exn) :
  m h = (Raise e, h') -> bind m f h = (Raise e, h').
Proof. intros E. unfold bind. now rewrite E. Qed.

Lemma get_item_eq (bet : loc) (k : string) (h : heap) :
  get_item bet k h
  = (match deref h bet !! k with
     | Some v => Ok v
     | None => Raise (KeyError k)
     end, h).
Proof. unfold get_item. now destruct (deref h bet !! k). Qed.

Lemma get_item_ok (bet : loc) (k : string) (h : heap) (v : value) :
  deref h bet !! k = Some v -> get_item bet k h = (Ok v, h).
Proof. intros E. unfold get_item. now rewrite E. Qed.

Lemma get_number_eq (bet : loc) (k : string) (h : heap) :
  get_number bet k h = (read_number h bet k, h).
Proof.
  unfold get_number, read_number, bind, get_item, lift.
  now destruct (deref h bet !! k).
Qed.

Lemma confidence_at_least_eq (bound : Z) (bet : loc) (h : heap) (c : Q) :
  read_number h bet "confidence" = Ok c ->
  confidence_at_least bound bet h = (Ok (Qle_bool (inject_Z bound) c), h).
Proof.
  intros E. unfold confidence_at_least.
  rewrite (bind_ok _ _ h h c) by (now rewrite get_number_eq, E).
  reflexivity.
Qed.

Lemma confidence_ok (h : heap) (bet : loc) (c : Q) :
  read_number h bet "confidence" = Ok c -> confidence h bet = c.
Proof. intros E. unfold confidence. now rewrite E. Qed.

Lemma filterM_confidence (bound : Z) (analyses : list loc) (h : heap) :
  Forall (numeric_confidence h) analyses ->
  filterM (confidence_at_least bound) analyses h
  = (Ok (qualifying h bound analyses), h).
Proof.
  induction 1 as [| bet l [c Hc] _ IH]; [reflexivity |].
  cbn [filterM qualifying List.filter].
  rewrite (bind_ok _ _ h h _ (confidence_at_least_eq bound bet h c Hc)).
  rewrite (bind_ok _ _ h h _ IH).
  rewrite (confidence_ok h bet c Hc). reflexivity.
Qed.

Lemma mapM_confidence (l : list loc) (h : heap) :
  Forall (numeric_confidence h) l ->
  mapM (fun x => get_number x "confidence") l h = (Ok (confidence h <$> l), h).
Proof.
  induction 1 as [| bet l [c Hc] _ IH]; [reflexivity |].
  cbn [mapM fmap list_fmap].
  rewrite (bind_ok _ _ h h c) by (now rewrite get_number_eq, Hc).
  rewrite (bind_ok _ _ h h _ IH).
  rewrite (confidence_ok h bet c Hc). reflexivity.
Qed.

Lemma py_sorted_confidence (reverse : bool) (l : list loc) (h : heap) :
  Forall (numeric_confidence h) l ->
  py_sorted (fun x => get_number x "confidence") reverse l h
  = (Ok (sort_by_key reverse (zip (confidence h <$> l) l)), h).
Proof.
  intros H. unfold py_sorted.
  now rewrite (bind_ok _ _ h h _ (mapM_confidence l h H)).
Qed.

(** ** Too few qualifying analyses *)

(** C7: when the list is shorter than [combo_size], or when every
    analysis has a numeric confidence and fewer than [combo_size] of them
    reach 50, [generate_combinations] returns the empty list (and leaves
    the store alone). *)
Theorem generate_combinations_insufficient
    (py_float : string -> option Q) (shuffle : list loc -> list loc)
    (analyses : list loc) (combo_size : Z) (h : heap) :
  (len analyses < combo_size)%Z
  \/ (Forall (numeric_confidence h) analyses
      /\ (len (qualifying h 50 analyses) < combo_size)%Z) ->
  generate_combinations py_float shuffle analyses combo_size h = (Ok [], h).
Proof.
  intros H. unfold generate_combinations.
  destruct (len analyses <? combo_size)%Z eqn:E; [reflexivity |].
  apply Z.ltb_ge in E. destruct H as [H | [Hn Hq]]; [lia |].
  rewrite (bind_ok _ _ h h _ (filterM_confidence 50 analyses h Hn)).
  apply Z.ltb_lt in Hq. now rewrite Hq.
Qed.

(** ** What the builder writes *)

Create HintDb frame.

Lemma preserves_ret {A} (a : A) : preserves (ret a).
Proof. now intros h. Qed.

Lemma preserves_raise {A} (e : exn) : preserves (@raise A e).
Proof. now intros h. Qed.

Lemma preserves_lift {A} (r : result A) : preserves (lift r).
Proof. now intros h. Qed.

Lemma preserves_get_item (bet : loc) (k : string) : preserves (get_item bet k).
Proof. intros h. now rewrite get_item_eq. Qed.

Lemma preserves_bind {A B} (m : M A) (f : A -> M B) :
  preserves m -> (forall a, preserves (f a)) -> preserves (bind m f).
Proof.
  intros Hm Hf h. unfold bind. specialize (Hm h).
  destruct (m h) as [[a | e] h']; cbn in Hm; subst h'; [apply Hf | reflexivity].
Qed.

Lemma preserves_get_number (bet : loc) (k : string) :
  preserves (get_number bet k).
Proof. intros h. now rewrite get_number_eq. Qed.

Lemma preserves_mapM {A B} (f : A -> M B) (l : list A) :
  (forall x, preserves (f x)) -> preserves (mapM f l).
Proof.
  intros Hf. induction l as [| x l IH]; cbn [mapM]; [apply preserves_ret |].
  apply preserves_bind; [apply Hf | intros y].
  apply preserves_bind; [exact IH | intros ys; apply preserves_ret].
Qed.

Lemma preserves_filterM {A} (test : A -> M bool) (l : list A) :
  (forall x, preserves (test x)) -> preserves (filterM test l).
Proof.
  intros Hf. induction l as [| x l IH]; cbn [filterM]; [apply preserves_ret |].
  apply preserves_bind; [apply Hf | intros y].
  apply preserves_bind; [exact IH | intros ys; apply preserves_ret].
Qed.

Lemma preserves_py_sorted (key : loc -> M Q) (reverse : bool) (l : list loc) :
  (forall x, preserves (key x)) -> preserves (py_sorted key reverse l).
Proof.
  intros Hk. apply preserves_bind; [now apply preserves_mapM |].
  intros keys. apply preserves_ret.
Qed.

#[local] Hint Resolve preserves_ret preserves_raise preserves_lift
  preserves_get_item preserves_get_number preserves_mapM preserves_filterM
  preserves_py_sorted : frame.

Ltac frame_step :=
  first
    [ solve [auto with frame]
    | match goal with
      | |- preserves (if ?b then _ else _) => destruct b
      | |- preserves (match ?x with _ => _ end) => destruct x
      end
    | apply preserves_filterM; intros ?
    | apply preserves_mapM; intros ?
    | apply preserves_py_sorted; intros ?
    | apply preserves_bind; [| intros ?] ].

Lemma preserves_confidence_at_least (bound : Z) (bet : loc) :
  preserves (confidence_at_least bound bet).
Proof. unfold confidence_at_least. repeat frame_step. Qed.

Lemma preserves_add_leg (py_float : string -> option Q)
    (st : spec_float * Q * list leg) (bet : loc) :
  preserves (add_leg py_float st bet).
Proof. destruct st as [[to tc] ms]. unfold add_leg. repeat frame_step. Qed.

Lemma preserves_add_legs (py_float : string -> option Q)
    (bets : list loc) (st : spec_float * Q * list leg) :
  preserves (add_legs py_float st bets).
Proof.
  revert st. induction bets as [| bet bets IH]; intros st; cbn [add_legs].
  - apply preserves_ret.
  - apply preserves_bind; [apply preserves_add_leg | intros st'; apply IH].
Qed.

Lemma preserves_create_combination (py_float : string -> option Q)
    (bets : list loc) (name : string) :
  preserves (_create_combination py_float bets name).
Proof.
  unfold _create_combination.
  apply preserves_bind; [apply preserves_add_legs |].
  intros [[to tc] ms]. repeat frame_step.
Qed.

#[local] Hint Resolve preserves_confidence_at_least
  preserves_create_combination : frame.

Lemma preserves_generate_combinations (py_float : string -> option Q)
    (shuffle : list loc -> list loc) (analyses : list loc) (combo_size : Z) :
  preserves (generate_combinations py_float shuffle analyses combo_size).
Proof. unfold generate_combinations. repeat frame_step. Qed.

Lemma same_but_extracted_refl (h : heap) : same_but_extracted h h.
Proof. now intros bet k _. Qed.

Lemma same_but_extracted_trans (h1 h2 h3 : heap) :
  same_but_extracted h1 h2 -> same_but_extracted h2 h3 ->
  same_but_extracted h1 h3.
Proof. intros H12 H23 bet k Hk. now rewrite H23, H12. Qed.

Lemma writes_preserves {A} (m : M A) : preserves m -> writes_extracted_only m.
Proof. intros H h. rewrite H. apply same_but_extracted_refl. Qed.

Lemma writes_bind {A B} (m : M A) (f : A -> M B) :
  writes_extracted_only m -> (forall a, writes_extracted_only (f a)) ->
  writes_extracted_only (bind m f).
Proof.
  intros Hm Hf h. unfold bind. specialize (Hm h).
  destruct (m h) as [[a | e] h']; cbn in Hm |- *; [| exact Hm].
  eapply same_but_extracted_trans; [exact Hm | apply Hf].
Qed.

Lemma writes_try_except {A} (body handler : M A) :
  writes_extracted_only body -> writes_extracted_only handler ->
  writes_extracted_only (try_except body handler).
Proof.
  intros Hb Hh h. unfold try_except. specialize (Hb h).
  destruct (body h) as [[a | e] h']; cbn in Hb |- *; [exact Hb |].
  eapply same_but_extracted_trans; [exact Hb | apply Hh].
Qed.

Lemma deref_set_item (bet bet' : loc) (k : string) (v : value) (h : heap) :
  deref (snd (set_item bet k v h)) bet'
  = if decide (bet = bet') then <[k := v]> (deref h bet) else deref h bet'.
Proof.
  unfold set_item, deref at 1. cbn [snd].
  rewrite lookup_insert. now destruct (decide (bet = bet')).
Qed.

Lemma writes_set_extracted (bet : loc) (v : value) :
  writes_extracted_only (set_item bet "_extracted_odds" v).
Proof.
  intros h bet' k Hk. rewrite deref_set_item.
  destruct (decide (bet = bet')) as [<- |]; [| reflexivity].
  now rewrite lookup_insert_ne.
Qed.

Lemma writes_mapM {A B} (f : A -> M B) (l : list A) :
  (forall x, writes_extracted_only (f x)) -> writes_extracted_only (mapM f l).
Proof.
  intros Hf. induction l as [| x l IH]; cbn [mapM].
  - apply writes_preserves, preserves_ret.
  - apply writes_bind; [apply Hf | intros y].
    apply writes_bind; [exact IH | intros ys].
    apply writes_preserves, preserves_ret.
Qed.

Lemma writes_extract_for_sort (py_float : string -> option Q) (bet : loc) :
  writes_extracted_only (extract_for_sort py_float bet).
Proof.
  unfold extract_for_sort. apply writes_try_except.
  - apply writes_bind; [apply writes_preserves; auto with frame | intros text].
    apply writes_bind; [apply writes_preserves; auto with frame | intros odds].
    apply writes_bind; [apply writes_set_extracted | intros []].
    apply writes_preserves, preserves_ret.
  - apply writes_bind; [apply writes_set_extracted | intros []].
    apply writes_preserves, preserves_ret.
Qed.

(** ** Tier tables *)

Lemma level_config_unknown (level : string) :
  ~ known_level level -> level_configs !! level = None.
Proof.
  intros H. unfold known_level in H. unfold level_configs.
  rewrite !lookup_insert_ne, lookup_singleton_ne by (intros <-; tauto).
  reflexivity.
Qed.

Lemma combo_type_name_unknown (level : string) :
  ~ known_level level -> combo_type_names !! level = None.
Proof.
  intros H. unfold known_level in H. unfold combo_type_names.
  rewrite !lookup_insert_ne, lookup_singleton_ne by (intros <-; tauto).
  reflexivity.
Qed.

Lemma level_config_sorts_by_confidence (level : string) :
  level <> "HIGH_RISK"%string ->
  sort_by (default moyen_config (level_configs !! level)) = "confidence"%string.
Proof.
  intros H. unfold level_configs.
  destruct (decide (level = "SAFE"%string)) as [-> | N1]; [reflexivity |].
  destruct (decide (level = "MOYEN"%string)) as [-> | N2]; [reflexivity |].
  rewrite !lookup_insert_ne, lookup_singleton_ne by congruence. reflexivity.
Qed.

(** ** The stable sort rearranges its input *)

Lemma insert_by_key_perm {A} (reverse : bool) (x : Q * A) (l : list (Q * A)) :
  insert_by_key reverse x l ≡ₚ x :: l.
Proof.
  induction l as [| y l IH]; cbn [insert_by_key]; [reflexivity |].
  destruct (goes_before reverse (fst y) (fst x)); [| reflexivity].
  rewrite IH. apply perm_swap.
Qed.

Lemma sort_by_key_perm {A} (reverse : bool) (l : list (Q * A)) :
  sort_by_key reverse l ≡ₚ snd <$> l.
Proof.
  unfold sort_by_key. induction l as [| x l IH]; [reflexivity |].
  cbn [foldr]. rewrite insert_by_key_perm. cbn [fmap list_fmap].
  now rewrite IH.
Qed.

Lemma sorted_by_confidence_perm (reverse : bool) (h : heap) (l : list loc) :
  sort_by_key reverse (zip (confidence h <$> l) l) ≡ₚ l.
Proof.
  rewrite sort_by_key_perm. rewrite snd_zip; [reflexivity |].
  now rewrite length_fmap.
Qed.

Lemma slice_to_subseteq {A} (n : Z) (l : list A) : slice_to n l ⊆ l.
Proof.
  unfold slice_to. destruct (0 <=? n)%Z; apply sublist_subseteq, sublist_take.
Qed.

Lemma numeric_qualifying (h : heap) (bound : Z) (l : list loc) :
  Forall (numeric_confidence h) l ->
  Forall (numeric_confidence h) (qualifying h bound l).
Proof.
  rewrite !Forall_forall. intros H x Hx. apply H.
  apply list_elem_of_In in Hx. apply list_elem_of_In.
  unfold qualifying in Hx. now apply filter_In in Hx.
Qed.

Lemma numeric_top_slice (h : heap) (reverse : bool) (n : Z) (l : list loc) :
  Forall (numeric_confidence h) l ->
  Forall (numeric_confidence h)
    (slice_to n (sort_by_key reverse (zip (confidence h <$> l) l))).
Proof.
  rewrite !Forall_forall. intros H x Hx. apply H.
  apply slice_to_subseteq in Hx.
  now rewrite sorted_by_confidence_perm in Hx.
Qed.

(** ** The sort with [reverse=True] yields descending keys *)

Lemma goes_before_desc (ky kx : Q) :
  goes_before true ky kx = false <-> ky <= kx.
Proof. unfold goes_before. apply Qlt_bool_false. Qed.

Lemma insert_by_key_desc {A} (x : Q * A) (l : list (Q * A)) :
  StronglySorted key_desc l -> StronglySorted key_desc (insert_by_key true x l).
Proof.
  induction 1 as [| y l Hl IH Hy]; cbn [insert_by_key].
  - repeat constructor.
  - destruct (goes_before true (fst y) (fst x)) eqn:E.
    + constructor; [exact IH |].
      rewrite insert_by_key_perm. constructor; [| exact Hy].
      unfold key_desc, goes_before in *. apply Qlt_bool_iff in E. lra.
    + apply goes_before_desc in E.
      constructor; [now constructor |].
      constructor; [exact E |].
      eapply Forall_impl; [exact Hy |].
      intros z Hz. unfold key_desc in *. lra.
Qed.

Lemma sort_pairs_desc {A} (l : list (Q * A)) :
  StronglySorted key_desc (foldr (insert_by_key true) [] l).
Proof.
  induction l as [| x l IH]; cbn [foldr]; [constructor |].
  now apply insert_by_key_desc.
Qed.

Lemma sort_pairs_perm {A} (reverse : bool) (l : list (Q * A)) :
  foldr (insert_by_key reverse) [] l ≡ₚ l.
Proof.
  induction l as [| x l IH]; cbn [foldr]; [reflexivity |].
  now rewrite insert_by_key_perm, IH.
Qed.

Lemma zip_keyed {A} (f : A -> Q) (l : list A) : zip (f <$> l) l = keyed f <$> l.
Proof. induction l as [| x l IH]; [reflexivity |]. cbn. now rewrite IH. Qed.

Lemma strict_desc_weaken {A} (l : list (Q * A)) :
  StronglySorted key_strict_desc l -> StronglySorted key_desc l.
Proof.
  induction 1 as [| x l Hl IH Hx]; constructor; [exact IH |].
  eapply Forall_impl; [exact Hx |].
  intros y Hy. unfold key_desc, key_strict_desc in *. lra.
Qed.

(** With distinct keys an element is determined by its key. *)
Lemma strict_desc_key_inj {A} (l : list (Q * A)) (x y : Q * A) :
  StronglySorted key_strict_desc l ->
  x ∈ l -> y ∈ l -> fst x == fst y -> x = y.
Proof.
  induction 1 as [| z l Hl IH Hz]; intros Hx Hy E.
  - now apply elem_of_nil in Hx.
  - rewrite Forall_forall in Hz. unfold key_strict_desc in Hz.
    apply elem_of_cons in Hx as [-> | Hx]; apply elem_of_cons in Hy as [-> | Hy].
    + reflexivity.
    + specialize (Hz y Hy). lra.
    + specialize (Hz x Hx). lra.
    + now apply IH.
Qed.

(** Sorting any rearrangement of a list whose keys are strictly
    descending gives that list back. *)
Lemma sort_by_key_canonical {A} (f : A -> Q) (l l0 : list A) :
  l ≡ₚ l0 ->
  StronglySorted key_strict_desc (keyed f <$> l0) ->
  sort_by_key true (zip (f <$> l) l) = l0.
Proof.
  intros Hp Hs. unfold sort_by_key. rewrite zip_keyed.
  assert (E : foldr (insert_by_key true) [] (keyed f <$> l) = keyed f <$> l0).
  { assert (P : foldr (insert_by_key true) [] (keyed f <$> l) ≡ₚ keyed f <$> l0)
      by (now rewrite sort_pairs_perm, Hp).
    symmetry. apply (StronglySorted_unique_strong key_desc).
    - intros x1 x2 H1 H2 R12 R21.
      apply (strict_desc_key_inj (keyed f <$> l0)); [exact Hs | exact H1 | |].
      + now rewrite <- P.
      + unfold key_desc in *. lra.
    - now apply strict_desc_weaken.
    - apply sort_pairs_desc.
    - now symmetry. }
  rewrite E. rewrite <- list_fmap_compose.
  clear. induction l0 as [| x l0 IH]; [reflexivity |]. cbn. now rewrite IH.
Qed.

(** The result of sorting by a key with [reverse=True] has descending
    keys. *)
Lemma sort_by_key_descending {A} (f : A -> Q) (l : list A) :
  StronglySorted (fun a b => f b <= f a) (sort_by_key true (zip (f <$> l) l)).
Proof.
  unfold sort_by_key. rewrite zip_keyed.
  assert (K : Forall (fun p => fst p = f (snd p))
                (foldr (insert_by_key true) [] (keyed f <$> l))).
  { rewrite sort_pairs_perm. apply Forall_fmap, Forall_true. now intros x. }
  pose proof (sort_pairs_desc (keyed f <$> l)) as S.
  induction S as [| p ps Hps IH Hp]; cbn; [constructor |].
  apply Forall_cons in K as [Kp Kps].
  constructor; [now apply IH |].
  apply Forall_fmap. rewrite Forall_forall in Hp, Kps |- *.
  intros q Hq. cbn. unfold key_desc in Hp.
  rewrite <- Kp, <- (Kps q Hq). now apply Hp.
Qed.

Lemma qualifying_perm (h : heap) (bound : Z) (l l' : list loc) :
  l ≡ₚ l' -> qualifying h bound l ≡ₚ qualifying h bound l'.
Proof.
  unfold qualifying. induction 1 as [| x l l' _ IH | x y l | l l' l'' _ IH1 _ IH2].
  - reflexivity.
  - cbn. destruct (Qle_bool _ _); [now rewrite IH | exact IH].
  - cbn. destruct (Qle_bool _ (confidence h x)), (Qle_bool _ (confidence h y));
      try reflexivity. apply perm_swap.
  - now rewrite IH1.
Qed.

(** ** Frame properties of the two builders *)

Ltac writes_step :=
  first
    [ apply writes_preserves; solve [repeat frame_step]
    | apply writes_mapM; intros ?; apply writes_extract_for_sort
    | match goal with
      | |- writes_extracted_only (if ?b then _ else _) => destruct b
      | |- writes_extracted_only (match ?x with _ => _ end) => destruct x
      end
    | apply writes_bind; [| intros ?] ].

Lemma writes_generate_specific_combination (py_float : string -> option Q)
    (analyses : list loc) (level : string) :
  writes_extracted_only (generate_specific_combination py_float analyses level).
Proof. unfold generate_specific_combination. repeat writes_step. Qed.

Lemma preserves_generate_specific_combination
    (py_float : string -> option Q) (analyses : list loc) (level : string) :
  level <> "HIGH_RISK"%string ->
  preserves (generate_specific_combination py_float analyses level).
Proof.
  intros H. unfold generate_specific_combination.
  rewrite (level_config_sorts_by_confidence level H).
  cbn [String.eqb Ascii.eqb Bool.eqb]. repeat frame_step.
Qed.

(** C9, as the code has it: [generate_combinations] leaves the store as it
    found it, and so does [generate_specific_combination] for every level
    other than HIGH_RISK; for every level, no field other than
    [_extracted_odds] of any record is added, removed or modified. *)
Theorem combination_builders_frame
    (py_float : string -> option Q) (shuffle : list loc -> list loc)
    (analyses : list loc) (combo_size : Z) (level : string) (h : heap) :
  snd (generate_combinations py_float shuffle analyses combo_size h) = h
  /\ same_but_extracted h
       (snd (generate_specific_combination py_float analyses level h))
  /\ (level <> "HIGH_RISK"%string ->
      snd (generate_specific_combination py_float analyses level h) = h).
Proof.
  split; [apply preserves_generate_combinations |].
  split; [apply writes_generate_specific_combination |].
  intros H. now apply preserves_generate_specific_combination.
Qed.

(** C9, as stated, fails for HIGH_RISK: the first test analysis has no
    [_extracted_odds] field before the call and has one after it. *)
Lemma high_risk_adds_extracted_odds :
  let h' := snd (generate_specific_combination decimal_float test_analyses
                   "HIGH_RISK" test_store) in
  deref test_store 0 !! "_extracted_odds" = None
  /\ (exists x, deref h' 0 !! "_extracted_odds" = Some (VFloat x) /\ x == 1.5)
  /\ h' <> test_store.
Proof.
  assert (E : exists x,
             deref (snd (generate_specific_combination decimal_float
                           test_analyses "HIGH_RISK" test_store)) 0
               !! "_extracted_odds" = Some (VFloat x) /\ x == 1.5).
  { eexists. split; [vm_compute; reflexivity | reflexivity]. }
  cbv zeta. split; [reflexivity |]. split; [exact E |].
  intros Heq. destruct E as (x & Hx & _). rewrite Heq in Hx. discriminate Hx.
Qed.

(** ** Levels outside the three tiers *)

Lemma raises_bind {A B} (m : M A) (f : A -> M B) :
  (forall a, raises (f a)) -> raises (bind m f).
Proof.
  intros Hf h. unfold bind.
  destruct (m h) as [[a | e] h']; [apply Hf | now exists e].
Qed.

Lemma raises_raise {A} (e : exn) : raises (@raise A e).
Proof. intros h. now exists e. Qed.

(** C10: for a level outside SAFE, MOYEN and HIGH_RISK and a list of at
    least three analyses, [generate_specific_combination] raises; when
    every analysis has a numeric confidence, so that filtering and sorting
    with the MOYEN configuration go through, the exception is the KeyError
    of the name table on the level itself. *)
Theorem unknown_level_raises (py_float : string -> option Q)
    (analyses : list loc) (level : string) (h : heap) :
  ~ known_level level ->
  (3 <= len analyses)%Z ->
  (exists e, fst (generate_specific_combination py_float analyses level h)
             = Raise e)
  /\ default moyen_config (level_configs !! level) = moyen_config
  /\ (Forall (numeric_confidence h) analyses ->
      generate_specific_combination py_float analyses level h
      = (Raise (KeyError level), h)).
Proof.
  intros Hl Hn. unfold generate_specific_combination.
  apply Z.ltb_ge in Hn. rewrite Hn.
  rewrite (level_config_unknown level Hl), (combo_type_name_unknown level Hl).
  cbn [default moyen_config min_confidence combo_size sort_by desc
       String.eqb Ascii.eqb Bool.eqb].
  split; [| split; [reflexivity |]].
  - revert h. apply raises_bind. intros fb.
    apply raises_bind. intros fb'. apply raises_bind. intros sel.
    apply raises_raise.
  - intros Hnum.
    rewrite (bind_ok _ _ h h _ (filterM_confidence 60 analyses h Hnum)).
    assert (Hfb : exists fb,
               (if (len (qualifying h 60 analyses) <? 3)%Z
                then let! best := py_sorted
                                    (fun x => get_number x "confidence")
                                    true analyses in
                     ret (slice_to 4 best)
                else ret (qualifying h 60 analyses)) h = (Ok fb, h)
               /\ Forall (numeric_confidence h) fb).
    { destruct (len (qualifying h 60 analyses) <? 3)%Z.
      - eexists. split.
        + rewrite (bind_ok _ _ h h _ (py_sorted_confidence true analyses h Hnum)).
          reflexivity.
        + now apply numeric_top_slice.
      - eexists. split; [reflexivity |]. now apply numeric_qualifying. }
    destruct Hfb as (fb & Efb & Hfb).
    rewrite (bind_ok _ _ h h _ Efb).
    rewrite (bind_ok _ _ h h _ (py_sorted_confidence true fb h Hfb)).
    reflexivity.
Qed.

(** ** Rounding *)

Lemma Qlt_bool_proper (a b a' b' : Q) :
  a == a' -> b == b' -> Qlt_bool a b = Qlt_bool a' b'.
Proof.
  intros Ha Hb.
  destruct (Qlt_bool a b) eqn:E, (Qlt_bool a' b') eqn:E'; try reflexivity;
    Qbool_hyps; lra.
Qed.

Lemma py_round_proper (x y : Q) : x == y -> py_round x = py_round y.
Proof.
  intros E. unfold py_round. cbv zeta.
  rewrite (Qfloor_comp x y E).
  rewrite (Qlt_bool_proper (x - inject_Z (Qfloor y)) (1 # 2)
             (y - inject_Z (Qfloor y)) (1 # 2)) by lra.
  rewrite (Qlt_bool_proper (1 # 2) (x - inject_Z (Qfloor y))
             (1 # 2) (y - inject_Z (Qfloor y))) by lra.
  reflexivity.
Qed.

Lemma py_round2_proper (x y : Q) : x == y -> py_round2 x == py_round2 y.
Proof.
  intros E. unfold py_round2.
  rewrite (py_round_proper (x * 100) (y * 100)) by lra. reflexivity.
Qed.

(** [round] lands within one half of its argument. *)
Lemma py_round_nearest (x : Q) : Qabs (inject_Z (py_round x) - x) <= 1 # 2.
Proof.
  unfold py_round. cbv zeta.
  pose proof (Qfloor_le x) as L. pose proof (Qlt_floor x) as U.
  rewrite inject_Z_plus in U. change (inject_Z 1) with 1 in U.
  apply Qabs_Qle_condition.
  destruct (Qlt_bool (x - inject_Z (Qfloor x)) (1 # 2)) eqn:E1;
    [Qbool_hyps; lra |].
  destruct (Qlt_bool (1 # 2) (x - inject_Z (Qfloor x))) eqn:E2;
    [rewrite inject_Z_plus; change (inject_Z 1) with 1; Qbool_hyps; lra |].
  destruct (Z.even (Qfloor x));
    rewrite ?inject_Z_plus; change (inject_Z 1) with 1; Qbool_hyps; lra.
Qed.

(** ** Assembling a combination *)

Lemma add_leg_ok (py_float : string -> option Q) (h : heap) (bet : loc)
    (to : spec_float) (tc : Q) (ms : list leg) :
  combinable py_float h bet ->
  add_leg py_float (to, tc, ms) bet h
  = (Ok (fmul to (b64 (odds_of py_float h bet)), tc + confidence h bet,
         ms ++ [leg_of h bet]), h).
Proof.
  intros ([c Hc] & (text & x & Ht & Hx) & [m Hm]).
  unfold add_leg, odds_of, leg_of.
  rewrite (bind_ok _ _ h h _ (get_item_ok bet "recommendation" h text Ht)).
  rewrite (bind_ok _ _ h h x) by (unfold lift; now rewrite Hx).
  rewrite (bind_ok _ _ h h c) by (now rewrite get_number_eq, Hc).
  rewrite (bind_ok _ _ h h _ (get_item_ok bet "match" h m Hm)).
  rewrite (bind_ok _ _ h h _ (get_item_ok bet "recommendation" h text Ht)).
  rewrite (confidence_ok h bet c Hc), Ht, Hx, Hm.
  unfold read_number in Hc.
  destruct (deref h bet !! "confidence") as [v |] eqn:Ev; [| discriminate Hc].
  rewrite (bind_ok _ _ h h _ (get_item_ok bet "confidence" h v Ev)).
  reflexivity.
Qed.

Lemma add_legs_ok (py_float : string -> option Q) (h : heap)
    (bets : list loc) (to : spec_float) (tc : Q) (ms : list leg) :
  Forall (combinable py_float h) bets ->
  add_legs py_float (to, tc, ms) bets h
  = (Ok (foldl fmul to (b64 <$> (odds_of py_float h <$> bets)),
         foldl Qplus tc (confidence h <$> bets),
         ms ++ (leg_of h <$> bets)), h).
Proof.
  intros H. revert to tc ms.
  induction H as [| bet bets Hb _ IH]; intros to tc ms.
  - cbn. now rewrite app_nil_r.
  - cbn [add_legs fmap list_fmap foldl].
    rewrite (bind_ok _ _ h h _ (add_leg_ok py_float h bet to tc ms Hb)).
    rewrite IH. now rewrite <- app_assoc.
Qed.

(** On combinable records the combination is the binary64 product of the
    legs' odds, rounded to two decimals, with the rounded mean
    confidence. *)
Lemma create_combination_ok (py_float : string -> option Q) (h : heap)
    (bets : list loc) (name : string) :
  bets <> [] ->
  Forall (combinable py_float h) bets ->
  _create_combination py_float bets name h
  = (Ok {| combo_type := name;
           matches := leg_of h <$> bets;
           total_odds :=
             float_round2 (product_of (odds_of py_float h <$> bets));
           avg_confidence :=
             py_round (foldl Qplus 0 (confidence h <$> bets)
                       / inject_Z (len bets));
           potential_return :=
             float_round2
               (fmul (product_of (odds_of py_float h <$> bets)) (b64 10)) |},
     h).
Proof.
  intros Hne H. unfold _create_combination, product_of.
  rewrite (bind_ok _ _ h h _ (add_legs_ok py_float h bets (b64 1.0) 0 [] H)).
  destruct (len bets =? 0)%Z eqn:E.
  - apply Z.eqb_eq in E. unfold len in E. destruct bets; [congruence | cbn in E; lia].
  - reflexivity.
Qed.

(** The readers of the store and the readers of a record agree. *)
Lemma confidence_deref (h : heap) (bet : loc) :
  confidence h bet = record_score (deref h bet).
Proof.
  unfold confidence, read_number, record_score, number_item, record_item.
  now destruct (deref h bet !! "confidence").
Qed.

Lemma odds_of_deref (py_float : string -> option Q) (h : heap) (bet : loc) :
  odds_of py_float h bet = record_odds py_float (deref h bet).
Proof. reflexivity. Qed.

Lemma leg_of_deref (h : heap) (bet : loc) :
  leg_of h bet = leg_of_record (deref h bet).
Proof. reflexivity. Qed.

Lemma fmap_deref {B} (f : heap -> loc -> B) (g : gmap string value -> B)
    (h : heap) (bets : list loc) :
  (forall bet, f h bet = g (deref h bet)) ->
  f h <$> bets = g <$> (deref h <$> bets).
Proof.
  intros E. rewrite <- list_fmap_compose. apply list_fmap_ext.
  intros i bet _. apply E.
Qed.

(** [_create_combination] on records that have what a leg needs. *)
Lemma create_combination_from (py_float : string -> option Q) (h : heap)
    (bets : list loc) (name : string) :
  bets <> [] ->
  Forall (combinable py_float h) bets ->
  _create_combination py_float bets name h
  = (Ok (combination_from py_float name (deref h <$> bets)), h).
Proof.
  intros Hne H. rewrite (create_combination_ok py_float h bets name Hne H).
  unfold combination_from.
  rewrite <- (fmap_deref leg_of leg_of_record h bets (leg_of_deref h)).
  rewrite <- (fmap_deref (odds_of py_float) (record_odds py_float) h bets
                (odds_of_deref py_float h)).
  rewrite <- (fmap_deref confidence record_score h bets (confidence_deref h)).
  unfold len. now rewrite length_fmap.
Qed.

Lemma analysis_with_combinable (py_float : string -> option Q) (h : heap)
    (bet : loc) (c : Z) (x : Q) :
  analysis_with py_float h bet c x -> combinable py_float h bet.
Proof.
  intros (Hc & (text & Ht & Hx) & Hm). split; [| split; [| exact Hm]].
  - exists (inject_Z c). unfold read_number. now rewrite Hc.
  - now exists text, x.
Qed.

Lemma analysis_with_confidence (py_float : string -> option Q) (h : heap)
    (bet : loc) (c : Z) (x : Q) :
  analysis_with py_float h bet c x -> confidence h bet = inject_Z c.
Proof.
  intros (Hc & _). unfold confidence, read_number. now rewrite Hc.
Qed.

Lemma analysis_with_odds (py_float : string -> option Q) (h : heap)
    (bet : loc) (c : Z) (x : Q) :
  analysis_with py_float h bet c x -> odds_of py_float h bet = x.
Proof.
  intros (_ & (text & Ht & Hx) & _). unfold odds_of. now rewrite Ht, Hx.
Qed.

Lemma analysis_with_leg (py_float : string -> option Q) (h : heap)
    (bet : loc) (c : Z) (x : Q) :
  analysis_with py_float h bet c x -> leg_confidence (leg_of h bet) = VInt c.
Proof. intros (Hc & _). unfold leg_of. cbn. now rewrite Hc. Qed.

(** C6: five analyses with confidences 80, 75, 70, 65, 50, listed in any
    order, each with parseable odds, and tier MOYEN: the result is a
    combination of exactly four legs, the analyses with confidences 80,
    75, 70, 65 in that order (all at least 60, descending); its total odds
    are the product of the four legs' odds, multiplied in binary64 from
    1.0 in the order of the legs and rounded to two decimals, and its
    average confidence is the rounded mean of the four confidences, 72,
    which is within one half of the mean 72.5. *)
Theorem moyen_combination_of_five (py_float : string -> option Q) (h : heap)
    (analyses : list loc) (b0 b1 b2 b3 b4 : loc) (x0 x1 x2 x3 x4 : Q) :
  analysis_with py_float h b0 80 x0 ->
  analysis_with py_float h b1 75 x1 ->
  analysis_with py_float h b2 70 x2 ->
  analysis_with py_float h b3 65 x3 ->
  analysis_with py_float h b4 50 x4 ->
  analyses ≡ₚ [b0; b1; b2; b3; b4] ->
  exists c,
    generate_specific_combination py_float analyses "MOYEN" h = (Ok (Some c), h)
    /\ length (matches c) = 4%nat
    /\ matches c = leg_of h <$> [b0; b1; b2; b3]
    /\ leg_confidence <$> matches c = [VInt 80; VInt 75; VInt 70; VInt 65]
    /\ total_odds c
       = float_round2
           (fmul (fmul (fmul (fmul (b64 1.0) (b64 x0)) (b64 x1)) (b64 x2))
              (b64 x3))
    /\ avg_confidence c = py_round ((80 + 75 + 70 + 65) / 4)
    /\ avg_confidence c = 72%Z
    /\ Qabs (inject_Z (avg_confidence c) - (80 + 75 + 70 + 65) / 4) <= 1 # 2.
Proof.
  intros A0 A1 A2 A3 A4 Hp.
  pose proof (analysis_with_combinable _ _ _ _ _ A0) as C0.
  pose proof (analysis_with_combinable _ _ _ _ _ A1) as C1.
  pose proof (analysis_with_combinable _ _ _ _ _ A2) as C2.
  pose proof (analysis_with_combinable _ _ _ _ _ A3) as C3.
  pose proof (analysis_with_combinable _ _ _ _ _ A4) as C4.
  assert (N5 : Forall (numeric_confidence h) analyses).
  { rewrite Hp.
    repeat (apply Forall_cons_2;
      [match goal with H : combinable _ _ ?b |- _ _ ?b => apply H end |]).
    apply Forall_nil_2. }
  assert (K4 : Forall (combinable py_float h) [b0; b1; b2; b3])
    by (repeat (apply Forall_cons_2; [assumption |]); apply Forall_nil_2).
  pose proof (analysis_with_confidence _ _ _ _ _ A0) as E0.
  pose proof (analysis_with_confidence _ _ _ _ _ A1) as E1.
  pose proof (analysis_with_confidence _ _ _ _ _ A2) as E2.
  pose proof (analysis_with_confidence _ _ _ _ _ A3) as E3.
  pose proof (analysis_with_confidence _ _ _ _ _ A4) as E4.
  (* the filter keeps the four analyses at 60 or more *)
  assert (Q5 : qualifying h 60 analyses ≡ₚ [b0; b1; b2; b3]).
  { rewrite (qualifying_perm h 60 _ _ Hp).
    unfold qualifying. cbn [List.filter]. now rewrite E0, E1, E2, E3, E4. }
  assert (NQ : Forall (numeric_confidence h) (qualifying h 60 analyses))
    by (now apply numeric_qualifying).
  (* the sort puts them in the order 80, 75, 70, 65 *)
  assert (S4 : sort_by_key true
                 (zip (confidence h <$> qualifying h 60 analyses)
                      (qualifying h 60 analyses)) = [b0; b1; b2; b3]).
  { apply sort_by_key_canonical; [exact Q5 |].
    cbn [fmap list_fmap]. unfold keyed. rewrite E0, E1, E2, E3.
    repeat (apply SSorted_cons || apply SSorted_nil
            || apply Forall_cons_2 || apply Forall_nil_2); reflexivity. }
  assert (L5 : (len analyses <? 3)%Z = false)
    by (unfold len; now rewrite (Permutation_length Hp)).
  assert (L4 : (len (qualifying h 60 analyses) <? 3)%Z = false)
    by (unfold len; now rewrite (Permutation_length Q5)).
  eexists. split.
  - unfold generate_specific_combination. rewrite L5.
    change (level_configs !! "MOYEN"%string) with (Some moyen_config).
    change (combo_type_names !! "MOYEN"%string)
      with (Some "Combiné MOYEN ⚖️"%string).
    cbn [default moyen_config min_confidence combo_size sort_by desc
         String.eqb Ascii.eqb Bool.eqb].
    rewrite (bind_ok _ _ h h _ (filterM_confidence 60 _ h N5)).
    rewrite L4.
    rewrite (bind_ok _ _ h h (qualifying h 60 analyses)) by reflexivity.
    rewrite (bind_ok _ _ h h _ (py_sorted_confidence true _ h NQ)).
    rewrite S4.
    change (slice_to (Z.min 4 (len [b0; b1; b2; b3])) [b0; b1; b2; b3])
      with [b0; b1; b2; b3].
    rewrite (bind_ok _ _ h h _
               (create_combination_ok py_float h [b0; b1; b2; b3] _
                  ltac:(discriminate) K4)).
    reflexivity.
  - cbn [matches total_odds avg_confidence fmap list_fmap foldl].
    rewrite (analysis_with_odds _ _ _ _ _ A0), (analysis_with_odds _ _ _ _ _ A1),
      (analysis_with_odds _ _ _ _ _ A2), (analysis_with_odds _ _ _ _ _ A3).
    rewrite E0, E1, E2, E3.
    rewrite (analysis_with_leg _ _ _ _ _ A0), (analysis_with_leg _ _ _ _ _ A1),
      (analysis_with_leg _ _ _ _ _ A2), (analysis_with_leg _ _ _ _ _ A3).
    repeat split; try reflexivity.
    apply py_round_nearest.
Qed.

(** ** Unparseable recommendations *)

(** The sorting path stores the default odds 2.0 for a record whose
    recommendation cannot be read. *)
Lemma extract_for_sort_default (py_float : string -> option Q) (h : heap)
    (bet : loc) (text : value) (e : exn) :
  deref h bet !! "recommendation" = Some text ->
  extract_odds py_float text = Raise e ->
  extract_for_sort py_float bet h
  = (Ok bet, <[bet := <["_extracted_odds" := VFloat 2.0]> (deref h bet)]> h).
Proof.
  intros Ht Hx. unfold extract_for_sort, try_except.
  rewrite (bind_ok _ _ h h _ (get_item_ok bet "recommendation" h text Ht)).
  rewrite (bind_raise _ _ h h e) by (unfold lift; now rewrite Hx).
  reflexivity.
Qed.

(** The assembly path re-reads the recommendation without any default:
    the failure of the first unreadable leg is the failure of the call. *)
Lemma create_combination_propagates (py_float : string -> option Q) (h : heap)
    (bet : loc) (bets : list loc) (name : string) (text : value) (e : exn) :
  deref h bet !! "recommendation" = Some text ->
  extract_odds py_float text = Raise e ->
  _create_combination py_float (bet :: bets) name h = (Raise e, h).
Proof.
  intros Ht Hx. unfold _create_combination. cbn [add_legs].
  apply bind_raise. apply bind_raise. unfold add_leg.
  rewrite (bind_ok _ _ h h _ (get_item_ok bet "recommendation" h text Ht)).
  apply bind_raise. unfold lift. now rewrite Hx.
Qed.

(** C8 on the code: with the record of a match without odds among three
    analyses, the HIGH_RISK sort stores the default 2.0 on that record,
    and the assembly that follows raises IndexError out of
    [generate_specific_combination]. *)
Theorem unparseable_leg_escapes :
  let r := generate_specific_combination decimal_float degraded_analyses
             "HIGH_RISK" degraded_store in
  extract_odds decimal_float (VStr "Aucune cote disponible") = Raise IndexError
  /\ deref (snd r) 2 !! "_extracted_odds" = Some (VFloat 2.0)
  /\ fst r = Raise IndexError.
Proof. vm_compute. repeat split; reflexivity. Qed.

(** ** The properties at concrete inputs *)

Lemma calculate_probabilities_normalized_witness :
  Qsum (dict_values (_calculate_probabilities sample_odds)) == 1.
Proof.
  assert (H : exists w, has_odds sample_odds w = true)
    by (exists home; reflexivity).
  exact (proj2 (proj2 (calculate_probabilities_normalized sample_odds H))).
Defined.


(** The crafted equal-score fixture: home and away tie, home is chosen. *)
Example tie_break_prefers_home :
  outcome_score tie_odds tie_probs home == outcome_score tie_odds tie_probs away
  /\ bet_type (_analyze_best_bet tie_odds tie_probs "A" "B") = "home"%string.
Proof. split; reflexivity. Qed.

Lemma is_value_bet_iff_witness :
  exists b, _is_value_bet default_analyzer boundary_odds [("home"%string, 0.3)]
            = Ok b
    /\ (b = true <->
        exists w p, qualifies default_analyzer boundary_odds
                      [("home"%string, 0.3)] w p).
Proof.
  apply (is_value_bet_iff default_analyzer boundary_odds [("home"%string, 0.3)]).
  intros w p _. destruct w; eexists; reflexivity.
Defined.

(** The threshold is strict: home at exactly 0.30 with odds 2.0 is not a
    value bet, home at 0.300001 is. *)
Example home_at_threshold :
  _is_value_bet default_analyzer boundary_odds [("home"%string, 0.3)] = Ok false
  /\ _is_value_bet default_analyzer boundary_odds [("home"%string, 0.300001)]
     = Ok true.
Proof. split; reflexivity. Qed.

(** Any home probability above 0.30 with odds in the band is a value bet,
    wherever it stands first in the map. *)
Lemma home_above_threshold (self : BettingAnalyzer) (odds : gmap string Q)
    (o p : Q) (rest : dict Q) :
  odds !! "home" = Some o ->
  min_odds self <= o -> o <= max_odds self -> 0.3 < p ->
  _is_value_bet self odds (("home"%string, p) :: rest) = Ok true.
Proof.
  intros Ho H1 H2 H3.
  pose proof (is_value_bet_step self odds home p rest o Ho) as E.
  cbn [outcome_key value_threshold] in E. rewrite E.
  now rewrite (proj2 (in_band_above_iff self o p 0.3)).
Qed.

Lemma moyen_combination_of_five_witness :
  exists c,
    generate_specific_combination decimal_float rounding_analyses "MOYEN"
      rounding_store
    = (Ok (Some c), rounding_store)
    /\ length (matches c) = 4%nat
    /\ total_odds c = b64 4.73
    /\ avg_confidence c = 72%Z.
Proof.
  assert (A : forall bet c x text,
             deref rounding_store bet !! "confidence" = Some (VInt c) ->
             deref rounding_store bet !! "recommendation" = Some text ->
             extract_odds decimal_float text = Ok x ->
             is_Some (deref rounding_store bet !! "match") ->
             analysis_with decimal_float rounding_store bet c x).
  { intros bet c x text H1 H2 H3 H4. split; [exact H1 | split; [| exact H4]].
    exists text. now split. }
  destruct (moyen_combination_of_five decimal_float rounding_store
              rounding_analyses 0 1 2 3 4 1.25 1.40 1.50 1.80 2.10)
    as (c & H1 & H2 & _ & _ & Ht & _ & H3 & _).
  1-5: eapply A; [reflexivity | reflexivity | reflexivity | eexists; reflexivity].
  { reflexivity. }
  exists c. split; [exact H1 |]. split; [exact H2 |].
  split; [rewrite Ht; vm_compute; reflexivity | exact H3].
Defined.

(** The same five analyses listed in another order give the same four
    legs. *)
Example moyen_combination_any_order :
  fst (generate_specific_combination decimal_float [4; 2; 0; 3; 1]%nat "MOYEN"
         test_store)
  = fst (generate_specific_combination decimal_float test_analyses "MOYEN"
           test_store).
Proof. vm_compute. reflexivity. Qed.

Lemma generate_combinations_insufficient_witness :
  generate_combinations decimal_float (fun l => l) [0; 1; 2]%nat 3 thin_store
  = (Ok [], thin_store).
Proof.
  apply generate_combinations_insufficient. right. split.
  - repeat (apply Forall_cons_2; [eexists; reflexivity |]). apply Forall_nil_2.
  - reflexivity.
Defined.

Lemma combination_builders_frame_witness :
  snd (generate_specific_combination decimal_float test_analyses "MOYEN"
         test_store) = test_store.
Proof.
  apply (combination_builders_frame decimal_float (fun l => l) test_analyses 3
           "MOYEN" test_store).
  discriminate.
Defined.

Lemma unknown_level_raises_witness :
  generate_specific_combination decimal_float test_analyses "FOO" test_store
  = (Raise (KeyError "FOO"), test_store).
Proof.
  apply (unknown_level_raises decimal_float test_analyses "FOO" test_store).
  - intros [H | [H | H]]; discriminate H.
  - discriminate.
  - repeat (apply Forall_cons_2; [eexists; reflexivity |]). apply Forall_nil_2.
Defined.

(** ** The odds extractor *)

Lemma fold_markets_flat (home_team away_team : string)
    (mks : list market) (best : gmap string Q) :
  foldl (add_market home_team away_team) best mks
  = foldl (add_outcome home_team away_team) best
      (mk ← mks; if String.eqb (mk_key mk) "h2h" then mk_outcomes mk else []).
Proof.
  revert best. induction mks as [| mk mks IH]; intros best; [reflexivity |].
  cbn [foldl mbind list_bind]. rewrite foldl_app, IH. unfold add_market.
  now destruct (String.eqb (mk_key mk) "h2h").
Qed.

Lemma fold_bookmakers_flat (home_team away_team : string)
    (bks : list bookmaker) (best : gmap string Q) :
  foldl (add_bookmaker home_team away_team) best bks
  = foldl (add_outcome home_team away_team) best (h2h_quotes bks).
Proof.
  revert best. induction bks as [| bk bks IH]; intros best; [reflexivity |].
  unfold h2h_quotes. cbn [foldl mbind list_bind]. rewrite foldl_app.
  rewrite IH. unfold add_bookmaker. now rewrite fold_markets_flat.
Qed.

Lemma outcome_rank_eqb (w w' : outcome) :
  Nat.eqb (outcome_rank w') (outcome_rank w) = true <-> w' = w.
Proof.
  destruct w, w'; cbn; split; intros H; try reflexivity; discriminate H.
Qed.

Lemma add_outcome_slot (home_team away_team : string)
    (best : gmap string Q) (q : quote) :
  add_outcome home_team away_team best q
  = match quote_slot home_team away_team q with
    | Some w => raise_best (outcome_key w) (q_price q) best
    | None => best
    end.
Proof.
  unfold add_outcome, quote_slot.
  destruct (String.eqb (q_name q) home_team); [reflexivity |].
  destruct (String.eqb (q_name q) away_team); [reflexivity |].
  now destruct (String.eqb (q_name q) "Draw").
Qed.

Lemma odds_get_raise_best (k k' : string) (price : Q) (best : gmap string Q) :
  odds_get (raise_best k price best) k' 0
  = if decide (k = k') then py_max (odds_get best k 0) price
    else odds_get best k' 0.
Proof.
  unfold raise_best, odds_get at 1. rewrite lookup_insert.
  now destruct (decide (k = k')).
Qed.

(** Each slot holds the running maximum of the prices quoted for it. *)
Lemma slot_value_fold (home_team away_team : string) (w : outcome)
    (qs : list quote) (best : gmap string Q) :
  odds_get (foldl (add_outcome home_team away_team) best qs) (outcome_key w) 0
  = foldl py_max (odds_get best (outcome_key w) 0)
      (slot_prices home_team away_team w qs).
Proof.
  revert best. induction qs as [| q qs IH]; intros best; [reflexivity |].
  cbn [foldl]. rewrite IH, add_outcome_slot.
  unfold slot_prices. cbn [List.filter].
  destruct (quote_slot home_team away_team q) as [w' |]; [| reflexivity].
  rewrite odds_get_raise_best.
  destruct (decide (outcome_key w' = outcome_key w)) as [E | N].
  - apply outcome_key_inj in E. subst w'.
    now rewrite (proj2 (outcome_rank_eqb w w) eq_refl).
  - destruct (Nat.eqb (outcome_rank w') (outcome_rank w)) eqn:E; [| reflexivity].
    apply outcome_rank_eqb in E. congruence.
Qed.

Lemma raise_best_dom (k : string) (price : Q) (best : gmap string Q) :
  k ∈ dom best -> dom (raise_best k price best) = dom best.
Proof.
  intros H. unfold raise_best. rewrite dom_insert_L.
  apply subseteq_union_1_L. now apply singleton_subseteq_l.
Qed.

Lemma fold_outcomes_dom (home_team away_team : string)
    (qs : list quote) (best : gmap string Q) :
  (forall w, outcome_key w ∈ dom best) ->
  dom (foldl (add_outcome home_team away_team) best qs) = dom best.
Proof.
  revert best. induction qs as [| q qs IH]; intros best H; [reflexivity |].
  cbn [foldl]. rewrite add_outcome_slot.
  destruct (quote_slot home_team away_team q) as [w |]; [| now apply IH].
  rewrite IH; rewrite raise_best_dom by apply H; [reflexivity | apply H].
Qed.

(** The running maximum: an upper bound of the start value and of every
    element, and one of them. *)
Lemma foldl_py_max_spec (l : list Q) (init : Q) :
  init <= foldl py_max init l
  /\ (forall x, x ∈ l -> x <= foldl py_max init l)
  /\ (foldl py_max init l = init \/ foldl py_max init l ∈ l).
Proof.
  revert init. induction l as [| y l IH]; intros init.
  - cbn. split; [lra | split; [| now left]].
    intros x Hx. now apply elem_of_nil in Hx.
  - cbn [foldl]. destruct (IH (py_max init y)) as (H1 & H2 & H3).
    destruct (py_max_spec init y) as (M1 & M2 & M3).
    split; [lra | split].
    + intros x Hx. apply elem_of_cons in Hx as [-> | Hx]; [lra | now apply H2].
    + destruct H3 as [H3 | H3]; [| right; now right].
      rewrite H3. destruct M3 as [-> | ->]; [now left | right; now left].
Qed.

Lemma elem_of_slot_prices (home_team away_team : string) (w : outcome)
    (qs : list quote) (x : Q) :
  x ∈ slot_prices home_team away_team w qs
  <-> exists q, q ∈ qs /\ quote_slot home_team away_team q = Some w
                /\ x = q_price q.
Proof.
  unfold slot_prices. rewrite list_elem_of_fmap. split.
  - intros (q & -> & Hq). apply list_elem_of_In, filter_In in Hq as [Hin Hs].
    exists q. split; [now apply list_elem_of_In | split; [| reflexivity]].
    destruct (quote_slot home_team away_team q) as [w' |]; [| discriminate].
    apply outcome_rank_eqb in Hs. now subst.
  - intros (q & Hin & Hs & ->). exists q. split; [reflexivity |].
    apply list_elem_of_In, filter_In. split; [now apply list_elem_of_In |].
    rewrite Hs. now apply outcome_rank_eqb.
Qed.

Lemma initial_best_odds_get (w : outcome) :
  odds_get initial_best_odds (outcome_key w) 0 = 0.
Proof. now destruct w. Qed.

Lemma initial_best_odds_dom (w : outcome) : outcome_key w ∈ dom initial_best_odds.
Proof. apply elem_of_dom. destruct w; eexists; reflexivity. Qed.

(** What the extractor returns, when it returns odds. *)
Lemma get_best_odds_Some (m : match_record) (odds : gmap string Q) :
  _get_best_odds_from_match m = Some odds ->
  odds = foldl (add_outcome (m_home_team m) (m_away_team m)) initial_best_odds
           (h2h_quotes (default [] (m_bookmakers m)))
  /\ has_odds odds home = true.
Proof.
  unfold _get_best_odds_from_match.
  destruct (m_bookmakers m) as [[| bk bks] |]; try discriminate.
  rewrite fold_bookmakers_flat. cbn [default].
  destruct (Qlt_bool 0 _) eqn:E; [| discriminate].
  intros [= <-]. split; [reflexivity | exact E].
Qed.

(** X1: the extractor returns odds exactly when some head-to-head quote
    carries the home team's name and a price above 0; in particular it
    returns nothing for a match without bookmakers. *)
Theorem best_odds_available_iff (m : match_record) :
  is_Some (_get_best_odds_from_match m)
  <-> exists q, q ∈ h2h_quotes (default [] (m_bookmakers m))
                /\ q_name q = m_home_team m /\ 0 < q_price q.
Proof.
  assert (S : forall q, quote_slot (m_home_team m) (m_away_team m) q = Some home
                        <-> q_name q = m_home_team m).
  { intros q. unfold quote_slot.
    destruct (String.eqb_spec (q_name q) (m_home_team m)); [tauto |].
    destruct (String.eqb (q_name q) (m_away_team m));
      [| destruct (String.eqb (q_name q) "Draw")]; split; congruence. }
  pose proof (slot_value_fold (m_home_team m) (m_away_team m) home
                (h2h_quotes (default [] (m_bookmakers m))) initial_best_odds) as V.
  rewrite (initial_best_odds_get home) in V.
  destruct (foldl_py_max_spec
              (slot_prices (m_home_team m) (m_away_team m) home
                 (h2h_quotes (default [] (m_bookmakers m)))) 0)
    as (B0 & B1 & B2).
  rewrite <- V in B0, B1, B2. cbn [outcome_key] in *.
  assert (G : is_Some (_get_best_odds_from_match m)
              <-> Qlt_bool 0 (odds_get
                    (foldl (add_outcome (m_home_team m) (m_away_team m))
                       initial_best_odds
                       (h2h_quotes (default [] (m_bookmakers m)))) "home" 0)
                  = true).
  { unfold _get_best_odds_from_match.
    destruct (m_bookmakers m) as [[| bk bks] |]; cbn [default].
    - split; [intros [x Hx]; discriminate | intros H; discriminate H].
    - rewrite fold_bookmakers_flat.
      destruct (Qlt_bool 0 _).
      + split; [reflexivity | eauto].
      + split; [intros [x Hx]; discriminate | discriminate].
    - split; [intros [x Hx]; discriminate | intros H; discriminate H]. }
  rewrite G, Qlt_bool_iff. split.
  - intros Hpos. destruct B2 as [B2 | B2]; [rewrite B2 in Hpos; lra |].
    apply elem_of_slot_prices in B2 as (q & Hin & Hs & E).
    exists q. split; [exact Hin | split; [now apply S |]]. now rewrite <- E.
  - intros (q & Hin & Hn & Hp).
    assert (q_price q ∈ slot_prices (m_home_team m) (m_away_team m) home
                          (h2h_quotes (default [] (m_bookmakers m)))).
    { apply elem_of_slot_prices. exists q. split; [exact Hin |].
      split; [now apply S | reflexivity]. }
    specialize (B1 _ H). lra.
Qed.

(** X2: the odds the extractor returns have exactly the keys home, draw and
    away; each value is the highest price quoted for that slot by any
    bookmaker's head-to-head market, or 0 when no such price is above 0;
    the home value is above 0. *)
Theorem best_odds_are_maxima (m : match_record) (odds : gmap string Q) :
  _get_best_odds_from_match m = Some odds ->
  dom odds = {[ "home"; "draw"; "away" ]}
  /\ 0 < odds_get odds "home" 0
  /\ forall w, exists o,
       odds !! outcome_key w = Some o
       /\ 0 <= o
       /\ (forall q, q ∈ h2h_quotes (default [] (m_bookmakers m)) ->
             quote_slot (m_home_team m) (m_away_team m) q = Some w ->
             q_price q <= o)
       /\ (o = 0
           \/ exists q, q ∈ h2h_quotes (default [] (m_bookmakers m))
                /\ quote_slot (m_home_team m) (m_away_team m) q = Some w
                /\ o = q_price q).
Proof.
  intros H. apply get_best_odds_Some in H as [-> Hh].
  set (qs := h2h_quotes (default [] (m_bookmakers m))) in *.
  assert (D : dom (foldl (add_outcome (m_home_team m) (m_away_team m))
                     initial_best_odds qs) = dom initial_best_odds)
    by (apply fold_outcomes_dom, initial_best_odds_dom).
  split; [rewrite D; unfold initial_best_odds; set_solver |].
  split; [now apply Qlt_bool_iff in Hh |].
  intros w.
  assert (Hk : outcome_key w ∈ dom (foldl (add_outcome (m_home_team m)
                 (m_away_team m)) initial_best_odds qs))
    by (rewrite D; apply initial_best_odds_dom).
  apply elem_of_dom in Hk as [o Ho]. exists o. split; [exact Ho |].
  pose proof (slot_value_fold (m_home_team m) (m_away_team m) w qs
                initial_best_odds) as V.
  rewrite (initial_best_odds_get w) in V. unfold odds_get at 1 in V.
  rewrite Ho in V. cbn [default] in V.
  destruct (foldl_py_max_spec (slot_prices (m_home_team m) (m_away_team m) w qs) 0)
    as (B0 & B1 & B2).
  rewrite <- V in B0, B1, B2. split; [exact B0 | split].
  - intros q Hin Hs. apply B1, elem_of_slot_prices. now exists q.
  - destruct B2 as [B2 | B2]; [now left | right].
    now apply elem_of_slot_prices in B2.
Qed.

(** ** The probabilities computed from an odds set *)







(** ** The recommendation on the probabilities of the odds set itself *)



(** ** Writing and reading odds *)

Lemma digit_value_char (d : Z) :
  (0 <= d <= 9)%Z -> digit_value (digit_char d) = Some d.
Proof.
  intros H.
  assert (C : (d = 0 \/ d = 1 \/ d = 2 \/ d = 3 \/ d = 4 \/ d = 5 \/ d = 6
               \/ d = 7 \/ d = 8 \/ d = 9)%Z) by lia.
  repeat (destruct C as [-> | C]; [reflexivity |]). now subst.
Qed.

Lemma digit_char_not (c : ascii) (d : Z) :
  (0 <= d <= 9)%Z -> digit_value c = None -> Ascii.eqb c (digit_char d) = false.
Proof.
  intros H N. destruct (Ascii.eqb_spec c (digit_char d)) as [-> |]; [| reflexivity].
  rewrite digit_value_char in N by exact H. discriminate N.
Qed.

Lemma append_cons (c : ascii) (s t : string) :
  String c s +:+ t = String c (s +:+ t).
Proof. reflexivity. Qed.

Lemma append_nil_l (s : string) : "" +:+ s = s.
Proof. reflexivity. Qed.

Lemma append_nil_r (s : string) : s +:+ "" = s.
Proof.
  induction s as [| c s IH]; [reflexivity |]. rewrite append_cons. now f_equal.
Qed.

Lemma append_assoc (s t u : string) : (s +:+ t) +:+ u = s +:+ t +:+ u.
Proof.
  induction s as [| c s IH]; [reflexivity |]. rewrite !append_cons. now f_equal.
Qed.

Lemma digits_go_app (fuel : nat) (n : Z) (acc : string) :
  digits_go fuel n acc = digits_go fuel n "" +:+ acc.
Proof.
  revert n acc. induction fuel as [| fuel IH]; intros n acc; [reflexivity |].
  cbn [digits_go]. destruct (n <? 10)%Z; [reflexivity |].
  rewrite (IH (n / 10)%Z (String (digit_char (n mod 10)) acc)).
  rewrite (IH (n / 10)%Z (String (digit_char (n mod 10)) "")).
  now rewrite append_assoc, append_cons, append_nil_l.
Qed.

(** Reading the numeral written for [n] continues the number read so far
    with the digits of [n]. *)
Lemma read_digits_go (fuel : nat) (n : Z) (rest : string) :
  (0 <= n < 10 ^ Z.of_nat (S fuel))%Z ->
  exists k, forall acc count,
    read_digits acc count (digits_go (S fuel) n rest)
    = read_digits (acc * 10 ^ Z.of_nat (S k) + n) (count + S k) rest.
Proof.
  revert n rest. induction fuel as [| fuel IH]; intros n rest H.
  all: cbn [digits_go]; destruct (n <? 10)%Z eqn:E.
  1, 3: apply Z.ltb_lt in E; exists 0%nat; intros acc count;
        cbn [read_digits]; rewrite Z.mod_small by lia;
        rewrite digit_value_char by lia;
        change (10 ^ Z.of_nat 1)%Z with 10%Z; now rewrite Nat.add_1_r.
  - apply Z.ltb_ge in E. change (10 ^ Z.of_nat 1)%Z with 10%Z in H. lia.
  - apply Z.ltb_ge in E.
    assert (Hq : (0 <= n / 10 < 10 ^ Z.of_nat (S fuel))%Z).
    { split; [apply Z.div_pos; lia |].
      apply Z.div_lt_upper_bound; [lia |].
      rewrite (Nat2Z.inj_succ (S fuel)), Z.pow_succ_r in H by lia. lia. }
    destruct (IH (n / 10)%Z (String (digit_char (n mod 10)) rest) Hq)
      as [k Hk].
    exists (S k). intros acc count.
    change (if (n / 10 <? 10)%Z
            then String (digit_char ((n / 10) mod 10))
                   (String (digit_char (n mod 10)) rest)
            else digits_go fuel (n / 10 / 10)
                   (String (digit_char ((n / 10) mod 10))
                      (String (digit_char (n mod 10)) rest)))
      with (digits_go (S fuel) (n / 10) (String (digit_char (n mod 10)) rest)).
    rewrite Hk. cbn [read_digits].
    rewrite digit_value_char by (pose proof (Z.mod_pos_bound n 10); lia).
    f_equal; [| lia].
    rewrite (Nat2Z.inj_succ (S k)), Z.pow_succ_r by lia.
    pose proof (Z.div_mod n 10). lia.
Qed.

Lemma Z_digits_fuel (n : Z) :
  (0 <= n)%Z -> (0 <= n < 10 ^ Z.of_nat (S (Z.to_nat (Z.log2 n))))%Z.
Proof.
  intros H. split; [exact H |].
  rewrite Nat2Z.inj_succ, Z2Nat.id by apply Z.log2_nonneg.
  destruct (Z.eq_dec n 0%Z) as [-> | N]; [reflexivity |].
  pose proof (Z.log2_spec n ltac:(lia)) as [_ U].
  eapply Z.lt_le_trans; [exact U |].
  apply Z.pow_le_mono_l. pose proof (Z.log2_nonneg n). lia.
Qed.

Lemma has_char_digits_go (c : ascii) (fuel : nat) (n : Z) (acc : string) :
  (0 <= n)%Z -> digit_value c = None ->
  has_char c (digits_go fuel n acc) = has_char c acc.
Proof.
  revert n acc. induction fuel as [| fuel IH]; intros n acc H N; [reflexivity |].
  cbn [digits_go].
  assert (D : has_char c (String (digit_char (n mod 10)) acc) = has_char c acc).
  { cbn [has_char]. rewrite digit_char_not; [reflexivity | | exact N].
    pose proof (Z.mod_pos_bound n 10). lia. }
  destruct (n <? 10)%Z; [exact D |].
  rewrite IH; [exact D | apply Z.div_pos; lia | exact N].
Qed.

Lemma has_char_app (c : ascii) (s t : string) :
  has_char c (s +:+ t) = has_char c s || has_char c t.
Proof.
  induction s as [| c' s IH]; [reflexivity |].
  rewrite append_cons. cbn [has_char]. now rewrite IH, orb_assoc.
Qed.

Lemma py_round_nonneg (x : Q) : 0 <= x -> (0 <= py_round x)%Z.
Proof.
  intros H. unfold py_round. cbv zeta.
  assert (F : (0 <= Qfloor x)%Z).
  { replace 0%Z with (Qfloor 0) by reflexivity. now apply Qfloor_resp_le. }
  destruct (Qlt_bool _ _); [exact F |].
  destruct (Qlt_bool _ _); [lia |]. destruct (Z.even _); lia.
Qed.

(** The characters [f"{x:.2f}"] writes for a number that is not negative are
    digits and the point. *)
Lemma format_2f_chars (c : ascii) (x : Q) :
  0 <= x -> digit_value c = None -> Ascii.eqb c "." = false ->
  has_char c (format_2f x) = false.
Proof.
  intros Hx N P. unfold format_2f. cbv zeta.
  rewrite (proj2 (Qlt_bool_false x 0) Hx).
  set (n := py_round (Qabs x * 100)).
  assert (Hn : (0 <= n)%Z).
  { apply py_round_nonneg. pose proof (Qabs_nonneg x). lra. }
  rewrite append_nil_l, has_char_app. unfold Z_digits.
  rewrite has_char_digits_go; [| apply Z.div_pos; lia | exact N].
  rewrite append_cons, append_nil_l. cbn [has_char orb]. rewrite P.
  rewrite !digit_char_not; try exact N; [reflexivity | |].
  - pose proof (Z.mod_pos_bound n 10). lia.
  - pose proof (Z.mod_pos_bound n 100).
    assert (n mod 100 / 10 < 10)%Z by (apply Z.div_lt_upper_bound; lia).
    split; [apply Z.div_pos; lia | lia].
Qed.

(** Reading back what [f"{x:.2f}"] writes gives [x] rounded to two
    decimals. *)
Lemma format_2f_read (x : Q) :
  0 <= x ->
  exists y, decimal_float (format_2f x) = Some y /\ y == py_round2 x.
Proof.
  intros Hx. unfold format_2f. cbv zeta.
  rewrite (proj2 (Qlt_bool_false x 0) Hx), append_nil_l.
  rewrite (py_round_proper (Qabs x * 100) (x * 100))
    by (rewrite Qabs_pos by exact Hx; reflexivity).
  set (n := py_round (x * 100)).
  assert (Hn : (0 <= n)%Z) by (apply py_round_nonneg; lra).
  assert (Hi : (0 <= n / 100)%Z) by (apply Z.div_pos; lia).
  pose proof (Z.mod_pos_bound n 100 ltac:(lia)) as Hm.
  pose proof (Z.mod_pos_bound n 10 ltac:(lia)) as Hm10.
  assert (Ht : (0 <= n mod 100 / 10 <= 9)%Z).
  { assert (n mod 100 / 10 < 10)%Z by (apply Z.div_lt_upper_bound; lia).
    split; [apply Z.div_pos; lia | lia]. }
  unfold decimal_float, Z_digits. rewrite append_cons, append_nil_l.
  rewrite <- digits_go_app.
  destruct (read_digits_go _ _
              (String "." (String (digit_char (n mod 100 / 10))
                             (String (digit_char (n mod 10)) "")))
              (Z_digits_fuel (n / 100) Hi)) as [k Hk].
  rewrite Hk. cbn [read_digits Nat.add].
  change (digit_value ".") with (@None Z). cbv iota beta.
  cbn [read_digits]. rewrite !digit_value_char by lia. cbv iota beta.
  eexists. split; [reflexivity |].
  unfold py_round2. fold n.
  assert (E : ((0 * 10 + n mod 100 / 10) * 10 + n mod 10 = n mod 100)%Z).
  { pose proof (Z.div_mod (n mod 100) 10 ltac:(lia)) as D.
    rewrite (Z.mod_mod_divide n 100 10) in D by (now exists 10%Z). lia. }
  rewrite E. change (0 * 10 ^ Z.of_nat (S k))%Z with 0%Z. rewrite Z.add_0_l.
  change (inject_Z (10 ^ Z.of_nat 2)) with 100.
  rewrite (Z.div_mod n 100) at 3 by lia.
  rewrite inject_Z_plus, inject_Z_mult. change (inject_Z 100) with 100.
  field.
Qed.

(** X6: what [f"{x:.2f}"] writes for a number that is not negative
    consists of digits and the point only, and reading it back gives
    [x] rounded to two decimals. *)
Theorem format_then_read (x : Q) :
  0 <= x ->
  (forall c, digit_value c = None -> c <> "."%char ->
             has_char c (format_2f x) = false)
  /\ exists y, decimal_float (format_2f x) = Some y /\ y == py_round2 x.
Proof.
  intros Hx. split; [| now apply format_2f_read].
  intros c N P. apply format_2f_chars; [exact Hx | exact N |].
  now apply Ascii.eqb_neq.
Qed.

(** ** [str.split] around a separator *)

Lemma prefix_append (p s : string) : String.prefix p (p +:+ s) = true.
Proof.
  induction p as [| c p IH]; [now destruct s |].
  rewrite append_cons. cbn [String.prefix].
  now destruct (ascii_dec c c).
Qed.

Lemma split_go_skip (sep p cur s : string) :
  split_go sep (String.length p) cur (p +:+ s) = split_go sep 0 cur s.
Proof.
  induction p as [| c p IH]; [reflexivity |].
  rewrite append_cons. cbn [String.length split_go]. exact IH.
Qed.

(** Text without the separator's first character passes into the piece
    being collected. *)
Lemma split_go_pass (c0 : ascii) (sep' a cur s : string) :
  has_char c0 a = false ->
  split_go (String c0 sep') 0 cur (a +:+ s)
  = split_go (String c0 sep') 0 (cur +:+ a) s.
Proof.
  revert cur. induction a as [| c a IH]; intros cur H.
  - now rewrite append_nil_l, append_nil_r.
  - cbn [has_char] in H. apply orb_false_elim in H as [Hc Ha].
    rewrite append_cons. cbn [split_go String.prefix].
    destruct (ascii_dec c0 c) as [-> | _];
      [now rewrite Ascii.eqb_refl in Hc |].
    rewrite (IH _ Ha), append_assoc. reflexivity.
Qed.

Lemma split_go_at (c0 : ascii) (sep' cur s : string) :
  split_go (String c0 sep') 0 cur (String c0 sep' +:+ s)
  = cur :: split_go (String c0 sep') 0 "" s.
Proof.
  rewrite append_cons. cbn [split_go].
  change (String c0 (sep' +:+ s)) with (String c0 sep' +:+ s).
  rewrite prefix_append. cbn [String.length Nat.sub].
  rewrite Nat.sub_0_r. now rewrite split_go_skip.
Qed.

(** Splitting cuts at the first separator when the text before it is free
    of the separator's first character... *)
Lemma py_split_first (c0 : ascii) (sep' a b : string) :
  has_char c0 a = false ->
  py_split (String c0 sep') (a +:+ String c0 sep' +:+ b)
  = a :: py_split (String c0 sep') b.
Proof.
  intros H. unfold py_split.
  now rewrite (split_go_pass c0 sep' a "" _ H), append_nil_l, split_go_at.
Qed.

(** ... and leaves such a text in one piece. *)
Lemma py_split_none (c0 : ascii) (sep' a : string) :
  has_char c0 a = false -> py_split (String c0 sep') a = [a].
Proof.
  intros H. unfold py_split.
  rewrite <- (append_nil_r a) at 1.
  now rewrite (split_go_pass c0 sep' a "" "" H), append_nil_l.
Qed.

(** The odds written after a label without an opening parenthesis are
    read back, rounded to two decimals. *)
Lemma extract_written_odds (label : string) (x : Q) :
  has_char "(" label = false -> 0 <= x ->
  exists y,
    extract_odds decimal_float
      (VStr (label +:+ " (cote: " +:+ format_2f x +:+ ")")) = Ok y
    /\ y == py_round2 x.
Proof.
  intros Hl Hx. destruct (format_2f_read x Hx) as (y & Hy & E).
  exists y. split; [| exact E].
  assert (F1 : has_char "(" (format_2f x +:+ ")") = false).
  { rewrite has_char_app, format_2f_chars by (exact Hx || reflexivity).
    reflexivity. }
  assert (F2 : has_char ")" (format_2f x) = false)
    by (apply format_2f_chars; [exact Hx | reflexivity | reflexivity]).
  unfold extract_odds.
  change (label +:+ " (cote: " +:+ format_2f x +:+ ")")
    with (label +:+ " " +:+ "(cote: " +:+ format_2f x +:+ ")").
  rewrite <- (append_assoc label " ").
  rewrite py_split_first
    by (rewrite has_char_app, Hl; reflexivity).
  cbn [lookup list_lookup]. rewrite (py_split_none _ _ _ F1).
  cbn [lookup list_lookup].
  change (format_2f x +:+ ")") with (format_2f x +:+ ")" +:+ "").
  rewrite (py_split_first _ _ _ _ F2). cbn [lookup list_lookup].
  now rewrite Hy.
Qed.

(** ** [analyze_match] *)


Lemma best_odds_three_keys (m : match_record) (odds : gmap string Q) :
  _get_best_odds_from_match m = Some odds ->
  forall w, is_Some (odds !! outcome_key w).
Proof.
  intros H w. apply get_best_odds_Some in H as [-> _].
  apply elem_of_dom.
  rewrite fold_outcomes_dom by apply initial_best_odds_dom.
  apply initial_best_odds_dom.
Qed.


Lemma outcome_label_no_paren (home_team away_team : string) (w : outcome) :
  has_char "(" home_team = false -> has_char "(" away_team = false ->
  has_char "(" (outcome_label home_team away_team w) = false.
Proof.
  intros Hh Ha. destruct w; cbn [outcome_label]; rewrite ?has_char_app, ?Hh, ?Ha;
    reflexivity.
Qed.

Ltac lookup_literal :=
  repeat (rewrite lookup_insert_ne by discriminate);
  first [apply lookup_insert_eq | apply lookup_singleton_eq].


(** ** Risk level and confidence as functions of their inputs *)

(** X9: the risk level never goes down when the odds go up, and it depends
    on the value of the odds only. *)
Theorem risk_level_monotone (o1 o2 : Q) :
  o1 <= o2 ->
  (risk_rank (_calculate_risk_level o1) <= risk_rank (_calculate_risk_level o2))%nat
  /\ (o1 == o2 -> _calculate_risk_level o1 = _calculate_risk_level o2).
Proof.
  intros H. unfold _calculate_risk_level. split.
  - destruct (Qlt_bool o1 2.0) eqn:A1; destruct (Qlt_bool o1 3.5) eqn:B1;
      destruct (Qlt_bool o2 2.0) eqn:A2; destruct (Qlt_bool o2 3.5) eqn:B2;
      cbn; try lia; Qbool_hyps; lra.
  - intros E.
    rewrite (Qlt_bool_proper o1 2.0 o2 2.0), (Qlt_bool_proper o1 3.5 o2 3.5)
      by (exact E || reflexivity).
    reflexivity.
Qed.



(** X11: [_is_value_bet] answers false only when the odds set has an entry
    for every listed outcome; with an entry missing it raises KeyError
    unless an earlier entry already qualifies. *)
Theorem is_value_bet_false_covered (self : BettingAnalyzer)
    (odds : gmap string Q) (probs : dict Q) :
  _is_value_bet self odds probs = Ok false -> odds_cover odds probs.
Proof.
  induction probs as [| [k prob] rest IH]; intros H w p Hin.
  - now apply elem_of_nil in Hin.
  - destruct (key_outcome_dec k) as [[w' ->] | Hk].
    + destruct (odds !! outcome_key w') as [o |] eqn:Ho.
      * rewrite (is_value_bet_step self odds w' prob rest o Ho) in H.
        destruct (in_band_above _ _ _ _); [discriminate H |].
        apply elem_of_cons in Hin as [Heq | Hin]; [| now apply (IH H w p)].
        injection Heq as Hw _. apply outcome_key_inj in Hw. subst. eauto.
      * exfalso. destruct w'; cbn in H, Ho; unfold odds_index in H;
          rewrite Ho in H; discriminate H.
    + rewrite (is_value_bet_skip self odds k prob rest Hk) in H.
      apply elem_of_cons in Hin as [Heq | Hin]; [| now apply (IH H w p)].
      injection Heq as Hw _. now destruct (Hk w).
Qed.

(** ** Totals of a combination *)

Lemma foldl_Qplus (l : list Q) (a : Q) : foldl Qplus a l == a + Qsum l.
Proof.
  revert a. induction l as [| x l IH]; intros a; cbn [foldl Qsum foldr].
  - ring.
  - rewrite IH. fold (Qsum l). ring.
Qed.

(** X12: on bets with a numeric confidence, parseable odds and a match
    label, [_create_combination] returns one leg per bet, in order; the
    total odds are the product of the legs' odds, multiplied in binary64
    from 1.0 in the order of the legs, rounded to two decimals; the
    potential return is that product times 10, in binary64, rounded to two
    decimals; the average confidence is the rounded mean; the store is
    left alone. *)
Theorem combination_totals (py_float : string -> option Q) (h : heap)
    (bets : list loc) (name : string) :
  bets <> [] ->
  Forall (combinable py_float h) bets ->
  exists c,
    _create_combination py_float bets name h = (Ok c, h)
    /\ combo_type c = name
    /\ matches c = leg_of h <$> bets
    /\ total_odds c = float_round2 (product_of (odds_of py_float h <$> bets))
    /\ potential_return c
       = float_round2
           (fmul (product_of (odds_of py_float h <$> bets)) (b64 10))
    /\ avg_confidence c
       = py_round (Qsum (confidence h <$> bets) / inject_Z (len bets)).
Proof.
  intros Hne H. eexists. split; [now apply create_combination_ok |].
  cbn [combo_type matches total_odds potential_return avg_confidence].
  assert (L : ~ inject_Z (len bets) == 0).
  { unfold len. destruct bets as [| b bets]; [congruence |].
    change 0 with (inject_Z 0). rewrite inject_Z_injective. cbn. lia. }
  repeat split.
  apply py_round_proper. rewrite foldl_Qplus. field. exact L.
Qed.

Lemma py_round_between (lo hi : Z) (x : Q) :
  inject_Z lo <= x -> x <= inject_Z hi -> (lo <= py_round x <= hi)%Z.
Proof.
  intros Hlo Hhi. unfold py_round. cbv zeta.
  pose proof (Qfloor_le x) as L. pose proof (Qlt_floor x) as U.
  rewrite inject_Z_plus in U. change (inject_Z 1) with 1 in U.
  assert (F1 : (lo <= Qfloor x)%Z).
  { rewrite <- (Qfloor_Z lo). now apply Qfloor_resp_le. }
  assert (F2 : (Qfloor x <= hi)%Z).
  { rewrite <- (Qfloor_Z hi). now apply Qfloor_resp_le. }
  assert (F3 : Qfloor x = hi -> x == inject_Z hi).
  { intros E. rewrite E in L. lra. }
  destruct (Qlt_bool (x - inject_Z (Qfloor x)) (1 # 2)) eqn:E1; [lia |].
  apply Qlt_bool_false in E1.
  assert (Qfloor x <> hi).
  { intros E. specialize (F3 E). rewrite E in E1. lra. }
  destruct (Qlt_bool _ _); [lia |]. destruct (Z.even _); lia.
Qed.

Lemma Qsum_between (lo hi : Q) (l : list Q) :
  Forall (fun x => lo <= x /\ x <= hi) l ->
  inject_Z (len l) * lo <= Qsum l /\ Qsum l <= inject_Z (len l) * hi.
Proof.
  induction 1 as [| x l [Hx1 Hx2] _ [IH1 IH2]]; unfold len in *.
  - change (inject_Z (Z.of_nat (length (@nil Q)))) with 0.
    cbn [Qsum foldr]. lra.
  - cbn [length Qsum foldr]. fold (Qsum l).
    rewrite Nat2Z.inj_succ, <- Z.add_1_r, inject_Z_plus.
    change (inject_Z 1) with 1. lra.
Qed.

(** X13: the average confidence of a combination lies between the lowest and
    the highest confidence of its legs: within [lo, hi] when every leg's
    confidence is. *)
Theorem average_confidence_bounds (py_float : string -> option Q) (h : heap)
    (bets : list loc) (name : string) (lo hi : Z) :
  bets <> [] ->
  Forall (combinable py_float h) bets ->
  Forall (fun bet => inject_Z lo <= confidence h bet
                     /\ confidence h bet <= inject_Z hi) bets ->
  exists c,
    _create_combination py_float bets name h = (Ok c, h)
    /\ (lo <= avg_confidence c <= hi)%Z.
Proof.
  intros Hne H B. eexists. split; [now apply create_combination_ok |].
  cbn [avg_confidence].
  assert (N : 0 < inject_Z (len bets)).
  { unfold len. destruct bets as [| b bets]; [congruence |].
    change 0 with (inject_Z 0). rewrite <- Zlt_Qlt. cbn. lia. }
  destruct (Qsum_between (inject_Z lo) (inject_Z hi) (confidence h <$> bets))
    as [S1 S2].
  { apply Forall_fmap. exact B. }
  unfold len in S1, S2. rewrite length_fmap in S1, S2. fold (len bets) in S1, S2.
  rewrite (py_round_proper _ (Qsum (confidence h <$> bets) / inject_Z (len bets)))
    by (rewrite foldl_Qplus; field; lra).
  apply py_round_between.
  - apply Qle_shift_div_l; [exact N | lra].
  - apply Qle_shift_div_r; [exact N | lra].
Qed.

(** ** [generate_combinations] *)

Lemma Forall_qualifying (P : loc -> Prop) (h : heap) (bound : Z) (l : list loc) :
  Forall P l -> Forall P (qualifying h bound l).
Proof.
  rewrite !Forall_forall. intros H x Hx. apply H.
  apply list_elem_of_In in Hx. apply list_elem_of_In.
  unfold qualifying in Hx. now apply filter_In in Hx.
Qed.

Lemma combinable_numeric (py_float : string -> option Q) (h : heap) (l : list loc) :
  Forall (combinable py_float h) l -> Forall (numeric_confidence h) l.
Proof. intros H. eapply Forall_impl; [exact H |]. now intros b [Hb _]. Qed.

(** X14: asked for combinations of size 0, [generate_combinations] does not
    return the empty list: the averaging of an empty "safe" combination
    divides by zero. *)
Theorem generate_combinations_zero_size (py_float : string -> option Q)
    (shuffle : list loc -> list loc) (analyses : list loc) (h : heap) :
  Forall (numeric_confidence h) analyses ->
  generate_combinations py_float shuffle analyses 0 h
  = (Raise ZeroDivisionError, h).
Proof.
  intros H. unfold generate_combinations.
  assert (L : forall l : list loc, (len l <? 0)%Z = false)
    by (intros l; apply Z.ltb_ge; unfold len; lia).
  rewrite L.
  rewrite (bind_ok _ _ h h _ (filterM_confidence 50 analyses h H)).
  rewrite L.
  rewrite (bind_ok _ _ h h _
             (py_sorted_confidence true _ h (Forall_qualifying _ h 50 _ H))).
  reflexivity.
Qed.

Lemma filterM_value_flag (l : list loc) (h : heap) :
  Forall (fun bet => is_Some (deref h bet !! "value_bet")) l ->
  filterM (fun bet => let! v := get_item bet "value_bet" in ret (truthy v)) l h
  = (Ok (List.filter (value_flag h) l), h).
Proof.
  induction 1 as [| bet l [v Hv] _ IH]; [reflexivity |].
  cbn [filterM List.filter].
  rewrite (bind_ok _ _ h h (truthy v))
    by (now rewrite (bind_ok _ _ h h _ (get_item_ok bet "value_bet" h v Hv))).
  rewrite (bind_ok _ _ h h _ IH). unfold value_flag. now rewrite Hv.
Qed.

Lemma slice_to_take {A} (n : Z) (l : list A) :
  (0 <= n)%Z -> slice_to n l = take (Z.to_nat n) l.
Proof. intros H. unfold slice_to. now rewrite (proj2 (Z.leb_le 0 n) H). Qed.

Lemma qualifying_subseteq (h : heap) (bound : Z) (l : list loc) :
  qualifying h bound l ⊆ l.
Proof.
  intros x Hx. apply list_elem_of_In in Hx. apply list_elem_of_In.
  unfold qualifying in Hx. now apply filter_In in Hx.
Qed.

Lemma qualifying_length (h : heap) (bound : Z) (l : list loc) :
  (len (qualifying h bound l) <= len l)%Z.
Proof.
  unfold len, qualifying. pose proof (List.filter_length_le
    (fun bet => Qle_bool (inject_Z bound) (confidence h bet)) l). lia.
Qed.

Lemma Forall_subseteq {A} (P : A -> Prop) (l l' : list A) :
  Forall P l -> l' ⊆ l -> Forall P l'.
Proof. rewrite !Forall_forall. intros H S x Hx. apply H, S, Hx. Qed.

Lemma take_subseteq {A} (n : nat) (l : list A) : take n l ⊆ l.
Proof. apply sublist_subseteq, sublist_take. Qed.

Lemma take_nonempty {A} (n : nat) (l : list A) :
  (0 < n <= length l)%nat -> take n l <> [].
Proof.
  intros H E. apply (f_equal length) in E.
  rewrite length_take in E. cbn in E. lia.
Qed.

Lemma filter_subseteq_list {A} (f : A -> bool) (l : list A) : List.filter f l ⊆ l.
Proof.
  intros x Hx. apply list_elem_of_In in Hx. apply list_elem_of_In.
  now apply filter_In in Hx.
Qed.

(** What [generate_combinations] returns for a pool that is large
    enough. *)
Lemma generate_combinations_exact (py_float : string -> option Q)
    (shuffle : list loc -> list loc) (analyses : list loc) (combo_size : Z)
    (h : heap) :
  (forall l, shuffle l ≡ₚ l) ->
  Forall (combinable py_float h) analyses ->
  Forall (fun bet => is_Some (deref h bet !! "value_bet")) analyses ->
  (0 < combo_size <= len (qualifying h 50 analyses))%Z ->
  let pool := qualifying h 50 analyses in
  let n := Z.to_nat combo_size in
  let flagged := List.filter (value_flag h) pool in
  let made name bets :=
    combination_from py_float name (deref h <$> take n bets) in
  generate_combinations py_float shuffle analyses combo_size h
  = (Ok (made "Combiné Sûr"%string
           (sort_by_key true (zip (confidence h <$> pool) pool))
         :: (if (n <=? length flagged)%nat
             then [made "Combiné Value"%string flagged] else [])
         ++ [made "Combiné Mixte"%string (shuffle pool)]), h).
Proof.
  intros Hsh Hc Hv Hn pool n flagged made.
  assert (Hpool : pool ⊆ analyses) by apply qualifying_subseteq.
  assert (Cpool : Forall (combinable py_float h) pool)
    by (now apply Forall_qualifying).
  assert (Npool : Forall (numeric_confidence h) pool)
    by (now apply (combinable_numeric py_float)).
  assert (Vpool : Forall (fun bet => is_Some (deref h bet !! "value_bet")) pool)
    by (now apply Forall_qualifying).
  assert (Ln : (0 < n <= length pool)%nat)
    by (unfold len in Hn; subst n pool; lia).
  set (sorted := sort_by_key true (zip (confidence h <$> pool) pool)).
  assert (Ps : sorted ≡ₚ pool) by apply sorted_by_confidence_perm.
  assert (D : forall bets name, bets ⊆ pool -> (n <= length bets)%nat ->
            _create_combination py_float (take n bets) name h
            = (Ok (made name bets), h)).
  { intros bets name Sb Lb.
    apply create_combination_from; [apply take_nonempty; lia |].
    apply (Forall_subseteq _ pool); [exact Cpool |].
    intros x Hx. apply Sb. now apply (take_subseteq n bets). }
  assert (Es := D sorted "Combiné Sûr"%string).
  assert (Em := D (shuffle pool) "Combiné Mixte"%string).
  assert (Evv := D flagged "Combiné Value"%string).
  unfold generate_combinations.
  pose proof (qualifying_length h 50 analyses) as Lq. fold pool in Lq.
  change (qualifying h 50 analyses) with pool in Hn.
  rewrite (proj2 (Z.ltb_ge _ _)) by lia.
  rewrite (bind_ok _ _ h h _
             (filterM_confidence 50 analyses h (combinable_numeric _ _ _ Hc))).
  fold pool. rewrite (proj2 (Z.ltb_ge _ _)) by lia.
  rewrite (bind_ok _ _ h h _ (py_sorted_confidence true pool h Npool)).
  fold sorted. rewrite ?slice_to_take by lia. fold n.
  rewrite (bind_ok _ _ h h (made "Combiné Sûr"%string sorted)).
  2: { apply Es; [intros x Hx; now rewrite <- Ps | rewrite Ps; lia]. }
  rewrite (bind_ok _ _ h h _ (filterM_value_flag pool h Vpool)). fold flagged.
  rewrite (proj2 (Z.leb_le combo_size (len pool))) by lia.
  destruct (combo_size <=? len flagged)%Z eqn:Ev.
  - apply Z.leb_le in Ev. unfold len in Ev.
    rewrite (proj2 (Nat.leb_le n (length flagged))) by lia.
    rewrite ?slice_to_take by lia. fold n.
    rewrite (bind_ok _ _ h h
               [made "Combiné Sûr"%string sorted;
                made "Combiné Value"%string flagged]).
    2: { rewrite (bind_ok _ _ h h (made "Combiné Value"%string flagged));
           [reflexivity |].
         apply Evv; [apply filter_subseteq_list | lia]. }
    rewrite (bind_ok _ _ h h (made "Combiné Mixte"%string (shuffle pool)));
      [reflexivity |].
    apply Em; [intros x Hx; now rewrite <- (Hsh pool) | rewrite (Hsh pool); lia].
  - apply Z.leb_gt in Ev. unfold len in Ev.
    rewrite (proj2 (Nat.leb_gt n (length flagged))) by lia.
    rewrite (bind_ok _ _ h h [made "Combiné Sûr"%string sorted]) by reflexivity.
    rewrite ?slice_to_take by lia. fold n.
    rewrite (bind_ok _ _ h h (made "Combiné Mixte"%string (shuffle pool)));
      [reflexivity |].
    apply Em; [intros x Hx; now rewrite <- (Hsh pool) | rewrite (Hsh pool); lia].
Qed.

(** What [generate_combinations] builds from a pool that is large enough. *)
Lemma generate_combinations_build (py_float : string -> option Q)
    (shuffle : list loc -> list loc) (analyses : list loc) (combo_size : Z)
    (h : heap) :
  (forall l, shuffle l ≡ₚ l) ->
  Forall (combinable py_float h) analyses ->
  Forall (fun bet => is_Some (deref h bet !! "value_bet")) analyses ->
  (0 < combo_size <= len (qualifying h 50 analyses))%Z ->
  let pool := qualifying h 50 analyses in
  let n := Z.to_nat combo_size in
  exists safe optional mixed,
    generate_combinations py_float shuffle analyses combo_size h
    = (Ok (safe :: optional ++ [mixed]), h)
    /\ Forall (drawn_from h pool n) (safe :: optional ++ [mixed])
    /\ combo_type safe = "Combiné Sûr"%string
    /\ matches safe
       = leg_of h <$> take n (sort_by_key true (zip (confidence h <$> pool) pool))
    /\ combo_type mixed = "Combiné Mixte"%string
    /\ matches mixed = leg_of h <$> take n (shuffle pool)
    /\ ((n <= length (List.filter (value_flag h) pool))%nat
        /\ (exists v, optional = [v]
              /\ combo_type v = "Combiné Value"%string
              /\ matches v
                 = leg_of h <$> take n (List.filter (value_flag h) pool))
        \/ (length (List.filter (value_flag h) pool) < n)%nat
           /\ optional = []).
Proof.
  intros Hsh Hc Hv Hn pool n.
  pose proof (generate_combinations_exact py_float shuffle analyses combo_size
                h Hsh Hc Hv Hn) as G. cbv zeta in G. fold pool n in G.
  set (flagged := List.filter (value_flag h) pool) in *.
  set (sorted := sort_by_key true (zip (confidence h <$> pool) pool)) in *.
  assert (Ln : (0 < n <= length pool)%nat)
    by (unfold len in Hn; subst n pool; lia).
  assert (M : forall name bets,
            matches (combination_from py_float name (deref h <$> take n bets))
            = leg_of h <$> take n bets).
  { intros name bets. cbn [matches combination_from].
    symmetry. apply fmap_deref, leg_of_deref. }
  assert (D : forall name bets, bets ⊆ pool -> (n <= length bets)%nat ->
            drawn_from h pool n
              (combination_from py_float name (deref h <$> take n bets))).
  { intros name bets Sb Lb. exists (take n bets). split; [apply M |].
    split; [rewrite length_take; lia |].
    intros x Hx. apply Sb. now apply (take_subseteq n bets). }
  assert (Ps : sorted ≡ₚ pool) by apply sorted_by_confidence_perm.
  assert (Ds := D "Combiné Sûr"%string sorted).
  assert (Dm := D "Combiné Mixte"%string (shuffle pool)).
  assert (Dv := D "Combiné Value"%string flagged).
  do 3 eexists. split; [exact G |].
  assert (Hs : drawn_from h pool n
                 (combination_from py_float "Combiné Sûr"
                    (deref h <$> take n sorted)))
    by (apply Ds; [intros x Hx; now rewrite <- Ps | rewrite Ps; lia]).
  assert (Hm : drawn_from h pool n
                 (combination_from py_float "Combiné Mixte"
                    (deref h <$> take n (shuffle pool))))
    by (apply Dm; [intros x Hx; now rewrite <- (Hsh pool)
                  | rewrite (Hsh pool); lia]).
  destruct (n <=? length flagged)%nat eqn:Ev.
  - apply Nat.leb_le in Ev.
    assert (Hvb : drawn_from h pool n
                   (combination_from py_float "Combiné Value"
                      (deref h <$> take n flagged)))
      by (apply Dv; [apply filter_subseteq_list | exact Ev]).
    split; [repeat (apply Forall_cons_2; [assumption |]); apply Forall_nil_2 |].
    split; [reflexivity |]. split; [apply M |]. split; [reflexivity |].
    split; [apply M |]. left. split; [exact Ev |].
    eexists. split; [reflexivity |]. split; [reflexivity | apply M].
  - apply Nat.leb_gt in Ev.
    split; [repeat (apply Forall_cons_2; [assumption |]); apply Forall_nil_2 |].
    split; [reflexivity |]. split; [apply M |]. split; [reflexivity |].
    split; [apply M |]. right. split; [exact Ev | reflexivity].
Qed.

(** X15: given at least [combo_size] > 0 analyses with confidence >= 50, all
    with readable odds, [generate_combinations] returns two or three
    combinations of exactly [combo_size] legs each, every leg taken from
    the analyses with confidence >= 50: first "Combiné Sûr", the
    [combo_size] most confident of them in descending order; then "Combiné
    Value", the first [combo_size] value bets, present exactly when there
    are that many; last "Combiné Mixte", the first [combo_size] of the
    shuffled pool. *)
Theorem generate_combinations_structure (py_float : string -> option Q)
    (shuffle : list loc -> list loc) (analyses : list loc) (combo_size : Z)
    (h : heap) :
  (forall l, shuffle l ≡ₚ l) ->
  Forall (combinable py_float h) analyses ->
  Forall (fun bet => is_Some (deref h bet !! "value_bet")) analyses ->
  (0 < combo_size <= len (qualifying h 50 analyses))%Z ->
  let pool := qualifying h 50 analyses in
  let n := Z.to_nat combo_size in
  exists safe optional mixed,
    generate_combinations py_float shuffle analyses combo_size h
    = (Ok (safe :: optional ++ [mixed]), h)
    /\ Forall (drawn_from h pool n) (safe :: optional ++ [mixed])
    /\ combo_type safe = "Combiné Sûr"%string
    /\ matches safe
       = leg_of h <$> take n (sort_by_key true (zip (confidence h <$> pool) pool))
    /\ combo_type mixed = "Combiné Mixte"%string
    /\ matches mixed = leg_of h <$> take n (shuffle pool)
    /\ ((n <= length (List.filter (value_flag h) pool))%nat
        /\ (exists v, optional = [v]
              /\ combo_type v = "Combiné Value"%string
              /\ matches v
                 = leg_of h <$> take n (List.filter (value_flag h) pool))
        \/ (length (List.filter (value_flag h) pool) < n)%nat
           /\ optional = []).
Proof. apply generate_combinations_build. Qed.

(** ** [generate_specific_combination] on analyses with readable odds *)

Lemma sorted_by_key_perm {A} (reverse : bool) (f : A -> Q) (l : list A) :
  sort_by_key reverse (zip (f <$> l) l) ≡ₚ l.
Proof.
  rewrite sort_by_key_perm. rewrite snd_zip; [reflexivity |].
  now rewrite length_fmap.
Qed.

Lemma StronglySorted_take {A} (R : A -> A -> Prop) (n : nat) (l : list A) :
  StronglySorted R l -> StronglySorted R (take n l).
Proof.
  intros H. rewrite <- (take_drop n l) in H.
  now apply StronglySorted_app_1_l in H.
Qed.

Lemma mapM_numbers (k : string) (f : loc -> Q) (l : list loc) (h : heap) :
  Forall (fun bet => read_number h bet k = Ok (f bet)) l ->
  mapM (fun x => get_number x k) l h = (Ok (f <$> l), h).
Proof.
  induction 1 as [| bet l Hb _ IH]; [reflexivity |].
  cbn [mapM fmap list_fmap].
  rewrite (bind_ok _ _ h h (f bet)) by (now rewrite get_number_eq, Hb).
  now rewrite (bind_ok _ _ h h _ IH).
Qed.

Lemma combinable_same (py_float : string -> option Q) (h h' : heap) (bet : loc) :
  same_but_extracted h h' ->
  combinable py_float h bet -> combinable py_float h' bet.
Proof.
  intros S ([c Hc] & (text & x & Ht & Hx) & Hm).
  unfold combinable, numeric_confidence, read_number.
  rewrite !S by discriminate. split; [| split; [| exact Hm]].
  - exists c. exact Hc.
  - now exists text, x.
Qed.

Lemma leg_of_same (h h' : heap) (bet : loc) :
  same_but_extracted h h' -> leg_of h' bet = leg_of h bet.
Proof. intros S. unfold leg_of. now rewrite !S by discriminate. Qed.

Lemma odds_of_same (py_float : string -> option Q) (h h' : heap) (bet : loc) :
  same_but_extracted h h' -> odds_of py_float h' bet = odds_of py_float h bet.
Proof. intros S. unfold odds_of. now rewrite !S by discriminate. Qed.

Lemma confidence_same (h h' : heap) (bet : loc) :
  same_but_extracted h h' -> confidence h' bet = confidence h bet.
Proof.
  intros S. unfold confidence, read_number. now rewrite !S by discriminate.
Qed.

Lemma combination_from_same (py_float : string -> option Q) (h h' : heap)
    (name : string) (bets : list loc) :
  same_but_extracted h h' ->
  combination_from py_float name (deref h' <$> bets)
  = combination_from py_float name (deref h <$> bets).
Proof.
  intros S.
  assert (E1 : leg_of_record <$> (deref h' <$> bets)
               = leg_of_record <$> (deref h <$> bets)).
  { rewrite <- !list_fmap_compose. apply list_fmap_ext. intros i b _.
    change (leg_of h' b = leg_of h b). now apply leg_of_same. }
  assert (E2 : record_odds py_float <$> (deref h' <$> bets)
               = record_odds py_float <$> (deref h <$> bets)).
  { rewrite <- !list_fmap_compose. apply list_fmap_ext. intros i b _.
    change (odds_of py_float h' b = odds_of py_float h b).
    now apply odds_of_same. }
  assert (E3 : record_score <$> (deref h' <$> bets)
               = record_score <$> (deref h <$> bets)).
  { rewrite <- !list_fmap_compose. apply list_fmap_ext. intros i b _.
    cbn. rewrite <- !confidence_deref. now apply confidence_same. }
  unfold combination_from, len. now rewrite E1, E2, E3, !length_fmap.
Qed.

(** On a record with readable odds the sort preparation stores them. *)
Lemma extract_for_sort_ok (py_float : string -> option Q) (h : heap) (bet : loc) :
  combinable py_float h bet ->
  extract_for_sort py_float bet h
  = (Ok bet,
     <[bet := <["_extracted_odds" := VFloat (odds_of py_float h bet)]>
                (deref h bet)]> h).
Proof.
  intros (_ & (text & x & Ht & Hx) & _).
  unfold extract_for_sort, try_except, odds_of. rewrite Ht, Hx.
  rewrite (bind_ok _ _ h h _ (get_item_ok bet "recommendation" h text Ht)).
  rewrite (bind_ok _ _ h h x) by (unfold lift; now rewrite Hx).
  reflexivity.
Qed.

Lemma read_extracted_insert (h : heap) (bet bet' : loc) (x : Q) :
  read_number (<[bet := <["_extracted_odds" := VFloat x]> (deref h bet)]> h)
    bet' "_extracted_odds"
  = if decide (bet = bet') then Ok x else read_number h bet' "_extracted_odds".
Proof.
  unfold read_number.
  change (<[bet := <["_extracted_odds" := VFloat x]> (deref h bet)]> h)
    with (snd (set_item bet "_extracted_odds" (VFloat x) h)).
  rewrite deref_set_item.
  destruct (decide (bet = bet')) as [<- |]; [| reflexivity].
  now rewrite lookup_insert_eq.
Qed.

Lemma same_but_extracted_insert (h : heap) (bet : loc) (v : value) :
  same_but_extracted h
    (<[bet := <["_extracted_odds" := v]> (deref h bet)]> h).
Proof. exact (writes_set_extracted bet v h). Qed.

(** The preparation loop: every record it visits ends up with its odds in
    [_extracted_odds], and nothing else changes. *)
Lemma mapM_extract_for_sort (py_float : string -> option Q) (h0 : heap)
    (l : list loc) (h : heap) :
  Forall (combinable py_float h0) l ->
  same_but_extracted h0 h ->
  exists h',
    mapM (extract_for_sort py_float) l h = (Ok l, h')
    /\ same_but_extracted h0 h'
    /\ Forall (fun bet => read_number h' bet "_extracted_odds"
                          = Ok (odds_of py_float h0 bet)) l
    /\ (forall bet, read_number h bet "_extracted_odds"
                    = Ok (odds_of py_float h0 bet) ->
                    read_number h' bet "_extracted_odds"
                    = Ok (odds_of py_float h0 bet)).
Proof.
  intros H. revert h. induction H as [| bet l Hb _ IH]; intros h S.
  - exists h. repeat split; [exact S | apply Forall_nil_2 | auto].
  - set (h1 := <[bet := <["_extracted_odds" :=
                    VFloat (odds_of py_float h bet)]> (deref h bet)]> h).
    assert (S1 : same_but_extracted h0 h1)
      by (eapply same_but_extracted_trans;
          [exact S | apply same_but_extracted_insert]).
    destruct (IH h1 S1) as (h' & E & S' & F & K).
    exists h'. cbn [mapM].
    rewrite (bind_ok _ _ h h1 bet)
      by (apply extract_for_sort_ok; now apply (combinable_same _ h0)).
    rewrite (bind_ok _ _ h1 h' _ E).
    assert (O : odds_of py_float h bet = odds_of py_float h0 bet)
      by (now apply odds_of_same).
    repeat split; [exact S' | |].
    + apply Forall_cons_2; [| exact F].
      apply K. unfold h1. rewrite read_extracted_insert, O.
      now destruct (decide (bet = bet)).
    + intros bet' Hb'. apply K. unfold h1. rewrite read_extracted_insert, O.
      destruct (decide (bet = bet')) as [<- |]; [reflexivity | exact Hb'].
Qed.

Lemma known_level_tables (level : string) :
  known_level level ->
  exists cfg name,
    level_configs !! level = Some cfg
    /\ combo_type_names !! level = Some name
    /\ (3 <= combo_size cfg <= 5)%Z
    /\ desc cfg = true
    /\ (String.eqb (sort_by cfg) "confidence" = true
        <-> level <> "HIGH_RISK"%string).
Proof.
  intros [-> | [-> | ->]]; do 2 eexists;
    (split; [reflexivity |]); (split; [reflexivity |]);
    (split; [cbn; lia |]); (split; [reflexivity |]);
    cbn; split; congruence.
Qed.

Lemma take_min_length {A} (a : nat) (l : list A) :
  take (a `min` length l) l = take a l.
Proof. now rewrite <- take_take, firstn_all. Qed.

Lemma tier_candidates_spec (h : heap) (level : string) (analyses : list loc) :
  known_level level ->
  (3 <= len analyses)%Z ->
  let cfg := default moyen_config (level_configs !! level) in
  let pool := qualifying h (min_confidence cfg) analyses in
  tier_candidates h level analyses ⊆ analyses
  /\ (3 <= length (tier_candidates h level analyses))%nat
  /\ ((3 <= length pool)%nat -> tier_candidates h level analyses = pool).
Proof.
  intros Hk Hn cfg pool.
  destruct (known_level_tables level Hk) as (cfg' & name & Ecfg & _ & Hsize & _).
  assert (cfg = cfg') by (unfold cfg; now rewrite Ecfg). subst cfg'.
  unfold tier_candidates. fold cfg pool. destruct (len pool <? 3)%Z eqn:E.
  - apply Z.ltb_lt in E. unfold len in E.
    rewrite slice_to_take by lia.
    split; [| split; [| lia]].
    + intros x Hx. apply take_subseteq in Hx.
      now rewrite sorted_by_key_perm in Hx.
    + rewrite length_take, sorted_by_key_perm. unfold len in Hn. lia.
  - apply Z.ltb_ge in E. unfold len in E.
    split; [apply qualifying_subseteq | split; [lia | reflexivity]].
Qed.

(** What [generate_specific_combination] returns for a known tier: the
    candidates are ranked, and the first of the ranking are combined. *)
Lemma tier_combination_ranked (py_float : string -> option Q)
    (analyses : list loc) (level : string) (h : heap) :
  known_level level ->
  (3 <= len analyses)%Z ->
  Forall (combinable py_float h) analyses ->
  let cfg := default moyen_config (level_configs !! level) in
  exists name h' ranked,
    combo_type_names !! level = Some name
    /\ generate_specific_combination py_float analyses level h
       = (Ok (Some (combination_from py_float name
                      (deref h <$> take (Z.to_nat (combo_size cfg)) ranked))),
          h')
    /\ same_but_extracted h h'
    /\ ranked ≡ₚ tier_candidates h level analyses
    /\ (level <> "HIGH_RISK"%string ->
        StronglySorted (fun a b => confidence h b <= confidence h a) ranked)
    /\ (level = "HIGH_RISK"%string ->
        StronglySorted
          (fun a b => odds_of py_float h b <= odds_of py_float h a) ranked).
Proof.
  intros Hk Hn Hc cfg.
  set (pool := qualifying h (min_confidence cfg) analyses).
  destruct (known_level_tables level Hk) as (cfg' & name & Ecfg & Ename & Hsize & Hdesc & Hsort).
  assert (cfg = cfg') by (unfold cfg; now rewrite Ecfg). subst cfg'.
  pose proof (combinable_numeric _ _ _ Hc) as Hnum.
  set (size := Z.to_nat (combo_size cfg)).
  assert (Hsz : (3 <= size <= 5)%nat) by (unfold size; lia).
  set (filtered := tier_candidates h level analyses).
  destruct (tier_candidates_spec h level analyses Hk Hn) as (Hf1 & Hf2 & Hf3).
  fold cfg pool filtered in Hf1, Hf2, Hf3.
  assert (Cf : Forall (combinable py_float h) filtered)
    by (now apply (Forall_subseteq _ analyses)).
  assert (Efilt : (if (len pool <? 3)%Z
                   then let! best := py_sorted
                                       (fun x => get_number x "confidence")
                                       true analyses in
                        ret (slice_to (combo_size cfg) best)
                   else ret pool) h = (Ok filtered, h)).
  { unfold filtered, tier_candidates. fold cfg pool.
    destruct (len pool <? 3)%Z; [| reflexivity].
    now rewrite (bind_ok _ _ h h _ (py_sorted_confidence true analyses h Hnum)). }
  (* what the final slice and the assembly do, on any store like [h] *)
  assert (Fin : forall (f : loc -> Q) (h' : heap),
            same_but_extracted h h' ->
            let sel := sort_by_key true (zip (f <$> filtered) filtered) in
            _create_combination py_float
              (slice_to (Z.min (combo_size cfg) (len sel)) sel) name h'
            = (Ok (combination_from py_float name (deref h <$> take size sel)),
               h')).
  { intros f h' S sel.
    set (bets := slice_to (Z.min (combo_size cfg) (len sel)) sel).
    assert (Ps : sel ≡ₚ filtered) by apply sorted_by_key_perm.
    assert (Eb : bets = take size sel).
    { unfold bets. rewrite slice_to_take by (unfold len; lia).
      rewrite <- (take_min_length size sel). f_equal. unfold len, size. lia. }
    assert (Sb : bets ⊆ filtered).
    { intros x Hx. rewrite Eb in Hx. apply take_subseteq in Hx.
      now rewrite Ps in Hx. }
    assert (Lb : (3 <= length bets)%nat).
    { rewrite Eb, length_take, Ps. lia. }
    rewrite <- Eb, <- (combination_from_same py_float h h' name bets S).
    apply create_combination_from.
    - intros E. rewrite E in Lb. cbn in Lb. lia.
    - apply (Forall_subseteq _ filtered); [| exact Sb].
      eapply Forall_impl; [exact Cf |].
      intros b Hb. now apply (combinable_same _ h). }
  unfold generate_specific_combination.
  rewrite (proj2 (Z.ltb_ge _ _)) by lia.
  fold cfg. rewrite Ename.
  rewrite (bind_ok _ _ h h _ (filterM_confidence _ analyses h Hnum)).
  fold pool. rewrite (bind_ok _ _ h h _ Efilt). rewrite Hdesc.
  exists name.
  destruct (String.eqb (sort_by cfg) "confidence") eqn:Es.
  - (* SAFE and MOYEN *)
    assert (Hl : level <> "HIGH_RISK"%string) by (now apply Hsort).
    pose proof (Fin (confidence h) h (same_but_extracted_refl h)) as Ec.
    exists h, (sort_by_key true (zip (confidence h <$> filtered) filtered)).
    split; [reflexivity |]. split.
    + rewrite (bind_ok _ _ h h _
                 (py_sorted_confidence true filtered h
                    (combinable_numeric _ _ _ Cf))).
      cbv zeta in Ec. now rewrite (bind_ok _ _ h h _ Ec).
    + split; [apply same_but_extracted_refl |].
      split; [apply sorted_by_key_perm |].
      split; [intros _; apply sort_by_key_descending | intros E; congruence].
  - (* HIGH_RISK *)
    assert (Hl : level = "HIGH_RISK"%string).
    { destruct (decide (level = "HIGH_RISK"%string)) as [E | N]; [exact E |].
      apply Hsort in N. congruence. }
    destruct (mapM_extract_for_sort py_float h filtered h Cf
                (same_but_extracted_refl h)) as (h' & Em & S' & Fx & _).
    pose proof (Fin (odds_of py_float h) h' S') as Ec.
    exists h', (sort_by_key true (zip (odds_of py_float h <$> filtered) filtered)).
    split; [reflexivity |]. split.
    + rewrite (bind_ok _ _ h h'
                 (sort_by_key true
                    (zip (odds_of py_float h <$> filtered) filtered))).
      * cbv zeta in Ec. now rewrite (bind_ok _ _ h' h' _ Ec).
      * rewrite (bind_ok _ _ h h' _ Em). unfold py_sorted.
        now rewrite (bind_ok _ _ h' h' _
                       (mapM_numbers "_extracted_odds" (odds_of py_float h)
                          filtered h' Fx)).
    + split; [exact S' |].
      split; [apply sorted_by_key_perm |].
      split; [intros N; congruence | intros _; apply sort_by_key_descending].
Qed.

(** What [generate_specific_combination] builds for a known tier. *)
Lemma tier_combination_build (py_float : string -> option Q)
    (analyses : list loc) (level : string) (h : heap) :
  known_level level ->
  (3 <= len analyses)%Z ->
  Forall (combinable py_float h) analyses ->
  let cfg := default moyen_config (level_configs !! level) in
  let pool := qualifying h (min_confidence cfg) analyses in
  exists c h' bets,
    generate_specific_combination py_float analyses level h = (Ok (Some c), h')
    /\ same_but_extracted h h'
    /\ combo_type_names !! level = Some (combo_type c)
    /\ matches c = leg_of h <$> bets
    /\ bets ⊆ analyses
    /\ (3 <= length bets <= Z.to_nat (combo_size cfg))%nat
    /\ ((3 <= length pool)%nat -> bets ⊆ pool)
    /\ (level <> "HIGH_RISK"%string ->
        StronglySorted (fun a b => confidence h b <= confidence h a) bets)
    /\ (level = "HIGH_RISK"%string ->
        StronglySorted
          (fun a b => odds_of py_float h b <= odds_of py_float h a) bets).
Proof.
  intros Hk Hn Hc cfg pool.
  destruct (tier_combination_ranked py_float analyses level h Hk Hn Hc)
    as (name & h' & ranked & N & G & S & P & O1 & O2).
  destruct (tier_candidates_spec h level analyses Hk Hn) as (Hf1 & Hf2 & Hf3).
  destruct (known_level_tables level Hk) as (cfg' & name' & Ecfg & _ & Hsize & _).
  assert (cfg = cfg') by (unfold cfg; now rewrite Ecfg). subst cfg'.
  fold cfg in G. fold cfg pool in Hf3.
  eexists. exists h', (take (Z.to_nat (combo_size cfg)) ranked).
  split; [exact G |]. split; [exact S |]. split; [exact N |].
  split; [symmetry; apply fmap_deref, leg_of_deref |].
  assert (Sb : take (Z.to_nat (combo_size cfg)) ranked
               ⊆ tier_candidates h level analyses).
  { intros x Hx. apply take_subseteq in Hx. now rewrite P in Hx. }
  split; [intros x Hx; now apply Hf1, Sb |].
  split; [rewrite length_take, P; lia |].
  split; [intros Hp x Hx; rewrite <- (Hf3 Hp); now apply Sb |].
  split; [intros Hl; now apply StronglySorted_take, O1
         | intros Hl; now apply StronglySorted_take, O2].
Qed.

(** X16: for each of the three tiers and at least three analyses with
    readable odds, [generate_specific_combination] returns a combination
    named after the tier, with between 3 and the tier's size legs, all
    taken from the input; when at least three analyses reach the tier's
    minimum confidence, every leg does; the legs are in descending order
    of confidence for SAFE and MOYEN and of odds for HIGH_RISK; and no
    field other than [_extracted_odds] is written. *)
Theorem tier_combination_structure (py_float : string -> option Q)
    (analyses : list loc) (level : string) (h : heap) :
  known_level level ->
  (3 <= len analyses)%Z ->
  Forall (combinable py_float h) analyses ->
  let cfg := default moyen_config (level_configs !! level) in
  let pool := qualifying h (min_confidence cfg) analyses in
  exists c h' bets,
    generate_specific_combination py_float analyses level h = (Ok (Some c), h')
    /\ same_but_extracted h h'
    /\ combo_type_names !! level = Some (combo_type c)
    /\ matches c = leg_of h <$> bets
    /\ bets ⊆ analyses
    /\ (3 <= length bets <= Z.to_nat (combo_size cfg))%nat
    /\ ((3 <= length pool)%nat -> bets ⊆ pool)
    /\ (level <> "HIGH_RISK"%string ->
        StronglySorted (fun a b => confidence h b <= confidence h a) bets)
    /\ (level = "HIGH_RISK"%string ->
        StronglySorted
          (fun a b => odds_of py_float h b <= odds_of py_float h a) bets).
Proof. apply tier_combination_build. Qed.

(** ** The older analysis *)










(** ** The extractor of [sports_api.py] *)

Lemma quote_slot_home (home_team away_team : string) (q : quote) :
  quote_slot home_team away_team q = Some home <-> q_name q = home_team.
Proof.
  unfold quote_slot.
  destruct (String.eqb_spec (q_name q) home_team); [tauto |].
  destruct (String.eqb (q_name q) away_team);
    [| destruct (String.eqb (q_name q) "Draw")]; split; congruence.
Qed.

Lemma h2h_quotes_cons (bk : bookmaker) (bks : list bookmaker) :
  h2h_quotes (bk :: bks) = h2h_quotes [bk] ++ h2h_quotes bks.
Proof.
  unfold h2h_quotes. cbn [mbind list_bind]. now rewrite app_nil_r.
Qed.

(** The home slot holds the running maximum of the prices that the
    bookmakers quote under their own [home_team] entry. *)
Lemma own_home_value (bks : list bookmaker) (best : gmap string Q) :
  odds_get (foldl add_own_bookmaker best bks) "home" 0
  = foldl py_max (odds_get best "home" 0) (bk ← bks; own_home_prices bk).
Proof.
  revert best. induction bks as [| bk bks IH]; intros best; [reflexivity |].
  cbn [foldl mbind list_bind]. rewrite foldl_app, IH. f_equal.
  unfold add_own_bookmaker, own_home_prices.
  change (add_bookmaker (own_home_team bk) (own_away_team bk) best bk)
    with (foldl (add_bookmaker (own_home_team bk) (own_away_team bk)) best [bk]).
  rewrite fold_bookmakers_flat.
  apply (slot_value_fold _ _ home).
Qed.

Lemma elem_of_own_home_prices (bks : list bookmaker) (x : Q) :
  x ∈ (bk ← bks; own_home_prices bk)
  <-> exists bk q, bk ∈ bks /\ q ∈ h2h_quotes [bk]
                   /\ q_name q = own_home_team bk /\ x = q_price q.
Proof.
  rewrite list_elem_of_bind. split.
  - intros (bk & Hx & Hbk). apply elem_of_slot_prices in Hx as (q & Hq & Hs & E).
    exists bk, q. repeat split; try assumption. now apply quote_slot_home in Hs.
  - intros (bk & q & Hbk & Hq & Hn & E). exists bk. split; [| exact Hbk].
    apply elem_of_slot_prices. exists q. split; [exact Hq |].
    split; [| exact E]. now apply quote_slot_home.
Qed.

Lemma get_best_odds_is_Some (bks : list bookmaker) :
  is_Some (_get_best_odds bks)
  <-> 0 < foldl py_max 0 (bk ← bks; own_home_prices bk).
Proof.
  unfold _get_best_odds. destruct bks as [| bk bks].
  - cbn. split; [intros [x Hx]; discriminate | lra].
  - cbv zeta. rewrite own_home_value.
    change (odds_get initial_best_odds "home" 0) with 0.
    destruct (Qlt_bool 0 _) eqn:E; Qbool_hyps.
    + split; [intros _; exact E | eauto].
    + split; [intros [x Hx]; discriminate | lra].
Qed.

(** X18: the extractor of [sports_api.py] returns odds exactly when some
    bookmaker quotes, in a head-to-head market, a price above 0 under the
    name held in that bookmaker's own [home_team] entry (the empty string
    when the entry is missing). *)
Theorem sports_api_best_odds_iff (bookmakers : list bookmaker) :
  is_Some (_get_best_odds bookmakers)
  <-> exists bk q, bk ∈ bookmakers /\ q ∈ h2h_quotes [bk]
                   /\ q_name q = default ""%string (bk_home_team bk)
                   /\ 0 < q_price q.
Proof.
  rewrite get_best_odds_is_Some.
  destruct (foldl_py_max_spec (bk ← bookmakers; own_home_prices bk) 0)
    as (B0 & B1 & B2).
  split.
  - intros Hpos. destruct B2 as [B2 | B2]; [rewrite B2 in Hpos; lra |].
    apply elem_of_own_home_prices in B2 as (bk & q & Hbk & Hq & Hn & E).
    exists bk, q. repeat split; try assumption. now rewrite <- E.
  - intros (bk & q & Hbk & Hq & Hn & Hp).
    assert (H : q_price q ∈ (bk ← bookmakers; own_home_prices bk)).
    { apply elem_of_own_home_prices. exists bk, q. repeat split; assumption. }
    specialize (B1 _ H). lra.
Qed.

(** X19: when no bookmaker entry carries a [home_team] field (the match
    does, its bookmakers do not) and every quoted outcome has a
    non-empty name, the extractor of [sports_api.py] returns [None],
    whatever the prices: [format_match_info] shows no odds line. *)
Theorem sports_api_no_odds_without_team_entry (bookmakers : list bookmaker) :
  Forall (fun bk => bk_home_team bk = None) bookmakers ->
  Forall (fun q => q_name q <> ""%string) (h2h_quotes bookmakers) ->
  _get_best_odds bookmakers = None.
Proof.
  intros Hbk Hq.
  destruct (_get_best_odds bookmakers) as [odds |] eqn:E; [| reflexivity].
  exfalso.
  assert (S : is_Some (_get_best_odds bookmakers)) by (rewrite E; eauto).
  apply get_best_odds_is_Some in S.
  destruct (foldl_py_max_spec (bk ← bookmakers; own_home_prices bk) 0)
    as (_ & _ & [B | B]); [rewrite B in S; lra |].
  apply elem_of_own_home_prices in B as (bk & q & Hin & Hqin & Hn & _).
  rewrite Forall_forall in Hbk. rewrite Forall_forall in Hq.
  unfold own_home_team in Hn. rewrite (Hbk bk Hin) in Hn.
  apply (Hq q); [| exact Hn].
  unfold h2h_quotes in *. apply list_elem_of_bind.
  exists bk. split; [| exact Hin].
  cbn [mbind list_bind] in Hqin. now rewrite app_nil_r in Hqin.
Qed.

Lemma sports_api_no_odds_without_team_entry_witness :
  _get_best_odds (default [] (m_bookmakers demo_match)) = None
  /\ is_Some (_get_best_odds_from_match demo_match).
Proof.
  split.
  - apply sports_api_no_odds_without_team_entry.
    + repeat (apply Forall_cons_2; [reflexivity |]). apply Forall_nil_2.
    + repeat (apply Forall_cons_2; [discriminate |]). apply Forall_nil_2.
  - vm_compute. eauto.
Defined.

(** ** The analysis in binary64 *)

(** What [_calculate_enhanced_confidence] does, by the kind of float its
    base is. *)
Lemma enhanced_confidence_cases (analysis : Binary64.best_bet)
    (odds : gmap string Q) (is_value : bool) :
  match Binary64.base_confidence analysis is_value with
  | S754_nan =>
      _calculate_enhanced_confidence analysis odds is_value
      = Raise ValueError
  | S754_infinity _ =>
      _calculate_enhanced_confidence analysis odds is_value
      = Raise OverflowError
  | s =>
      exists c,
        _calculate_enhanced_confidence analysis odds is_value = Ok c
        /\ c = Z.max 0 (Z.min 100 (py_int (exact s)))
        /\ (0 <= c <= 100)%Z
  end.
Proof.
  unfold _calculate_enhanced_confidence.
  destruct (Binary64.base_confidence analysis is_value); cbn [float_int];
    try reflexivity; eexists; (split; [reflexivity |]); split;
    try reflexivity; lia.
Qed.

Lemma b64_is_value_bet_returns (self : BettingAnalyzer) (odds : gmap string Q)
    (probs : dict spec_float) :
  (forall w, is_Some (odds !! outcome_key w)) ->
  exists b, Binary64._is_value_bet self odds probs = Ok b.
Proof.
  intros Hk.
  destruct (Hk home) as [oh Hoh]. destruct (Hk away) as [oa Hoa].
  destruct (Hk draw) as [od Hod]. cbn [outcome_key] in Hoh, Hoa, Hod.
  induction probs as [| [k prob] rest [b IH]]; [now exists false |].
  cbn [Binary64._is_value_bet]. unfold odds_index. rewrite Hoh, Hoa, Hod, IH.
  destruct (String.eqb k "home");
    [destruct (Binary64.in_band_above _ _ _ _); eauto |].
  destruct (String.eqb k "away");
    [destruct (Binary64.in_band_above _ _ _ _); eauto |].
  destruct (String.eqb k "draw");
    [destruct (Binary64.in_band_above _ _ _ _); eauto |].
  eauto.
Qed.

(** The binary64 selection is one of the outcomes with odds > 0, with that
    outcome's label and odds. *)
Lemma b64_best_bet_is_an_option (odds : gmap string Q) (probs : dict spec_float)
    (home_team away_team : string) :
  (exists w, has_odds odds w = true) ->
  exists w, has_odds odds w = true
    /\ Binary64.recommendation
         (Binary64._analyze_best_bet odds probs home_team away_team)
       = outcome_label home_team away_team w
    /\ Binary64.recommended_odds
         (Binary64._analyze_best_bet odds probs home_team away_team)
       = odds_get odds (outcome_key w) 0.
Proof.
  intros [w0 Hw0].
  unfold Binary64._analyze_best_bet, Binary64.bet_options, Binary64.add_option,
    has_odds in *.
  assert (Hw0' : Qlt_bool 0 (odds_get odds "home" 0) = true
              \/ Qlt_bool 0 (odds_get odds "away" 0) = true
              \/ Qlt_bool 0 (odds_get odds "draw" 0) = true)
    by (destruct w0; auto).
  clear Hw0.
  odds_cases odds.
  all: try (exfalso; destruct Hw0' as [H | [H | H]]; discriminate H).
  all: clear Hw0'; cbn [app Binary64.py_max_by Binary64.max_from].
  all: repeat match goal with
         | |- context [if flt ?a ?b then _ else _] => destruct (flt a b)
         end.
  all: cbn [Binary64.recommendation Binary64.recommended_odds
            Binary64.o_odds Binary64.o_recommendation].
  all: first [ exists home; cbn [outcome_key outcome_label]; fold oh;
               split; [assumption | split; reflexivity]
             | exists away; cbn [outcome_key outcome_label]; fold oa;
               split; [assumption | split; reflexivity]
             | exists draw; cbn [outcome_key outcome_label]; fold od;
               split; [assumption | split; reflexivity] ].
Qed.

(** C3: [_calculate_enhanced_confidence] applies [int()] to the float
    [base_confidence] = probability x 100 plus the adjustments, and clamps
    afterwards.  When that float is finite, the result is its truncation
    clamped to [0, 100], as for the specification's example (odds 100,
    probability 0.99).  When it is an infinity, as for the probability
    1e307, the call raises [OverflowError]; when it is NaN it raises
    [ValueError] and returns no confidence at all.  [analyze_match] runs
    into the latter on a match whose home price is 1e-320: 1 / price is
    an infinity, so the home probability is inf / inf = NaN. *)
Theorem enhanced_confidence_int_before_clamp :
  (forall analysis odds is_value,
     match Binary64.base_confidence analysis is_value with
     | S754_nan =>
         _calculate_enhanced_confidence analysis odds is_value
         = Raise ValueError
     | S754_infinity _ =>
         _calculate_enhanced_confidence analysis odds is_value
         = Raise OverflowError
     | s =>
         exists c,
           _calculate_enhanced_confidence analysis odds is_value = Ok c
           /\ c = clamp (py_int (exact s))
           /\ (0 <= c <= 100)%Z
     end)
  /\ _calculate_enhanced_confidence extreme_float_bet tie_odds true
     = Ok 100%Z
  /\ _calculate_enhanced_confidence huge_probability_bet tie_odds false
     = Raise OverflowError
  /\ _get_best_odds_from_match tiny_price_match = Some tiny_price_odds
  /\ Binary64.probability (match_best_bet tiny_price_match tiny_price_odds)
     = S754_nan
  /\ _calculate_enhanced_confidence
       (match_best_bet tiny_price_match tiny_price_odds)
       tiny_price_odds false
     = Raise ValueError
  /\ analyze_match default_analyzer tiny_price_match = Raise ValueError.
Proof.
  split; [exact enhanced_confidence_cases |].
  repeat split; vm_compute; reflexivity.
Qed.

(** What [analyze_match] does, case by case. *)
Lemma analyze_match_cases (self : BettingAnalyzer) (m : match_record) :
  match _get_best_odds_from_match m with
  | None =>
      analyze_match self m
      = Ok {[ "match" := VStr (m_home_team m +:+ " vs " +:+ m_away_team m);
              "recommendation" := VStr "Aucune cote disponible";
              "confidence" := VInt 0;
              "value_bet" := VBool false;
              "risk_level" := VStr "Unknown";
              "match_time" := VStr (default ""%string (m_commence_time m)) ]}
  | Some odds =>
      let bet := match_best_bet m odds in
      exists w is_value,
        has_odds odds w = true
        /\ Binary64.recommended_odds bet = odds_get odds (outcome_key w) 0
        /\ Binary64._is_value_bet self odds (Binary64._calculate_probabilities odds)
           = Ok is_value
        /\ match Binary64.base_confidence bet is_value with
           | S754_nan => analyze_match self m = Raise ValueError
           | S754_infinity _ =>
               analyze_match self m = Raise OverflowError
           | s =>
               exists r,
                 analyze_match self m = Ok r
                 /\ r !! "match"
                    = Some (VStr (m_home_team m +:+ " vs " +:+ m_away_team m))
                 /\ r !! "confidence" = Some (VInt (clamp (py_int (exact s))))
                 /\ r !! "value_bet" = Some (VBool is_value)
                 /\ r !! "recommendation"
                    = Some (VStr (outcome_label (m_home_team m) (m_away_team m) w
                                  +:+ " (cote: "
                                  +:+ format_2f (odds_get odds (outcome_key w) 0)
                                  +:+ ")"))
           end
  end.
Proof.
  unfold analyze_match.
  destruct (_get_best_odds_from_match m) as [odds |] eqn:E; [| reflexivity].
  cbv zeta.
  destruct (b64_is_value_bet_returns self odds
              (Binary64._calculate_probabilities odds)
              (best_odds_three_keys m odds E)) as [b Hb].
  destruct (b64_best_bet_is_an_option odds (Binary64._calculate_probabilities odds)
              (m_home_team m) (m_away_team m)) as (w & Hw & Hl & Ho).
  { exists home. now apply get_best_odds_Some in E as [_ ?]. }
  exists w, b. fold (match_best_bet m odds) in *.
  split; [exact Hw |]. split; [exact Ho |]. split; [exact Hb |].
  rewrite Hb. unfold _calculate_enhanced_confidence.
  destruct (Binary64.base_confidence (match_best_bet m odds) b)
    eqn:Es; cbn [float_int]; try reflexivity.
  all: eexists; (split; [reflexivity |]).
  all: split; [lookup_literal |]; split; [lookup_literal |];
       split; [lookup_literal |]; rewrite Hl, Ho; lookup_literal.
Qed.

(** X7: what [analyze_match] does, in binary64.  Without usable odds it
    returns the record with confidence 0, no value bet, the text 'Aucune
    cote disponible' and the risk level 'Unknown'.  With odds, the value
    test returns a flag and the selected bet is one of the outcomes with
    odds above 0; then, when the base confidence of that bet is a finite
    float, the call returns a record with the match label, the truncated
    and clamped confidence, the flag, and the text made of the outcome's
    label and its odds with two decimals; when it is an infinity the call
    raises [OverflowError], and when it is NaN, [ValueError].  It raises
    nothing else. *)
Theorem analyze_match_outcome (self : BettingAnalyzer) (m : match_record) :
  match _get_best_odds_from_match m with
  | None =>
      analyze_match self m
      = Ok {[ "match" := VStr (m_home_team m +:+ " vs " +:+ m_away_team m);
              "recommendation" := VStr "Aucune cote disponible";
              "confidence" := VInt 0;
              "value_bet" := VBool false;
              "risk_level" := VStr "Unknown";
              "match_time" := VStr (default ""%string (m_commence_time m)) ]}
  | Some odds =>
      let bet := match_best_bet m odds in
      exists w is_value,
        has_odds odds w = true
        /\ Binary64.recommended_odds bet = odds_get odds (outcome_key w) 0
        /\ Binary64._is_value_bet self odds (Binary64._calculate_probabilities odds)
           = Ok is_value
        /\ match Binary64.base_confidence bet is_value with
           | S754_nan => analyze_match self m = Raise ValueError
           | S754_infinity _ =>
               analyze_match self m = Raise OverflowError
           | s =>
               exists r,
                 analyze_match self m = Ok r
                 /\ r !! "match"
                    = Some (VStr (m_home_team m +:+ " vs " +:+ m_away_team m))
                 /\ r !! "confidence" = Some (VInt (clamp (py_int (exact s))))
                 /\ r !! "value_bet" = Some (VBool is_value)
                 /\ r !! "recommendation"
                    = Some (VStr (outcome_label (m_home_team m) (m_away_team m) w
                                  +:+ " (cote: "
                                  +:+ format_2f (odds_get odds (outcome_key w) 0)
                                  +:+ ")"))
           end
  end.
Proof. exact (analyze_match_cases self m). Qed.

(** The two readings of the pipeline on the prices 3.60, 3.00 and 2.00.
    Over the rationals the value score of every outcome is
    1 / (1/3.6 + 1/3 + 1/2) - 1 = -0.1, which is not below -0.1, and the
    confidence is 45 + 10 = 55.  In binary64 the probability of the
    selected bet times 100 is just below 45 and its value score is just
    below -0.1, so 10 is taken off and [int()] gives 44, as in Python. *)
Example readings_differ :
  exists r r',
    analyze_match default_analyzer ordinary_match = Ok r
    /\ r !! "confidence" = Some (VInt 44)
    /\ Exact.analyze_match default_analyzer ordinary_match = Ok r'
    /\ r' !! "confidence" = Some (VInt 55).
Proof.
  do 2 eexists. split; [vm_compute; reflexivity |].
  split; [vm_compute; reflexivity |].
  split; [vm_compute; reflexivity |]. vm_compute. reflexivity.
Qed.

(** X24: whenever [analyze_match] returns for a match with odds whose team
    names contain no opening parenthesis, the odds that the commands and
    the combination builder read back from the recommendation text are
    the odds of the bet selected in binary64, rounded to two decimals. *)
Theorem analysis_odds_read_back (self : BettingAnalyzer) (m : match_record)
    (odds : gmap string Q) (r : gmap string value) :
  _get_best_odds_from_match m = Some odds ->
  plain_names m ->
  analyze_match self m = Ok r ->
  exists text x,
    r !! "recommendation" = Some text
    /\ extract_odds decimal_float text = Ok x
    /\ x == py_round2 (Binary64.recommended_odds (match_best_bet m odds)).
Proof.
  intros Eo [Hh Ha] E. pose proof (analyze_match_cases self m) as C.
  rewrite Eo in C. cbv zeta in C. destruct C as (w & b & Hw & Ho & _ & C).
  destruct (extract_written_odds
              (outcome_label (m_home_team m) (m_away_team m) w)
              (odds_get odds (outcome_key w) 0)) as (x & Hx & Ex).
  { now apply outcome_label_no_paren. }
  { unfold has_odds in Hw. apply Qlt_bool_iff in Hw. lra. }
  destruct (Binary64.base_confidence (match_best_bet m odds) b);
    try (rewrite C in E; discriminate E);
    destruct C as (r' & Er & _ & _ & _ & Ht);
    rewrite E in Er; injection Er as <-;
    do 2 eexists; (split; [exact Ht |]); (split; [exact Hx |]);
    now rewrite Ho.
Qed.

(** ** The analyses the commands collect *)

Lemma lookup_objects (rs : list (gmap string value)) (i : nat)
    (r : gmap string value) :
  rs !! i = Some r -> deref (objects rs) i = r.
Proof.
  intros H. unfold deref, objects. now rewrite lookup_map_seq_0, H.
Qed.

Lemma elem_of_addresses (rs : list (gmap string value)) (i : nat) :
  i ∈ addresses rs -> exists r, rs !! i = Some r.
Proof.
  unfold addresses. rewrite elem_of_seq. intros [_ H].
  apply lookup_lt_is_Some. lia.
Qed.

(** Reading every address of the store gives the list back. *)
Lemma deref_addresses (rs : list (gmap string value)) :
  deref (objects rs) <$> addresses rs = rs.
Proof.
  apply list_eq. intros i. rewrite list_lookup_fmap. unfold addresses.
  destruct (rs !! i) as [r |] eqn:E.
  - rewrite lookup_seq_lt by (now apply lookup_lt_Some in E).
    cbn. f_equal. now apply lookup_objects.
  - rewrite lookup_seq_ge by (now apply lookup_ge_None in E). reflexivity.
Qed.

Lemma filter_fmap_swap {A B} (f : B -> bool) (g : A -> B) (l : list A) :
  g <$> List.filter (fun a => f (g a)) l = List.filter f (g <$> l).
Proof.
  induction l as [| a l IH]; [reflexivity |].
  cbn [List.filter fmap list_fmap]. destruct (f (g a)); cbn; now rewrite <- IH.
Qed.

Lemma Forall_filter_true {A} (f : A -> bool) (P : A -> Prop) (l : list A) :
  Forall (fun x => f x = true -> P x) l -> Forall P (List.filter f l).
Proof.
  induction 1 as [| x l Hx _ IH]; [constructor |].
  cbn [List.filter]. destruct (f x) eqn:E; [| exact IH].
  apply Forall_cons_2; [now apply Hx | exact IH].
Qed.

Lemma filter_all_true {A} (f : A -> bool) (l : list A) :
  Forall (fun x => f x = true) l -> List.filter f l = l.
Proof.
  induction 1 as [| x l Hx _ IH]; [reflexivity |].
  cbn [List.filter]. now rewrite Hx, IH.
Qed.

Lemma record_score_int (r : gmap string value) (c : Z) :
  r !! "confidence" = Some (VInt c) -> record_score r = inject_Z c.
Proof.
  intros H. unfold record_score, number_item, record_item. now rewrite H.
Qed.

(** What a record returned by [analyze_match] holds. *)
Lemma analysis_record (self : BettingAnalyzer) (m : match_record)
    (r : gmap string value) :
  analyze_match self m = Ok r ->
  is_Some (r !! "match")
  /\ (exists b, r !! "value_bet" = Some (VBool b))
  /\ ((_get_best_odds_from_match m = None
       /\ r !! "confidence" = Some (VInt 0)
       /\ r !! "recommendation" = Some (VStr "Aucune cote disponible"))
      \/ exists odds c w,
           _get_best_odds_from_match m = Some odds
           /\ r !! "confidence" = Some (VInt c) /\ (0 <= c <= 100)%Z
           /\ has_odds odds w = true
           /\ Binary64.recommended_odds (match_best_bet m odds)
              = odds_get odds (outcome_key w) 0
           /\ r !! "recommendation"
              = Some (VStr (outcome_label (m_home_team m) (m_away_team m) w
                            +:+ " (cote: "
                            +:+ format_2f (odds_get odds (outcome_key w) 0)
                            +:+ ")"))).
Proof.
  intros E. pose proof (analyze_match_cases self m) as C.
  destruct (_get_best_odds_from_match m) as [odds |].
  - cbv zeta in C. destruct C as (w & b & Hw & Ho & _ & C).
    destruct (Binary64.base_confidence (match_best_bet m odds) b) eqn:Es;
      try (rewrite C in E; discriminate E);
      destruct C as (r' & Er & Hm & Hc & Hv & Ht);
      rewrite E in Er; injection Er as <-;
      (split; [eauto |]); (split; [eauto |]); right;
      exists odds; eexists; exists w;
      (split; [reflexivity |]); (split; [exact Hc |]);
      (split; [unfold clamp; lia |]); auto.
  - rewrite C in E. injection E as <-.
    split; [eexists; lookup_literal |].
    split; [eexists; lookup_literal |].
    left. split; [reflexivity |]. split; lookup_literal.
Qed.

Lemma analysis_score (self : BettingAnalyzer) (m : match_record)
    (r : gmap string value) :
  analyze_match self m = Ok r ->
  exists c, r !! "confidence" = Some (VInt c) /\ (0 <= c <= 100)%Z.
Proof.
  intros E.
  destruct (analysis_record self m r E)
    as (_ & _ & [(_ & Hc & _) | (odds & c & w & _ & Hc & Hb & _)]).
  - exists 0%Z. split; [exact Hc | lia].
  - now exists c.
Qed.

Lemma analysis_reaches (self : BettingAnalyzer) (m : match_record)
    (r : gmap string value) (bound : Z) :
  analyze_match self m = Ok r ->
  reaches r bound = Ok (Qle_bool (inject_Z bound) (record_score r)).
Proof.
  intros E. destruct (analysis_score self m r E) as (c & Hc & _).
  unfold reaches, record_item. rewrite (record_score_int r c Hc), Hc.
  reflexivity.
Qed.

(** An analysis with a confidence above 0 of a match with plain team
    names: its recommendation reads back as the odds of the selected bet,
    rounded to two decimals. *)
Lemma analysis_parses (self : BettingAnalyzer) (m : match_record)
    (r : gmap string value) :
  plain_names m -> analyze_match self m = Ok r -> 0 < record_score r ->
  exists odds c text x,
    _get_best_odds_from_match m = Some odds
    /\ r !! "confidence" = Some (VInt c)
    /\ r !! "recommendation" = Some text
    /\ extract_odds decimal_float text = Ok x
    /\ x == py_round2 (Binary64.recommended_odds (match_best_bet m odds)).
Proof.
  intros [Hh Ha] E Hpos.
  destruct (analysis_record self m r E)
    as (_ & _ & [(_ & Hc & _) | (odds & c & w & Eo & Hc & _ & Hw & Ho & Ht)]).
  - rewrite (record_score_int r 0 Hc) in Hpos. now apply Qlt_irrefl in Hpos.
  - destruct (extract_written_odds
                (outcome_label (m_home_team m) (m_away_team m) w)
                (odds_get odds (outcome_key w) 0)) as (x & Hx & Ex).
    { now apply outcome_label_no_paren. }
    { unfold has_odds in Hw. apply Qlt_bool_iff in Hw. lra. }
    exists odds, c. do 2 eexists. split; [exact Eo |]. split; [exact Hc |].
    split; [exact Ht |]. split; [exact Hx |]. now rewrite Ho.
Qed.

Lemma combinable_objects (rs : list (gmap string value)) (i : nat)
    (r : gmap string value) :
  rs !! i = Some r ->
  combinable decimal_float (objects [r]) 0 ->
  combinable decimal_float (objects rs) i.
Proof.
  intros H. unfold combinable, numeric_confidence, read_number.
  now rewrite (lookup_objects [r] 0 r eq_refl), (lookup_objects rs i r H).
Qed.

(** Such an analysis has what a leg needs, once it is in a store. *)
Lemma analysis_combinable (self : BettingAnalyzer) (m : match_record)
    (r : gmap string value) :
  plain_names m -> analyze_match self m = Ok r -> 0 < record_score r ->
  combinable decimal_float (objects [r]) 0 /\ is_Some (r !! "value_bet").
Proof.
  intros Hp E Hpos.
  destruct (analysis_parses self m r Hp E Hpos)
    as (odds & c & text & x & _ & Hc & Ht & Hx & _).
  destruct (analysis_record self m r E) as (Hm & [b Hb] & _).
  split; [| eauto].
  unfold combinable, numeric_confidence, read_number.
  rewrite (lookup_objects [r] 0 r eq_refl), Hc. cbn [as_number].
  split; [eauto |]. split; [eauto | exact Hm].
Qed.

(** The analyses of a list, each with a confidence above 0, as objects
    of the store. *)
Lemma combinable_addresses (rs : list (gmap string value)) :
  Forall (fun r => combinable decimal_float (objects [r]) 0
                   /\ is_Some (r !! "value_bet")) rs ->
  Forall (fun i => combinable decimal_float (objects rs) i
                   /\ is_Some (deref (objects rs) i !! "value_bet"))
    (addresses rs).
Proof.
  intros H. apply Forall_forall. intros i Hi.
  destruct (elem_of_addresses rs i Hi) as [r Hr].
  destruct (Forall_lookup_1 _ _ _ _ H Hr) as [C V].
  rewrite (lookup_objects rs i r Hr).
  split; [now apply (combinable_objects rs i r) | exact V].
Qed.

(** The test of the by-level command on an analysis, and what it means
    for the match. *)
Lemma analysis_suitable (self : BettingAnalyzer) (info : tier_info)
    (m : match_record) (r : gmap string value) :
  (0 < info_min_confidence info)%Z -> plain_names m ->
  analyze_match self m = Ok r ->
  keep_for_level decimal_float info r = Ok (suitable info r)
  /\ (suitable info r = true <-> tier_analysis info m r).
Proof.
  intros Hmin Hp E. unfold keep_for_level, suitable.
  rewrite (analysis_reaches self m r _ E).
  destruct (Qle_bool (inject_Z (info_min_confidence info)) (record_score r))
    eqn:B.
  - apply Qle_bool_iff in B.
    assert (Hpos : 0 < record_score r).
    { apply Qlt_le_trans with (inject_Z (info_min_confidence info));
        [| exact B].
      change 0 with (inject_Z 0). now rewrite <- Zlt_Qlt. }
    destruct (analysis_parses self m r Hp E Hpos)
      as (odds & c & text & x & Eo & Hc & Ht & Hx & Ex).
    unfold record_item, record_odds. rewrite Ht, Hx. cbn [andb].
    split; [reflexivity |].
    rewrite (record_score_int r c Hc), <- Zle_Qle in B.
    rewrite Qle_bool_iff. split.
    + intros L. exists odds, c. rewrite <- Ex. auto.
    + intros (odds' & c' & Eo' & _ & _ & L).
      rewrite Eo in Eo'. injection Eo' as <-. now rewrite Ex.
  - cbn [andb]. split; [reflexivity |].
    split; [discriminate |].
    intros (odds & c & _ & Hc & L & _). exfalso.
    apply not_true_iff_false in B. apply B, Qle_bool_iff.
    now rewrite (record_score_int r c Hc), <- Zle_Qle.
Qed.

(** The collecting loop stops with the first analysis that raises. *)
Lemma collect_analyses_raises (self : BettingAnalyzer)
    (keep : gmap string value -> result bool) (ms : list match_record)
    (acc : list (gmap string value)) :
  Exists (fun m => exists e, analyze_match self m = Raise e) ms ->
  exists e, collect_analyses self keep ms acc = Raise e.
Proof.
  intros H. revert acc. induction H as [m ms [e He] | m ms _ IH]; intros acc.
  - exists e. cbn [collect_analyses]. now rewrite He.
  - cbn [collect_analyses].
    destruct (analyze_match self m) as [a | e]; [| eauto].
    destruct (keep a) as [[|] | e]; eauto.
Qed.

(** When every analysis returns and the test [keep] answers [f] on each,
    the loop appends the analyses on which [f] holds, in the order of the
    matches. *)
Lemma collect_analyses_returns (self : BettingAnalyzer)
    (keep : gmap string value -> result bool)
    (f : gmap string value -> bool) (ms : list match_record)
    (rs acc : list (gmap string value)) :
  Forall2 (fun m r => analyze_match self m = Ok r /\ keep r = Ok (f r))
    ms rs ->
  collect_analyses self keep ms acc = Ok (acc ++ List.filter f rs).
Proof.
  intros H. revert acc. induction H as [| m r ms rs [Er Ek] _ IH]; intros acc.
  - cbn. now rewrite app_nil_r.
  - cbn [collect_analyses List.filter]. rewrite Er, Ek.
    destruct (f r); [| apply IH].
    rewrite IH, <- app_assoc. reflexivity.
Qed.

Lemma Forall2_analyses (self : BettingAnalyzer)
    (P : match_record -> gmap string value -> Prop)
    (ms : list match_record) (rs : list (gmap string value)) :
  Forall plain_names ms ->
  (forall m r, plain_names m -> analyze_match self m = Ok r -> P m r) ->
  Forall2 (fun m r => analyze_match self m = Ok r) ms rs ->
  Forall2 (fun m r => analyze_match self m = Ok r /\ P m r) ms rs.
Proof.
  intros Hp HP H. induction H as [| m r ms rs E _ IH]; [constructor |].
  apply Forall_cons in Hp as [Hm Hp].
  constructor; [split; [exact E | now apply HP] | now apply IH].
Qed.

Lemma level_info_tiers (level : string) (info : tier_info) :
  level_info !! level = Some info ->
  known_level level
  /\ (0 < info_min_confidence info)%Z
  /\ min_confidence (default moyen_config (level_configs !! level))
     = info_min_confidence info.
Proof.
  unfold level_info, known_level. intros H.
  destruct (decide (level = "SAFE"%string)) as [-> | N1].
  { rewrite lookup_insert_eq in H. injection H as <-. cbn.
    split; [auto | split; [lia | reflexivity]]. }
  rewrite lookup_insert_ne in H by congruence.
  destruct (decide (level = "MOYEN"%string)) as [-> | N2].
  { rewrite lookup_insert_eq in H. injection H as <-. cbn.
    split; [auto | split; [lia | reflexivity]]. }
  rewrite lookup_insert_ne in H by congruence.
  destruct (decide (level = "HIGH_RISK"%string)) as [-> | N3].
  { rewrite lookup_singleton_eq in H. injection H as <-. cbn.
    split; [auto | split; [lia | reflexivity]]. }
  rewrite lookup_singleton_ne in H by congruence. discriminate.
Qed.

Lemma qualifying_all (h : heap) (bound : Z) (l : list loc) :
  Forall (fun i => Qle_bool (inject_Z bound) (confidence h i) = true) l ->
  qualifying h bound l = l.
Proof. apply filter_all_true. Qed.

(** Analyses that all reach [bound] > 0, once in the store. *)
Lemma kept_in_store (self : BettingAnalyzer) (f : gmap string value -> bool)
    (bound : Z) (ms : list match_record) (rs : list (gmap string value)) :
  (0 < bound)%Z ->
  (forall r, f r = true -> Qle_bool (inject_Z bound) (record_score r) = true) ->
  Forall plain_names ms ->
  Forall2 (fun m r => analyze_match self m = Ok r) ms rs ->
  let kept := List.filter f rs in
  Forall (fun i => combinable decimal_float (objects kept) i
                   /\ is_Some (deref (objects kept) i !! "value_bet"))
    (addresses kept)
  /\ qualifying (objects kept) bound (addresses kept) = addresses kept
  /\ len (addresses kept) = len kept.
Proof.
  intros Hb Hf Hp H2 kept.
  assert (Hk : Forall (fun r => Qle_bool (inject_Z bound) (record_score r) = true
                               /\ combinable decimal_float (objects [r]) 0
                               /\ is_Some (r !! "value_bet")) kept).
  { apply Forall_filter_true.
    apply (Forall2_Forall_r _ _ _ _ H2).
    eapply Forall_impl; [exact Hp |]. intros m Pm r E Fr.
    pose proof (Hf r Fr) as B. split; [exact B |].
    apply (analysis_combinable self m r Pm E).
    apply Qle_bool_iff in B.
    apply Qlt_le_trans with (inject_Z bound); [| exact B].
    change 0 with (inject_Z 0). now rewrite <- Zlt_Qlt. }
  split; [| split].
  - apply combinable_addresses. eapply Forall_impl; [exact Hk |].
    now intros r (_ & ? & ?).
  - apply qualifying_all. apply Forall_forall. intros i Hi.
    destruct (elem_of_addresses kept i Hi) as [r Hr].
    rewrite confidence_deref, (lookup_objects kept i r Hr).
    now destruct (Forall_lookup_1 _ _ _ _ Hk Hr).
  - unfold len, addresses. now rewrite length_seq.
Qed.

(** A ranking of the addresses is a ranking of the analyses. *)
Lemma ranked_records (rs : list (gmap string value)) (ranked : list loc)
    (g : loc -> Q) (f : gmap string value -> Q) :
  (forall i, g i = f (deref (objects rs) i)) ->
  ranked ≡ₚ addresses rs ->
  StronglySorted (fun a b => g b <= g a) ranked ->
  deref (objects rs) <$> ranked ≡ₚ rs
  /\ StronglySorted (fun a b => f b <= f a) (deref (objects rs) <$> ranked).
Proof.
  intros E P S. split.
  - rewrite P. now rewrite deref_addresses.
  - apply (StronglySorted_fmap (deref (objects rs))
             (fun a b => g b <= g a) (fun a b => f b <= f a)); [| exact S].
    intros x y. now rewrite !E.
Qed.

(** ** The combination commands *)

(** X20: what the by-level command answers, for a known tier and matches
    with plain team names.  Without matches it says so.  When the
    analysis of some match raises, it sends the error message.  When
    every analysis returns, the analyses it keeps are those whose
    confidence reaches the tier's minimum and whose written odds do not
    exceed the tier's maximum, which for the match means that it has
    odds, and that the odds of the selected bet, rounded to two decimals,
    do not exceed the maximum.  With fewer than three analyses kept it
    reports their number; with three or more it shows one combination,
    named after the tier, followed by the advice: the combination
    [_create_combination] makes of the first [combo_size] of a ranking of
    all the analyses kept, by descending confidence, or by descending
    odds for HIGH_RISK. *)
Theorem by_level_within_tier (self : BettingAnalyzer) (level : string)
    (info : tier_info) (matches_data : list (string * list match_record)) :
  level_info !! level = Some info ->
  Forall plain_names (matches_of matches_data) ->
  let ms := matches_of matches_data in
  let replies :=
    _generate_combinations_by_level decimal_float self level matches_data in
  let size :=
    Z.to_nat (combo_size (default moyen_config (level_configs !! level))) in
  (matches_data = [] -> replies = Ok [Progress; NoMatch])
  /\ (matches_data <> [] ->
      (Exists (fun m => exists e, analyze_match self m = Raise e) ms ->
       replies = Ok [Progress; Failure])
      /\ forall rs,
           Forall2 (fun m r => analyze_match self m = Ok r) ms rs ->
           let kept := List.filter (suitable info) rs in
           Forall2 (fun m r => suitable info r = true <-> tier_analysis info m r)
             ms rs
           /\ ((length kept < 3)%nat ->
               replies = Ok [Progress; TooFew (Some (len kept))])
           /\ ((3 <= length kept)%nat ->
               exists name ranked,
                 combo_type_names !! level = Some name
                 /\ replies
                    = Ok [Progress;
                          Shown (combination_from decimal_float name
                                   (take size ranked));
                          Advice]
                 /\ ranked ≡ₚ kept
                 /\ (level <> "HIGH_RISK"%string ->
                     StronglySorted
                       (fun a b => record_score b <= record_score a) ranked)
                 /\ (level = "HIGH_RISK"%string ->
                     StronglySorted
                       (fun a b => record_odds decimal_float b
                                   <= record_odds decimal_float a) ranked))).
Proof.
  intros Hl Hp ms replies size.
  destruct (level_info_tiers level info Hl) as (Hk & Hmin & Emin).
  subst replies. unfold _generate_combinations_by_level. rewrite Hl.
  split; [now intros -> |]. intros Hne.
  destruct matches_data as [| sd rest]; [congruence |]. clear Hne.
  fold ms. split.
  { intros Hx.
    destruct (collect_analyses_raises self (keep_for_level decimal_float info)
                ms [] Hx) as [e He].
    now rewrite He. }
  intros rs H2. set (kept := List.filter (suitable info) rs).
  pose proof (Forall2_analyses self
                (fun m r => keep_for_level decimal_float info r
                            = Ok (suitable info r)
                            /\ (suitable info r = true <-> tier_analysis info m r))
                ms rs Hp
                (fun m r Pm E => analysis_suitable self info m r Hmin Pm E) H2)
    as H3.
  split.
  { eapply Forall2_impl; [exact H3 |]. now intros m r (_ & _ & ?). }
  rewrite (collect_analyses_returns self _ (suitable info) ms rs [])
    by (eapply Forall2_impl; [exact H3 |]; now intros m r (? & ? & _)).
  cbn [app]. fold kept.
  destruct (kept_in_store self (suitable info) (info_min_confidence info)
              ms rs Hmin) as (C & Q & La); [| exact Hp | exact H2 |].
  { intros r Hr. unfold suitable in Hr. now apply andb_true_iff in Hr as [? _]. }
  fold kept in C, Q, La.
  split.
  { intros Hlt. rewrite (proj2 (Z.ltb_lt _ _)) by (unfold len; lia).
    reflexivity. }
  intros Hge. rewrite (proj2 (Z.ltb_ge _ _)) by (unfold len; lia).
  destruct (tier_combination_ranked decimal_float (addresses kept) level
              (objects kept) Hk)
    as (name & h' & ranked & N & G & _ & P & O1 & O2).
  { rewrite La. unfold len. lia. }
  { eapply Forall_impl; [exact C |]. now intros i [? _]. }
  destruct (tier_candidates_spec (objects kept) level (addresses kept) Hk)
    as (_ & _ & Hf3).
  { rewrite La. unfold len. lia. }
  rewrite Emin, Q in Hf3. rewrite Hf3 in P
    by (unfold addresses; rewrite length_seq; lia).
  rewrite G. exists name, (deref (objects kept) <$> ranked).
  split; [exact N |]. split; [now rewrite fmap_take |].
  split; [rewrite P; now rewrite deref_addresses |].
  split.
  - intros Hn.
    apply (ranked_records kept ranked (confidence (objects kept)) record_score
             (confidence_deref (objects kept)) P (O1 Hn)).
  - intros Hr.
    apply (ranked_records kept ranked (odds_of decimal_float (objects kept))
             (record_odds decimal_float)
             (odds_of_deref decimal_float (objects kept)) P (O2 Hr)).
Qed.

(** X21: what the command for all combinations answers, for matches with
    plain team names and a shuffle that only rearranges.  Without matches
    it says so.  When the analysis of some match raises, it sends the
    error message.  When every analysis returns, it keeps the analyses
    with a confidence of at least 50: with fewer than three it reports
    too few reliable bets; with three or more it shows the combination of
    the three most confident, then, exactly when three of the analyses
    kept are value bets, the combination of the first three of those,
    then the combination of the first three of the shuffled analyses, and
    last the advice. *)
Theorem combinations_command_reliable (shuffle : list loc -> list loc)
    (self : BettingAnalyzer)
    (matches_data : list (string * list match_record)) :
  (forall l, shuffle l ≡ₚ l) ->
  Forall plain_names (matches_of matches_data) ->
  let ms := matches_of matches_data in
  let replies :=
    _generate_combinations decimal_float shuffle self matches_data in
  (matches_data = [] -> replies = [Progress; NoMatch])
  /\ (matches_data <> [] ->
      (Exists (fun m => exists e, analyze_match self m = Raise e) ms ->
       replies = [Progress; Failure])
      /\ forall rs,
           Forall2 (fun m r => analyze_match self m = Ok r) ms rs ->
           let kept := List.filter reliable rs in
           let value_bets := List.filter record_value kept in
           ((length kept < 3)%nat -> replies = [Progress; TooFew None])
           /\ ((3 <= length kept)%nat ->
               exists ranked shuffled,
                 ranked ≡ₚ kept
                 /\ StronglySorted
                      (fun a b => record_score b <= record_score a) ranked
                 /\ shuffled ≡ₚ kept
                 /\ replies
                    = Progress
                      :: Shown (combination_from decimal_float "Combiné Sûr"
                                  (take 3 ranked))
                      :: (if (3 <=? length value_bets)%nat
                          then [Shown (combination_from decimal_float
                                         "Combiné Value" (take 3 value_bets))]
                          else [])
                      ++ [Shown (combination_from decimal_float "Combiné Mixte"
                                   (take 3 shuffled));
                          Advice])).
Proof.
  intros Hsh Hp ms replies. subst replies. unfold _generate_combinations.
  split; [now intros -> |]. intros Hne.
  destruct matches_data as [| sd rest]; [congruence |]. clear Hne.
  fold ms. split.
  { intros Hx.
    destruct (collect_analyses_raises self (fun a => reaches a 50) ms [] Hx)
      as [e He].
    now rewrite He. }
  intros rs H2. set (kept := List.filter reliable rs).
  set (value_bets := List.filter record_value kept).
  rewrite (collect_analyses_returns self _ reliable ms rs []).
  2: { eapply Forall2_impl; [exact H2 |]. intros m r E.
       split; [exact E | now apply (analysis_reaches self m)]. }
  cbn [app]. fold kept.
  destruct (kept_in_store self reliable 50 ms rs eq_refl) as (C & Q & La);
    [| exact Hp | exact H2 |].
  { now intros r Hr. }
  fold kept in C, Q, La.
  split.
  { intros Hlt. now rewrite (proj2 (Z.ltb_lt _ _)) by (unfold len; lia). }
  intros Hge. rewrite (proj2 (Z.ltb_ge _ _)) by (unfold len; lia).
  pose proof (generate_combinations_exact decimal_float shuffle
                (addresses kept) 3 (objects kept) Hsh) as G.
  cbv zeta in G. rewrite Q in G. rewrite G; clear G.
  2: { eapply Forall_impl; [exact C |]. now intros i [? _]. }
  2: { eapply Forall_impl; [exact C |]. now intros i [_ ?]. }
  2: { rewrite La. unfold len. lia. }
  set (h := objects kept).
  set (sorted := sort_by_key true
                   (zip (confidence h <$> addresses kept) (addresses kept))).
  assert (Ps : sorted ≡ₚ addresses kept) by apply sorted_by_key_perm.
  assert (Ss : StronglySorted (fun a b => confidence h b <= confidence h a)
                 sorted) by apply sort_by_key_descending.
  assert (Ev : deref h <$> List.filter (value_flag h) (addresses kept)
               = value_bets).
  { unfold value_bets. rewrite <- (deref_addresses kept) at 2.
    apply (filter_fmap_swap record_value (deref h)). }
  assert (Lv : length (List.filter (value_flag h) (addresses kept))
               = length value_bets) by (now rewrite <- Ev, length_fmap).
  exists (deref h <$> sorted), (deref h <$> shuffle (addresses kept)).
  split; [rewrite Ps; unfold h; now rewrite deref_addresses |].
  split.
  { apply (ranked_records kept sorted (confidence h) record_score
             (confidence_deref h) Ps Ss). }
  split; [rewrite (Hsh (addresses kept)); unfold h; now rewrite deref_addresses |].
  change (Z.to_nat 3) with 3%nat. rewrite Lv, !fmap_take, Ev.
  destruct (3 <=? length value_bets)%nat; reflexivity.
Qed.

(** ** The analysis command *)

Lemma seqZ_snoc (k : nat) :
  seqZ 0 (Z.of_nat (S k)) = seqZ 0 (Z.of_nat k) ++ [Z.of_nat k].
Proof.
  replace (Z.of_nat (S k)) with (Z.of_nat k + 1)%Z by lia.
  rewrite seqZ_app by lia. reflexivity.
Qed.

Lemma analyses_chunk_eq {A} (l : list A) (k : nat) :
  analyses_chunk l (Z.of_nat k) = drop (10 * k) (take (10 * S k) l).
Proof.
  unfold analyses_chunk, slice_between, len. cbv zeta.
  replace (Z.to_nat (Z.of_nat k * 10)) with (10 * k)%nat by lia.
  replace (Z.to_nat (Z.min ((Z.of_nat k + 1) * 10) (Z.of_nat (length l))))
    with ((10 * S k) `min` length l)%nat by lia.
  now rewrite take_min_length.
Qed.

(** The first [k] messages hold the first [10 k] elements. *)
Lemma chunk_prefix {A} (l : list A) (k : nat) :
  concat (analyses_chunk l <$> seqZ 0 (Z.of_nat k)) = take (10 * k) l.
Proof.
  induction k as [| k IH]; [reflexivity |].
  rewrite seqZ_snoc, fmap_app, concat_app, IH. cbn [fmap list_fmap concat].
  rewrite app_nil_r, analyses_chunk_eq.
  replace (take (10 * k) l) with (take (10 * k) (take (10 * S k) l))
    by (rewrite take_take; f_equal; lia).
  apply take_drop.
Qed.

Lemma chunks_concat {A} (l : list A) :
  concat (analyses_chunk l <$> seqZ 0 (total_messages l)) = l.
Proof.
  assert (E : total_messages l = Z.of_nat (Z.to_nat (total_messages l))).
  { unfold total_messages, len. rewrite Z2Nat.id; [reflexivity |].
    apply Z.div_pos; lia. }
  rewrite E, chunk_prefix. apply take_ge.
  unfold total_messages, len.
  pose proof (Z.div_mod (Z.of_nat (length l) + 10 - 1) 10 ltac:(lia)).
  pose proof (Z.mod_pos_bound (Z.of_nat (length l) + 10 - 1) 10 ltac:(lia)).
  assert (0 <= (Z.of_nat (length l) + 10 - 1) / 10)%Z by (apply Z.div_pos; lia).
  lia.
Qed.

Lemma chunk_sizes {A} (l : list A) :
  Forall (fun c => (1 <= length c <= 10)%nat)
    (analyses_chunk l <$> seqZ 0 (total_messages l)).
Proof.
  apply Forall_fmap, Forall_forall. intros msg Hmsg.
  apply list_elem_of_lookup in Hmsg as [i Hi].
  apply lookup_seqZ in Hi as [-> Hi].
  change (1 <= length (analyses_chunk l (0 + Z.of_nat i)) <= 10)%nat.
  rewrite Z.add_0_l.
  rewrite analyses_chunk_eq, length_drop, length_take.
  unfold total_messages, len in Hi.
  pose proof (Z.div_mod (Z.of_nat (length l) + 10 - 1) 10 ltac:(lia)).
  pose proof (Z.mod_pos_bound (Z.of_nat (length l) + 10 - 1) 10 ltac:(lia)).
  lia.
Qed.

(** X22: the listing loop of [analysis_command] cuts the list into
    consecutive pieces of one to ten elements: put end to end, the
    pieces give the list back, nothing lost and nothing twice. *)
Theorem analysis_chunks_cover {A} (all_analyses : list A) :
  concat (analyses_chunk all_analyses <$> seqZ 0 (total_messages all_analyses))
  = all_analyses
  /\ Forall (fun c => (1 <= length c <= 10)%nat)
       (analyses_chunk all_analyses <$> seqZ 0 (total_messages all_analyses))
  /\ (len all_analyses <= 10 * total_messages all_analyses
      < len all_analyses + 10)%Z.
Proof.
  split; [apply chunks_concat |]. split; [apply chunk_sizes |].
  unfold total_messages, len.
  pose proof (Z.div_mod (Z.of_nat (length all_analyses) + 10 - 1) 10 ltac:(lia)).
  pose proof (Z.mod_pos_bound (Z.of_nat (length all_analyses) + 10 - 1) 10
                ltac:(lia)).
  lia.
Qed.

(** What [analyze_match] returns, whatever the team names. *)
(** What [analysis_command] needs of a record returned by
    [analyze_match]. *)
Lemma analysis_listable (self : BettingAnalyzer) (m : match_record)
    (r : gmap string value) :
  analyze_match self m = Ok r ->
  listable r /\ above_zero r = Ok (positive r).
Proof.
  intros E. destruct (analysis_score self m r E) as (c & Hc & _).
  destruct (analysis_record self m r E) as (Hm & [b Hb] & Hcase).
  assert (Ht : is_Some (r !! "recommendation"))
    by (destruct Hcase as [(_ & _ & ?) | (? & ? & ? & _ & _ & _ & _ & _ & ?)];
        eauto).
  unfold listable, above_zero, positive, record_score, number_item, record_item.
  rewrite Hc, Hb. cbn [result_bind as_number]. eauto 6.
Qed.

Lemma listable_score (a : gmap string value) :
  listable a -> number_item a "confidence" = Ok (record_score a).
Proof.
  intros [[c Hc] _]. unfold record_score. now rewrite Hc.
Qed.

Lemma traverse_scores (l : list (gmap string value)) :
  Forall listable l ->
  traverse (fun x => number_item x "confidence") l = Ok (record_score <$> l).
Proof.
  induction 1 as [| a l Ha _ IH]; [reflexivity |].
  cbn [traverse fmap list_fmap]. rewrite (listable_score a Ha), IH. reflexivity.
Qed.

Lemma count_where_filter (test : gmap string value -> result bool)
    (f : gmap string value -> bool) (l : list (gmap string value)) :
  Forall (fun a => test a = Ok (f a)) l ->
  count_where test l = Ok (Z.of_nat (length (List.filter f l))).
Proof.
  induction 1 as [| a l Ha _ IH]; [reflexivity |].
  cbn [count_where List.filter]. rewrite Ha, IH. cbn [result_bind].
  destruct (f a); [| reflexivity]. cbn [length]. f_equal. lia.
Qed.

(** Every confidence falls in exactly one of the three bands. *)
Lemma bands_partition (f : gmap string value -> Q) (l : list (gmap string value)) :
  (length (List.filter (fun a => Qle_bool 70 (f a)) l)
   + length (List.filter (fun a => Qle_bool 50 (f a) && Qlt_bool (f a) 70) l)
   + length (List.filter (fun a => Qlt_bool (f a) 50) l)
   = length l)%nat.
Proof.
  induction l as [| a l IH]; [reflexivity |]. cbn [List.filter].
  destruct (Qle_bool 70 (f a)) eqn:A; destruct (Qle_bool 50 (f a)) eqn:B;
    destruct (Qlt_bool (f a) 70) eqn:C; destruct (Qlt_bool (f a) 50) eqn:D;
    cbn [andb length]; try lia; exfalso;
    rewrite ?Qlt_bool_iff in *;
    repeat match goal with
      | H : Qle_bool _ _ = true |- _ => apply Qle_bool_iff in H
      | H : Qle_bool _ _ = false |- _ =>
          apply not_true_iff_false in H; rewrite Qle_bool_iff in H
      | H : Qlt_bool _ _ = false |- _ => apply Qlt_bool_false in H
      end; lra.
Qed.

(** The four counts, on analyses that can be listed. *)
Lemma statistics_counts (l : list (gmap string value)) :
  Forall listable l ->
  statistics l
  = Ok (len (List.filter (fun r => Qle_bool 70 (record_score r)) l),
        len (List.filter (fun r => Qle_bool 50 (record_score r)
                                   && Qlt_bool (record_score r) 70) l),
        len (List.filter (fun r => Qlt_bool (record_score r) 50) l),
        len (List.filter record_value l)).
Proof.
  intros H. unfold statistics.
  rewrite (count_where_filter _ (fun a => Qle_bool 70 (record_score a))).
  2: { eapply Forall_impl; [exact H |]. intros a Ha.
       now rewrite (listable_score a Ha). }
  cbn [result_bind].
  rewrite (count_where_filter _
             (fun a => Qle_bool 50 (record_score a) && Qlt_bool (record_score a) 70)).
  2: { eapply Forall_impl; [exact H |]. intros a Ha.
       now rewrite (listable_score a Ha). }
  cbn [result_bind].
  rewrite (count_where_filter _ (fun a => Qlt_bool (record_score a) 50)).
  2: { eapply Forall_impl; [exact H |]. intros a Ha.
       now rewrite (listable_score a Ha). }
  cbn [result_bind].
  rewrite (count_where_filter _ record_value).
  2: { eapply Forall_impl; [exact H |]. intros a (_ & [v Hv] & _).
       unfold record_item, record_value. now rewrite Hv. }
  reflexivity.
Qed.

Lemma filter_length_perm {A} (f : A -> bool) (l l' : list A) :
  l ≡ₚ l' -> len (List.filter f l) = len (List.filter f l').
Proof.
  unfold len. intros P. f_equal.
  induction P as [| x l l' _ IH | x y l | l1 l2 l3 _ IH1 _ IH2];
    cbn [List.filter]; [reflexivity | | | congruence].
  - destruct (f x); cbn [length]; now rewrite IH.
  - destruct (f x), (f y); reflexivity.
Qed.

Lemma listing_lines_spec (i : Z) (chunk : list (gmap string value)) :
  Forall listable chunk ->
  exists lines,
    listing_lines i chunk = Ok lines
    /\ Forall2 (fun a line => shows a line /\ line_score line = record_score a)
         chunk lines
    /\ line_number <$> lines = seqZ i (len chunk).
Proof.
  intros H. revert i. induction H as [| a l Ha _ IH]; intros i.
  - exists []. split; [reflexivity |]. split; [constructor | reflexivity].
  - destruct (IH (i + 1)%Z) as (lines & E & H2 & Hn).
    pose proof Ha as ([c Hc] & [v Hv] & [mv Hm] & [t Ht]).
    assert (Hshown : exists s, a !! "confidence" = Some s /\ as_number s = Ok c).
    { unfold number_item, record_item in Hc.
      destruct (a !! "confidence") as [s |]; [| discriminate]. eauto. }
    destruct Hshown as (s & Hs & Hsc).
    cbn [listing_lines]. unfold listing_line_of, record_item.
    rewrite Hc, Hv, Hm, Ht, Hs. cbn [result_bind]. rewrite E. cbn [result_bind].
    eexists. split; [reflexivity |]. split.
    + constructor; [| exact H2]. split.
      * unfold shows. cbn. auto.
      * unfold line_score, record_score. cbn. now rewrite Hc, Hsc.
    + cbn [fmap list_fmap line_number]. rewrite Hn. unfold len. cbn [length].
      rewrite (seqZ_cons i) by lia. f_equal. f_equal; lia.
Qed.

Lemma listing_lines_drop (a : nat) (i : Z) (l : list (gmap string value))
    (lines : list listing_line) :
  listing_lines i l = Ok lines ->
  listing_lines (i + Z.of_nat a) (drop a l) = Ok (drop a lines).
Proof.
  revert i l lines. induction a as [| a IH]; intros i l lines H.
  - now rewrite Z.add_0_r.
  - destruct l as [| x l].
    + cbn in H. injection H as <-. reflexivity.
    + cbn [listing_lines] in H.
      destruct (listing_line_of i x) as [ln | e]; [| discriminate].
      cbn [result_bind] in H.
      destruct (listing_lines (i + 1) l) as [lines' | e] eqn:E; [| discriminate].
      cbn [result_bind] in H. injection H as <-. cbn [drop].
      replace (i + Z.of_nat (S a))%Z with (i + 1 + Z.of_nat a)%Z by lia.
      now apply IH.
Qed.

Lemma listing_lines_take (b : nat) (i : Z) (l : list (gmap string value))
    (lines : list listing_line) :
  listing_lines i l = Ok lines ->
  listing_lines i (take b l) = Ok (take b lines).
Proof.
  revert i l lines. induction b as [| b IH]; intros i l lines H.
  - reflexivity.
  - destruct l as [| x l].
    + cbn in H. injection H as <-. reflexivity.
    + cbn [listing_lines] in H. cbn [take listing_lines].
      destruct (listing_line_of i x) as [ln | e]; [| discriminate].
      cbn [result_bind] in H |- *.
      destruct (listing_lines (i + 1) l) as [lines' | e] eqn:E; [| discriminate].
      cbn [result_bind] in H. injection H as <-.
      now rewrite (IH _ _ _ E).
Qed.

Lemma listing_lines_length (i : Z) (l : list (gmap string value))
    (lines : list listing_line) :
  listing_lines i l = Ok lines -> length lines = length l.
Proof.
  revert i lines. induction l as [| x l IH]; intros i lines H.
  - cbn in H. now injection H as <-.
  - cbn [listing_lines] in H.
    destruct (listing_line_of i x) as [ln | e]; [| discriminate].
    cbn [result_bind] in H.
    destruct (listing_lines (i + 1) l) as [lines' | e] eqn:E; [| discriminate].
    cbn [result_bind] in H. injection H as <-. cbn. f_equal. now apply (IH _ _ E).
Qed.

(** The listings hold the lines of the whole list, cut like the list. *)
Lemma send_listings_ok (all_analyses : list (gmap string value))
    (lines : list listing_line) (msg_nums : list Z) :
  listing_lines 1 all_analyses = Ok lines ->
  Forall (fun msg_num => (0 <= msg_num)%Z) msg_nums ->
  send_listings all_analyses msg_nums
  = ((fun msg_num =>
        Listing (msg_num * 10 + 1)
          (Z.min ((msg_num + 1) * 10) (len all_analyses))
          (len all_analyses) (analyses_chunk lines msg_num)) <$> msg_nums,
     None).
Proof.
  intros H. induction 1 as [| msg_num rest Hm _ IH]; [reflexivity |].
  cbn [send_listings fmap list_fmap]. rewrite IH.
  assert (E : listing_lines (msg_num * 10 + 1) (analyses_chunk all_analyses msg_num)
              = Ok (analyses_chunk lines msg_num)).
  { unfold analyses_chunk, slice_between, len.
    rewrite (listing_lines_length _ _ _ H).
    replace (msg_num * 10 + 1)%Z
      with (1 + Z.of_nat (Z.to_nat (msg_num * 10)))%Z by lia.
    apply listing_lines_drop. now apply listing_lines_take. }
  now rewrite E.
Qed.

Lemma listed_sent (n : Z) (lines : list listing_line) (msg_nums : list Z) :
  listed ((fun msg_num =>
             Listing (msg_num * 10 + 1) (Z.min ((msg_num + 1) * 10) n) n
               (analyses_chunk lines msg_num)) <$> msg_nums)
  = concat (analyses_chunk lines <$> msg_nums).
Proof.
  unfold listed. induction msg_nums as [| k l IH]; [reflexivity |].
  cbn [fmap list_fmap mbind list_bind concat]. now rewrite <- IH.
Qed.

(** X23: what [analysis_command] answers.  Without matches it says so.
    When the analysis of some match raises, it sends the error message.
    When every analysis returns, it keeps the analyses with a confidence
    above 0: with none it says that no analysis is available; otherwise
    it sends the statistics, then the listings, then the closing message.
    The statistics count the analyses kept and, among them, those with a
    confidence of at least 70, from 50 to below 70, and below 50, which
    add up to the total, and the value bets.  The lines of the listings,
    read in the order sent, show a ranking of the analyses kept by
    descending confidence, one line for each analysis, numbered from 1 to
    the total; every listing holds one to ten lines. *)
Theorem analysis_command_report (self : BettingAnalyzer)
    (matches_data : list (string * list match_record)) :
  let ms := matches_of matches_data in
  let replies := analysis_command self matches_data in
  (matches_data = [] -> replies = [Analysing; NothingToAnalyse])
  /\ (matches_data <> [] ->
      (Exists (fun m => exists e, analyze_match self m = Raise e) ms ->
       replies = [Analysing; AnalysisFailure])
      /\ forall rs,
           Forall2 (fun m r => analyze_match self m = Ok r) ms rs ->
           let kept := List.filter positive rs in
           let total := len kept in
           let high :=
             len (List.filter (fun r => Qle_bool 70 (record_score r)) kept) in
           let medium :=
             len (List.filter (fun r => Qle_bool 50 (record_score r)
                                        && Qlt_bool (record_score r) 70)
                    kept) in
           let low :=
             len (List.filter (fun r => Qlt_bool (record_score r) 50) kept) in
           let value_bets := len (List.filter record_value kept) in
           (kept = [] -> replies = [Analysing; NoAnalysis])
           /\ (kept <> [] ->
               exists ranked listings,
                 replies
                 = Analysing
                   :: Statistics total high medium low value_bets
                   :: listings ++ [Finished total high value_bets]
                 /\ ranked ≡ₚ kept
                 /\ StronglySorted
                      (fun a b => record_score b <= record_score a) ranked
                 /\ Forall2 shows ranked (listed listings)
                 /\ line_number <$> listed listings = seqZ 1 total
                 /\ Forall (fun reply =>
                      exists first last lines,
                        reply = Listing first last total lines
                        /\ (1 <= length lines <= 10)%nat) listings
                 /\ (high + medium + low = total)%Z)).
Proof.
  intros ms replies. subst replies. unfold analysis_command.
  split; [now intros -> |]. intros Hne.
  destruct matches_data as [| sd rest]; [congruence |]. clear Hne.
  fold ms. split.
  { intros Hx.
    destruct (collect_analyses_raises self above_zero ms [] Hx) as [e He].
    now rewrite He. }
  intros rs H2. set (kept := List.filter positive rs).
  assert (H3 : Forall2 (fun m r => analyze_match self m = Ok r
                                   /\ above_zero r = Ok (positive r)) ms rs).
  { eapply Forall2_impl; [exact H2 |]. intros m r E.
    split; [exact E | now apply (analysis_listable self m)]. }
  rewrite (collect_analyses_returns self _ positive ms rs [] H3).
  cbn [app]. fold kept.
  assert (Lk : Forall listable kept).
  { apply Forall_filter_true. apply (Forall2_Forall_r _ _ _ _ H2).
    apply Forall_forall. intros m _ r E _.
    now apply (analysis_listable self m). }
  split; [now intros -> |]. intros Hk.
  destruct kept as [| r0 kept'] eqn:Ek; [congruence |]. rewrite <- Ek in *.
  clear Hk.
  assert (Hpos : (0 < len kept)%Z) by (rewrite Ek; unfold len; cbn; lia).
  replace (match kept with [] => [NoAnalysis] | _ :: _ => _ end)
    with (match sort_analyses kept with
          | Ok all_analyses =>
              match statistics all_analyses with
              | Ok (high_confidence, medium_confidence, low_confidence,
                    value_bets) =>
                  Statistics (len all_analyses) high_confidence
                    medium_confidence low_confidence value_bets ::
                  match send_listings all_analyses
                          (seqZ 0 (total_messages all_analyses)) with
                  | (sent, Some _) => sent ++ [AnalysisFailure]
                  | (sent, None) =>
                      sent ++ [Finished (len all_analyses) high_confidence
                                 value_bets]
                  end
              | Raise _ => [AnalysisFailure]
              end
          | Raise _ => [AnalysisFailure]
          end) by (now rewrite Ek).
  clear Ek r0 kept'.
  set (sorted := sort_by_key true (zip (record_score <$> kept) kept)).
  assert (Ps : sorted ≡ₚ kept) by apply sorted_by_key_perm.
  assert (Ls : Forall listable sorted) by now rewrite Ps.
  assert (Ss : StronglySorted (fun a b => record_score b <= record_score a) sorted)
    by apply sort_by_key_descending.
  assert (Len : len sorted = len kept) by (unfold len; now rewrite Ps).
  unfold sort_analyses. rewrite (traverse_scores kept Lk). cbn [result_bind].
  fold sorted. rewrite (statistics_counts sorted Ls).
  destruct (listing_lines_spec 1 sorted Ls) as (lines & EL & H2L & Hnum).
  assert (Ll : length lines = length sorted)
    by (now apply (listing_lines_length 1)).
  rewrite (send_listings_ok sorted lines _ EL).
  2: { apply Forall_forall. intros k Hi.
       apply list_elem_of_lookup in Hi as [i Hi].
       apply lookup_seqZ in Hi as [-> _]. lia. }
  assert (Tm : total_messages sorted = total_messages lines)
    by (unfold total_messages, len; now rewrite Ll).
  assert (Listed : listed ((fun msg_num =>
             Listing (msg_num * 10 + 1) (Z.min ((msg_num + 1) * 10) (len sorted))
               (len sorted) (analyses_chunk lines msg_num))
             <$> seqZ 0 (total_messages sorted)) = lines).
  { rewrite listed_sent, Tm. apply chunks_concat. }
  set (listings := _ <$> seqZ 0 (total_messages sorted)) in *.
  rewrite !(filter_length_perm _ sorted kept Ps), Len.
  exists sorted, listings. split; [reflexivity |]. rewrite Listed.
  split; [exact Ps |]. split; [exact Ss |]. split.
  { eapply Forall2_impl; [exact H2L |]. now intros a line [? _]. }
  split; [now rewrite <- Len |]. split.
  { unfold listings. rewrite Tm, Len. apply Forall_fmap.
    pose proof (chunk_sizes lines) as Cs. apply Forall_fmap in Cs.
    eapply Forall_impl; [exact Cs |]. intros k Hc. cbn in Hc |- *. eauto. }
  pose proof (bands_partition record_score kept) as B. unfold len. lia.
Qed.

(** ** The further properties at concrete inputs *)

Lemma best_odds_available_iff_witness :
  is_Some (_get_best_odds_from_match demo_match).
Proof.
  apply (proj2 (best_odds_available_iff demo_match)).
  exists {| q_name := "Lyon"; q_price := 2.10 |}.
  split; [left | split; reflexivity].
Defined.

Lemma best_odds_are_maxima_witness :
  dom demo_best_odds = {[ "home"; "draw"; "away" ]}
  /\ 0 < odds_get demo_best_odds "home" 0.
Proof.
  assert (H : _get_best_odds_from_match demo_match = Some demo_best_odds)
    by (vm_compute; reflexivity).
  destruct (best_odds_are_maxima demo_match demo_best_odds H) as (H1 & H2 & _).
  split; [exact H1 | exact H2].
Defined.




Lemma format_then_read_witness :
  exists y, decimal_float (format_2f 2.255) = Some y /\ y == py_round2 2.255.
Proof.
  assert (H : 0 <= 2.255) by (vm_compute; discriminate).
  exact (proj2 (format_then_read 2.255 H)).
Defined.


Lemma risk_level_monotone_witness :
  (risk_rank (_calculate_risk_level 1.5) <= risk_rank (_calculate_risk_level 3))%nat.
Proof.
  assert (H : 1.5 <= 3) by (vm_compute; discriminate).
  exact (proj1 (risk_level_monotone 1.5 3 H)).
Defined.


Lemma is_value_bet_false_covered_witness :
  odds_cover boundary_odds [("home"%string, 0.3)].
Proof.
  apply (is_value_bet_false_covered default_analyzer boundary_odds
           [("home"%string, 0.3)]).
  reflexivity.
Defined.

Lemma test_store_combinable :
  Forall (combinable decimal_float test_store) test_analyses.
Proof.
  repeat (apply Forall_cons_2;
          [split; [eexists; reflexivity |];
           split; [do 2 eexists; split; reflexivity | eexists; reflexivity] |]).
  apply Forall_nil_2.
Qed.

Lemma combination_totals_witness :
  exists c,
    _create_combination decimal_float [0; 1; 2; 3]%nat "Combiné" rounding_store
    = (Ok c, rounding_store)
    /\ matches c = leg_of rounding_store <$> [0; 1; 2; 3]%nat
    /\ total_odds c = b64 4.73
    /\ potential_return c = b64 47.25.
Proof.
  destruct (combination_totals decimal_float rounding_store [0; 1; 2; 3]%nat
              "Combiné")
    as (c & H1 & _ & H2 & H3 & H4 & _).
  - discriminate.
  - repeat (apply Forall_cons_2;
            [split; [eexists; reflexivity |];
             split; [do 2 eexists; split; reflexivity | eexists; reflexivity] |]).
    apply Forall_nil_2.
  - exists c. split; [exact H1 |]. split; [exact H2 |].
    split; [rewrite H3 | rewrite H4]; vm_compute; reflexivity.
Defined.

Lemma average_confidence_bounds_witness :
  exists c,
    _create_combination decimal_float test_analyses "Combiné" test_store
    = (Ok c, test_store)
    /\ (50 <= avg_confidence c <= 80)%Z.
Proof.
  apply (average_confidence_bounds decimal_float test_store test_analyses
           "Combiné" 50 80).
  - discriminate.
  - exact test_store_combinable.
  - repeat (apply Forall_cons_2;
            [split; apply Qle_bool_iff; reflexivity |]).
    apply Forall_nil_2.
Defined.

Lemma generate_combinations_zero_size_witness :
  generate_combinations decimal_float (fun l => l) test_analyses 0 test_store
  = (Raise ZeroDivisionError, test_store).
Proof.
  apply generate_combinations_zero_size.
  repeat (apply Forall_cons_2; [eexists; reflexivity |]). apply Forall_nil_2.
Defined.

Lemma flagged_store_combinable :
  Forall (combinable decimal_float flagged_store) flagged_analyses.
Proof.
  repeat (apply Forall_cons_2;
          [split; [eexists; reflexivity |];
           split; [do 2 eexists; split; reflexivity | eexists; reflexivity] |]).
  apply Forall_nil_2.
Qed.

Lemma generate_combinations_structure_witness :
  exists safe optional mixed,
    generate_combinations decimal_float reverse flagged_analyses 3 flagged_store
    = (Ok (safe :: optional ++ [mixed]), flagged_store)
    /\ combo_type safe = "Combiné Sûr"%string
    /\ combo_type mixed = "Combiné Mixte"%string.
Proof.
  destruct (generate_combinations_structure decimal_float reverse
              flagged_analyses 3 flagged_store)
    as (safe & optional & mixed & H1 & _ & H2 & _ & H3 & _).
  - intros l. apply reverse_Permutation.
  - exact flagged_store_combinable.
  - repeat (apply Forall_cons_2; [eexists; reflexivity |]). apply Forall_nil_2.
  - split; [reflexivity | vm_compute; discriminate].
  - exists safe, optional, mixed. split; [exact H1 | split; [exact H2 | exact H3]].
Defined.

Lemma tier_combination_structure_witness :
  exists c h' bets,
    generate_specific_combination decimal_float test_analyses "HIGH_RISK"
      test_store = (Ok (Some c), h')
    /\ same_but_extracted test_store h'
    /\ matches c = leg_of test_store <$> bets
    /\ bets ⊆ test_analyses.
Proof.
  destruct (tier_combination_structure decimal_float test_analyses "HIGH_RISK"
              test_store)
    as (c & h' & bets & H1 & H2 & _ & H3 & H4 & _).
  - right. right. reflexivity.
  - vm_compute. discriminate.
  - exact test_store_combinable.
  - exists c, h', bets. repeat split; assumption.
Defined.


Lemma sports_api_best_odds_iff_witness :
  is_Some (_get_best_odds named_bookmakers).
Proof.
  apply (proj2 (sports_api_best_odds_iff named_bookmakers)).
  exists {| bk_home_team := Some "Lyon"%string;
            bk_away_team := Some "Paris"%string;
            bk_markets := Some
              [ {| mk_key := "h2h";
                   mk_outcomes :=
                     [ {| q_name := "Lyon"; q_price := 2.10 |};
                       {| q_name := "Paris"; q_price := 3.40 |};
                       {| q_name := "Draw"; q_price := 3.20 |} ] |} ] |},
         {| q_name := "Lyon"; q_price := 2.10 |}.
  split; [left |]. split; [left |]. split; reflexivity.
Defined.


Lemma demo_plain_names : Forall plain_names (matches_of demo_matches_data).
Proof.
  repeat (apply Forall_cons_2; [split; reflexivity |]). apply Forall_nil_2.
Qed.

Lemma demo_analyses_returned :
  Forall2 (fun m r => analyze_match default_analyzer m = Ok r)
    (matches_of demo_matches_data) demo_analyses.
Proof.
  unfold demo_analyses. apply Forall2_fmap_r. apply Forall_Forall2_diag.
  repeat (apply Forall_cons_2; [vm_compute; reflexivity |]). apply Forall_nil_2.
Qed.

Lemma tiny_price_raises :
  Exists (fun m => exists e, analyze_match default_analyzer m = Raise e)
    (matches_of tiny_price_data).
Proof.
  apply Exists_cons_tl, Exists_cons_hd. exists ValueError.
  vm_compute. reflexivity.
Qed.

Lemma tiny_price_plain_names : Forall plain_names (matches_of tiny_price_data).
Proof.
  repeat (apply Forall_cons_2; [split; reflexivity |]). apply Forall_nil_2.
Qed.

Lemma by_level_within_tier_witness :
  (exists name ranked,
     combo_type_names !! "HIGH_RISK"%string = Some name
     /\ _generate_combinations_by_level decimal_float default_analyzer
          "HIGH_RISK" demo_matches_data
        = Ok [Progress;
              Shown (combination_from decimal_float name (take 5 ranked));
              Advice]
     /\ ranked ≡ₚ List.filter (suitable high_risk_info) demo_analyses)
  /\ _generate_combinations_by_level decimal_float default_analyzer
       "HIGH_RISK" tiny_price_data
     = Ok [Progress; Failure].
Proof.
  split.
  - destruct (by_level_within_tier default_analyzer "HIGH_RISK" high_risk_info
                demo_matches_data eq_refl demo_plain_names) as [_ H].
    destruct H as [_ H]; [discriminate |].
    destruct (H demo_analyses demo_analyses_returned) as (_ & _ & H3).
    destruct H3 as (name & ranked & N & R & P & _); [vm_compute; lia |].
    exists name, ranked. split; [exact N |]. split; [exact R | exact P].
  - destruct (by_level_within_tier default_analyzer "HIGH_RISK" high_risk_info
                tiny_price_data eq_refl tiny_price_plain_names) as [_ H].
    destruct H as [H _]; [discriminate |].
    exact (H tiny_price_raises).
Defined.

Lemma combinations_command_reliable_witness :
  (exists ranked shuffled,
     ranked ≡ₚ List.filter reliable demo_analyses
     /\ StronglySorted (fun a b => record_score b <= record_score a) ranked
     /\ shuffled ≡ₚ List.filter reliable demo_analyses
     /\ _generate_combinations decimal_float reverse default_analyzer
          demo_matches_data
        = [Progress;
           Shown (combination_from decimal_float "Combiné Sûr"
                    (take 3 ranked));
           Shown (combination_from decimal_float "Combiné Mixte"
                    (take 3 shuffled));
           Advice])
  /\ _generate_combinations decimal_float reverse default_analyzer
       tiny_price_data
     = [Progress; Failure].
Proof.
  split.
  - destruct (combinations_command_reliable reverse default_analyzer
                demo_matches_data reverse_Permutation demo_plain_names)
      as [_ H].
    destruct H as [_ H]; [discriminate |].
    destruct (H demo_analyses demo_analyses_returned) as (_ & H3).
    destruct H3 as (ranked & shuffled & P & S & P' & R); [vm_compute; lia |].
    exists ranked, shuffled. split; [exact P |]. split; [exact S |].
    split; [exact P' | exact R].
  - destruct (combinations_command_reliable reverse default_analyzer
                tiny_price_data reverse_Permutation tiny_price_plain_names)
      as [_ H].
    destruct H as [H _]; [discriminate |].
    exact (H tiny_price_raises).
Defined.

Lemma analysis_command_report_witness :
  (exists ranked listings,
     analysis_command default_analyzer demo_matches_data
     = Analysing :: Statistics 4 2 2 0 2 :: listings ++ [Finished 4 2 2]
     /\ ranked ≡ₚ demo_analyses
     /\ StronglySorted (fun a b => record_score b <= record_score a) ranked
     /\ Forall2 shows ranked (listed listings)
     /\ line_number <$> listed listings = [1; 2; 3; 4]%Z)
  /\ analysis_command default_analyzer tiny_price_data
     = [Analysing; AnalysisFailure].
Proof.
  split.
  - destruct (analysis_command_report default_analyzer demo_matches_data)
      as [_ H].
    destruct H as [_ H]; [discriminate |].
    destruct (H demo_analyses demo_analyses_returned) as (_ & H3).
    destruct H3 as (ranked & listings & R & P & S & F & N & _);
      [vm_compute; discriminate |].
    exists ranked, listings. split; [exact R |]. split; [exact P |].
    split; [exact S |]. split; [exact F | exact N].
  - destruct (analysis_command_report default_analyzer tiny_price_data)
      as [_ H].
    destruct H as [H _]; [discriminate |].
    exact (H tiny_price_raises).
Defined.

Lemma analysis_odds_read_back_witness :
  exists text x,
    default ∅ (demo_analyses !! 0%nat) !! "recommendation" = Some text
    /\ extract_odds decimal_float text = Ok x
    /\ x == py_round2
              (Binary64.recommended_odds
                 (match_best_bet demo_match demo_best_odds)).
Proof.
  apply (analysis_odds_read_back default_analyzer demo_match demo_best_odds).
  - vm_compute. reflexivity.
  - split; reflexivity.
  - vm_compute. reflexivity.
Defined.
